(** * agent-instant-stack (dcsandbox): sandbox lifecycle, MCP proxy, project detection

    A shallow embedding of the TypeScript sources

      - [src/lib/mcp-proxy.ts]        (port allocator, JSON-RPC dispatch),
      - [src/lib/sandbox-manager.ts]  (record store and lifecycle operations),
      - [src/lib/project-detector.ts] (scored language detectors),
      - [src/lib/template-manager.ts] (template files),
      - [src/commands/create.ts]      (the create pipeline),
      - [src/commands/stop.ts], [remove.ts], [cleanup.ts],

    followed by the properties the specification states about them, and by
    further properties of the code.

    Conventions.  A JavaScript [number] that the code only ever uses as a
    small integer (ports, byte counts, time stamps) is a [Z]; the detector
    confidences, the [cpu] limit and the numbers inside a JSON-RPC frame are
    IEEE-754 binary64 values ([spec_float] with precision 53 and maximal
    exponent 1024).  A piece of JSON text is represented by the value that
    [JSON.parse] reads from it.  [async] functions are run
    sequentially: an [await] is a plain call.  A function that may [throw]
    returns a [completion]; a method that mutates its object or the host
    threads the state explicitly. *)

From Stdlib Require Import ZArith String Ascii List Bool Lia Permutation.
From Stdlib Require Import Floats.SpecFloat.
From stdpp Require Import gmap strings list pretty.

Local Open Scope string_scope.
Local Open Scope Z_scope.
Local Open Scope list_scope.

(** ** JavaScript numbers, values and completions *)

Module Binary64.

(** IEEE-754 binary64, the format of every JavaScript [number]. *)
Definition prec : Z := 53.
Definition emax : Z := 1024.

Definition of_Z (z : Z) : spec_float := binary_normalize prec emax z 0 false.
Definition add : spec_float → spec_float → spec_float := SFadd prec emax.
Definition sub : spec_float → spec_float → spec_float := SFsub prec emax.
Definition div : spec_float → spec_float → spec_float := SFdiv prec emax.
Definition mul : spec_float → spec_float → spec_float := SFmul prec emax.

(** The decimal literal [n/d] (for instance [0.05] is [decimal 5 100]): the
    quotient of two exactly representable integers is rounded once, to the
    nearest binary64, which is the value the literal denotes. *)
Definition decimal (n d : Z) : spec_float := div (of_Z n) (of_Z d).

Definition zero : spec_float := S754_zero false.

(** [a > b] and [a < b] on numbers; both are [false] when an operand is
    NaN. *)
Definition gtb (a b : spec_float) : bool := SFltb b a.
Definition ltb (a b : spec_float) : bool := SFltb a b.

(** Neither NaN nor an infinity. *)
Definition finite (x : spec_float) : bool :=
  match x with
  | S754_zero _ | S754_finite _ _ _ => true
  | _ => false
  end.

(** Zero or a positive finite number. *)
Definition nonneg (x : spec_float) : bool :=
  match x with
  | S754_zero _ | S754_finite false _ _ => true
  | _ => false
  end.

End Binary64.

Module Js.

(** A JavaScript value as it comes out of [JSON.parse] or out of a property
    read: [Undefined] is what a missing property gives, the others are the
    JSON values.  An object is a finite map from its own keys. *)
#[warnings="-register-all"] Inductive value :=
| Undefined
| Null
| Bool (b : bool)
| Num (x : spec_float)
| Str (s : string)
| Arr (items : list value)
| Obj (fields : gmap string value).

(** A template literal with its substitutions still in place:
    [`Unknown tool: ${name}`] is [[Lit "Unknown tool: "; Subst name]]. *)
Inductive piece :=
| Lit (s : string)
| Subst (v : value).
Definition text := list piece.

(** [ToString], which a template literal applies to each substitution:
    does it return?  The values at hand come out of [JSON.parse], so none of
    their properties is a function.  An object is converted by its
    [toString] method, then by [valueOf]: with an own property [toString]
    the first is not callable and the second, own or inherited, gives no
    primitive, which is a [TypeError]; without one,
    [Object.prototype.toString] answers.  An array joins the strings of its
    elements, and fails when one of them does. *)
Fixpoint stringifies (v : value) : bool :=
  match v with
  | Arr items => forallb stringifies items
  | Obj fields => negb (bool_decide (is_Some (fields !! "toString")))
  | _ => true
  end.

(** The exceptions the modelled code can raise: [new Error(message)] from
    the sources, and the ones the runtime raises on its own: [SyntaxError]
    from [JSON.parse], [TypeError] from a property access on [null] or
    [undefined], from a property write on a primitive (the modules are
    strict-mode code) and from calling what is not a function,
    [SystemError] from a failed [fs] or child-process call. *)
Inductive exn :=
| Error (message : text)
| SyntaxError
| TypeError
| SystemError (syscall : string).

Inductive completion (A : Type) :=
| Return (a : A)
| Throw (e : exn).
Arguments Return {A} a.
Arguments Throw {A} e.

Definition throws {A} (c : completion A) : bool :=
  match c with Return _ => false | Throw _ => true end.

(** [error.message] *)
Definition message_of (e : exn) : text :=
  match e with
  | Error message => message
  | SyntaxError => [Lit "Unexpected token"]
  | TypeError => [Lit "Cannot read properties"]
  | SystemError syscall => [Lit syscall]
  end.

(** Sequencing: the first [throw] ends the computation. *)
#[global] Instance completion_ret : MRet completion := @Return.
#[global] Instance completion_bind : MBind completion :=
  λ A B f c, match c with Return a => f a | Throw e => Throw e end.

(** Evaluating a template literal: the string it gives, or the [TypeError]
    of a substitution that cannot be converted. *)
Definition interpolate (t : text) : completion text :=
  if forallb (λ p, match p with Lit _ => true | Subst v => stringifies v end) t
  then Return t
  else Throw TypeError.

(** [v === 'literal']. *)
Definition strict_eq_str (v : value) (s : string) : bool :=
  match v with
  | Str s' => String.eqb s' s
  | _ => false
  end.

(** [v.k] and [v[k]], for the property names the sources use (none of them
    is defined on [Object.prototype], [Array.prototype] or the prototypes of
    the primitives, so only an object's own keys can answer). *)
Definition get (v : value) (k : string) : completion value :=
  match v with
  | Undefined | Null => Throw TypeError
  | Obj fields => Return (default Undefined (fields !! k))
  | _ => Return Undefined
  end.

(** [ToBoolean]. *)
Definition truthy (v : value) : bool :=
  match v with
  | Undefined | Null => false
  | Bool b => b
  | Num x =>
      match x with
      | S754_zero _ | S754_nan => false
      | _ => true
      end
  | Str s => negb (String.eqb s "")
  | Arr _ | Obj _ => true
  end.

(** What [JSON.parse] makes of a piece of text: the text of a frame or of a
    file is represented by the value it denotes, or marked as not being
    JSON at all. *)
Inductive json_text :=
| JsonText (v : value)
| NotJson (raw : string).

Definition JSON_parse (t : json_text) : completion value :=
  match t with
  | JsonText v => Return v
  | NotJson _ => Throw SyntaxError
  end.

(** What [JSON.stringify] writes for a number: NaN and the infinities are
    written as [null], and negative zero as [0]. *)
Definition number_written (x : spec_float) : value :=
  match x with
  | S754_zero _ => Num (S754_zero false)
  | S754_finite _ _ _ => Num x
  | _ => Null
  end.

Definition defined (v : value) : bool :=
  match v with
  | Undefined => false
  | _ => true
  end.

(** What [JSON.stringify] writes for a value, given as the value that the
    text written denotes.  A property that is [undefined] is left out (at
    the top, [Undefined] stands for a field that is left out), and an
    element that is [undefined] is written as [null].  No value at hand has
    a [toJSON] method. *)
Fixpoint JSON_written (v : value) : value :=
  match v with
  | Num x => number_written x
  | Arr items =>
      Arr (map (λ item, match item with
                        | Undefined => Null
                        | _ => JSON_written item
                        end) items)
  | Obj fields =>
      Obj (filter (λ kv, defined kv.2 = true) (JSON_written <$> fields))
  | _ => v
  end.

(** Object literals. *)
Definition obj (fields : list (string * value)) : value :=
  Obj (list_to_map fields).

End Js.
Export Js.

(** ** [types/index.ts]: the records *)

Module Types.

Inductive Status := creating | running | stopped | error.

#[global] Instance Status_eq_dec : EqDecision Status.
Proof. solve_decision. Defined.

Record GitConfig := {
  git_url : string;
  git_branch : string;
  git_clonePath : option string
}.

Record MCPServer := {
  srv_name : string;
  srv_command : string;
  srv_args : list string;
  srv_env : list (string * string);
  srv_enabled : bool
}.

Record MCPConfig := {
  mcp_enabled : bool;
  mcp_servers : list MCPServer;
  mcp_proxyPort : option Z
}.

(** [cpu] is a number in every configuration that the code builds; in one
    that is read back from disk it can be [null] ([None]), which is what
    [JSON.stringify] writes for a number that is not finite. *)
Record ResourceConfig := {
  res_memory : string;
  res_cpu : option spec_float;
  res_disk : string;
  res_timeout : Z
}.

(** A [Date] is its time value in milliseconds; [None] is an invalid
    date, whose [getTime()] is NaN. *)
Definition Date := option Z.

(** [interface SandboxConfig].  An optional field that is absent (or
    [undefined], which [JSON.stringify] drops) is [None]. *)
Record SandboxConfig := {
  id : string;
  name : string;
  status : Status;
  created : Date;
  template : string;
  git : option GitConfig;
  mcp : MCPConfig;
  resources : ResourceConfig;
  containerId : option string;
  mcpPort : option Z
}.

Record Template := {
  tpl_name : string;
  tpl_baseImage : string;
  tpl_features : list string;
  tpl_mcpServers : list MCPServer;
  tpl_postCreate : option (list string);
  tpl_environment : option (list (string * string));
  tpl_ports : option (list Z)
}.

Record CreateOptions := {
  opt_name : option string;
  opt_git : option string;
  opt_branch : option string;
  opt_template : option string;
  opt_memory : option string;
  opt_cpu : option spec_float;
  opt_timeout : option Z;
  opt_persist : option bool;
  opt_autoDetect : option bool
}.

Record ProjectDetection := {
  language : string;
  framework : option string;
  packageManager : option string;
  det_template : string;
  confidence : spec_float
}.

(** Truthiness of an optional string ([!x], [x || y]): absent and empty
    are both falsy. *)
Definition truthy_string (x : option string) : bool :=
  match x with
  | Some s => negb (String.eqb s "")
  | None => false
  end.

(** Truthiness of an optional number that is an integer. *)
Definition truthy_int (x : option Z) : bool :=
  match x with
  | Some n => negb (n =? 0)
  | None => false
  end.

End Types.
Export Types.

(** ** [project-detector.ts] *)

Module ProjectDetector.

Import Binary64.

(** A directory entry as [readdir(..., { withFileTypes: true })] reports
    it.  A directory carries the outcome of listing it in turn ([None]: the
    listing fails); [Other] is an entry that is neither a regular file nor
    a directory. *)
#[warnings="-register-all"] Inductive dirent :=
| File (name : string)
| Directory (name : string) (listing : option (list dirent))
| Other (name : string).

(** What the detectors read of a project: the listing of its root and,
    for [detectNodeJS], the text of [package.json] ([None]: [readFile]
    fails). *)
Record project := {
  root : option (list dirent);
  package_json : option json_text
}.

(** [name.startsWith('.')] *)
Definition hidden (name : string) : bool := String.prefix "." name.

(** [path.join(dir, f)] for an entry name and a relative path below it. *)
Definition join (dir f : string) : string := dir +:+ "/" +:+ f.

(** One iteration of the loop of [getFileList]; the recursive call lists
    the sub-directory, and a sub-directory that cannot be listed
    contributes nothing. *)
Fixpoint files_of (entry : dirent) : list string :=
  match entry with
  | File name => [name]
  | Directory name listing =>
      if negb (hidden name) && negb (String.eqb name "node_modules") then
        map (join name)
            (match listing with
             | Some entries => flat_map files_of entries
             | None => []
             end)
      else []
  | Other _ => []
  end.

Definition getFileList (listing : option (list dirent)) : list string :=
  match listing with
  | Some entries => flat_map files_of entries
  | None => []
  end.

(** [files.includes(x)], [f.endsWith(x)], [f.includes(x)],
    [files.some(p)]. *)
Definition includes (files : list string) (x : string) : bool :=
  existsb (String.eqb x) files.

Definition endsWith (f suffix : string) : bool :=
  let n := String.length f in
  let m := String.length suffix in
  (m <=? n)%nat && String.eqb (String.substring (n - m) m f) suffix.

Definition contains (f x : string) : bool :=
  match String.index 0 x f with Some _ => true | None => false end.

Definition some (p : string → bool) (files : list string) : bool :=
  existsb p files.

(** [if (cond) confidence += weight] *)
Definition bump (cond : bool) (weight : spec_float) (confidence : spec_float)
  : spec_float :=
  if cond then add confidence weight else confidence.

(** [{ ...a, ...b }] as far as the detector looks at it: the keys it reads
    are dependency names, which only an object can carry (an array or a
    string spreads to index keys). *)
Definition spread (a b : value) : gmap string value :=
  let own v := match v with Obj fields => fields | _ => ∅ end in
  own b ∪ own a.

Definition dep (dependencies : gmap string value) (k : string) : bool :=
  truthy (default Undefined (dependencies !! k)).

(** The [try] block of [detectNodeJS]: the framework it finds, or the
    exception of [readFile], [JSON.parse] or [packageJson.dependencies]. *)
Definition read_framework (p : project) : completion (option string) :=
  match package_json p with
  | None => Throw (SystemError "open")
  | Some data =>
      packageJson ← JSON_parse data;
      deps ← get packageJson "dependencies";
      devDeps ← get packageJson "devDependencies";
      let dependencies := spread deps devDeps in
      Return
        (if dep dependencies "react" || dep dependencies "@types/react"
         then Some "react"
         else if dep dependencies "vue" || dep dependencies "@vue/cli"
         then Some "vue"
         else if dep dependencies "next" then Some "nextjs"
         else if dep dependencies "nuxt" then Some "nuxt"
         else if dep dependencies "express" then Some "express"
         else if dep dependencies "nestjs" || dep dependencies "@nestjs/core"
         then Some "nestjs"
         else None)
  end.

Definition is_Some_b {A} (o : option A) : bool :=
  match o with Some _ => true | None => false end.

Definition detectNodeJS (p : project) : ProjectDetection :=
  let files := getFileList (root p) in
  let confidence := zero in
  let '(framework, confidence) :=
    if includes files "package.json" then
      let confidence := add confidence (decimal 8 10) in
      match read_framework p with
      | Return framework =>
          (framework, bump (is_Some_b framework) (decimal 1 10) confidence)
      | Throw _ => (None, sub confidence (decimal 2 10))
      end
    else (None, confidence) in
  let '(packageManager, confidence) :=
    if includes files "package-lock.json"
    then (Some "npm", add confidence (decimal 5 100))
    else if includes files "yarn.lock"
    then (Some "yarn", add confidence (decimal 5 100))
    else if includes files "pnpm-lock.yaml"
    then (Some "pnpm", add confidence (decimal 5 100))
    else (None, confidence) in
  let confidence :=
    bump (some (λ f, endsWith f ".js" || endsWith f ".jsx") files)
         (decimal 1 10) confidence in
  let confidence :=
    bump (some (λ f, endsWith f ".ts" || endsWith f ".tsx") files)
         (decimal 1 10) confidence in
  let confidence :=
    bump (includes files "tsconfig.json") (decimal 5 100) confidence in
  let confidence :=
    bump (includes files ".eslintrc.js" || includes files ".eslintrc.json")
         (decimal 5 100) confidence in
  let template :=
    match framework with
    | Some fw => if String.eqb fw "react" then "react" else "node"
    | None => "node"
    end in
  {| language := "javascript"; framework := framework;
     packageManager := packageManager; det_template := template;
     confidence := confidence |}.

Definition detectPython (p : project) : ProjectDetection :=
  let files := getFileList (root p) in
  let confidence := zero in
  let confidence :=
    bump (some (λ f, endsWith f ".py") files) (decimal 6 10) confidence in
  let '(packageManager, confidence) :=
    if includes files "requirements.txt"
    then (Some "pip", add confidence (decimal 2 10))
    else (None, confidence) in
  let confidence := bump (includes files "setup.py") (decimal 15 100) confidence in
  let confidence := bump (includes files "pyproject.toml") (decimal 1 10) confidence in
  let '(packageManager, confidence) :=
    if includes files "Pipfile"
    then (Some "pipenv", add confidence (decimal 1 10))
    else (packageManager, confidence) in
  let '(packageManager, confidence) :=
    if includes files "poetry.lock"
    then (Some "poetry", add confidence (decimal 1 10))
    else (packageManager, confidence) in
  let '(framework, confidence) :=
    if includes files "manage.py"
    then (Some "django", add confidence (decimal 15 100))
    else if some (λ f, contains f "flask" || contains f "app.py") files
    then (Some "flask", add confidence (decimal 1 10))
    else if includes files "main.py" && some (λ f, contains f "fastapi") files
    then (Some "fastapi", add confidence (decimal 1 10))
    else (None, confidence) in
  let template :=
    match framework with
    | Some fw => if String.eqb fw "django" then "django" else "python"
    | None => "python"
    end in
  {| language := "python"; framework := framework;
     packageManager := packageManager; det_template := template;
     confidence := confidence |}.

Definition detectGo (p : project) : ProjectDetection :=
  let files := getFileList (root p) in
  let confidence := zero in
  let confidence :=
    bump (some (λ f, endsWith f ".go") files) (decimal 7 10) confidence in
  let confidence := bump (includes files "go.mod") (decimal 2 10) confidence in
  let confidence := bump (includes files "go.sum") (decimal 1 10) confidence in
  {| language := "go"; framework := None;
     packageManager := Some "go-modules"; det_template := "go";
     confidence := confidence |}.

Definition detectRust (p : project) : ProjectDetection :=
  let files := getFileList (root p) in
  let confidence := zero in
  let confidence :=
    bump (some (λ f, endsWith f ".rs") files) (decimal 7 10) confidence in
  let confidence := bump (includes files "Cargo.toml") (decimal 25 100) confidence in
  let confidence := bump (includes files "Cargo.lock") (decimal 1 10) confidence in
  {| language := "rust"; framework := None;
     packageManager := Some "cargo"; det_template := "rust";
     confidence := confidence |}.

Definition detectJava (p : project) : ProjectDetection :=
  let files := getFileList (root p) in
  let confidence := zero in
  let confidence :=
    bump (some (λ f, endsWith f ".java") files) (decimal 7 10) confidence in
  let '(packageManager, confidence) :=
    if includes files "pom.xml"
    then (Some "maven", add confidence (decimal 2 10))
    else (None, confidence) in
  let '(packageManager, confidence) :=
    if includes files "build.gradle" || includes files "build.gradle.kts"
    then (Some "gradle", add confidence (decimal 2 10))
    else (packageManager, confidence) in
  let '(framework, confidence) :=
    if some (λ f, contains f "Application.java") files
    then (Some "spring-boot", add confidence (decimal 1 10))
    else (None, confidence) in
  {| language := "java"; framework := framework;
     packageManager := packageManager; det_template := "java";
     confidence := confidence |}.

Definition detectRuby (p : project) : ProjectDetection :=
  let files := getFileList (root p) in
  let confidence := zero in
  let confidence :=
    bump (some (λ f, endsWith f ".rb") files) (decimal 7 10) confidence in
  let confidence := bump (includes files "Gemfile") (decimal 2 10) confidence in
  let confidence := bump (includes files "Gemfile.lock") (decimal 1 10) confidence in
  let '(framework, confidence) :=
    if includes files "config.ru"
    then (Some "rails", add confidence (decimal 1 10))
    else (None, confidence) in
  {| language := "ruby"; framework := framework;
     packageManager := Some "bundler"; det_template := "ruby";
     confidence := confidence |}.

Definition detectPHP (p : project) : ProjectDetection :=
  let files := getFileList (root p) in
  let confidence := zero in
  let confidence :=
    bump (some (λ f, endsWith f ".php") files) (decimal 7 10) confidence in
  let confidence := bump (includes files "composer.json") (decimal 2 10) confidence in
  let confidence := bump (includes files "composer.lock") (decimal 1 10) confidence in
  let '(framework, confidence) :=
    if includes files "artisan"
    then (Some "laravel", add confidence (decimal 1 10))
    else if includes files "index.php" && some (λ f, contains f "symfony") files
    then (Some "symfony", add confidence (decimal 1 10))
    else (None, confidence) in
  {| language := "php"; framework := framework;
     packageManager := Some "composer"; det_template := "php";
     confidence := confidence |}.

Definition detectDotNet (p : project) : ProjectDetection :=
  let files := getFileList (root p) in
  let confidence := zero in
  let confidence :=
    bump (some (λ f, endsWith f ".cs" || endsWith f ".csproj" || endsWith f ".sln")
               files)
         (decimal 7 10) confidence in
  let confidence :=
    bump (some (λ f, endsWith f ".csproj") files) (decimal 2 10) confidence in
  let confidence :=
    bump (some (λ f, endsWith f ".sln") files) (decimal 1 10) confidence in
  {| language := "csharp"; framework := None;
     packageManager := Some "nuget"; det_template := "dotnet";
     confidence := confidence |}.

Definition detectors : list (project → ProjectDetection) :=
  [detectNodeJS; detectPython; detectGo; detectRust;
   detectJava; detectRuby; detectPHP; detectDotNet].

Definition unknown : ProjectDetection :=
  {| language := "unknown"; framework := None; packageManager := None;
     det_template := "base"; confidence := zero |}.

(** The callback of [results.reduce(...)]. *)
Definition better (best current : ProjectDetection) : ProjectDetection :=
  if gtb (confidence current) (confidence best) then current else best.

(** The detections that [detectProject] keeps: [confidence > 0]. *)
Definition candidates (p : project) : list ProjectDetection :=
  filter (λ r, gtb (confidence r) zero = true) (map (λ detector, detector p) detectors).

Definition detectProject (p : project) : ProjectDetection :=
  match candidates p with
  | [] => unknown
  | first :: rest => fold_left better rest first
  end.

End ProjectDetector.

(** ** The host: file system, container runtime, git

    Everything outside the process is reached through calls whose outcome
    the code cannot know in advance.  A run is therefore described relative
    to a [Host.t], which answers, for each call, whether it succeeds and with
    what; the calls issued are collected in a trace, in program order. *)

Module Host.

(** The paths the sources build with [path.join], by what they denote.
    Sandbox ids are directory names. *)
Inductive path :=
| SandboxesDir                       (* ~/.dcsandbox/sandboxes *)
| SandboxDir (id : string)           (* <sandboxes>/<id> *)
| Workspace (id : string)            (* <sandboxes>/<id>/workspace *)
| Dockerfile (id : string)           (* <sandboxes>/<id>/Dockerfile *)
| DevcontainerDir (id : string)      (* <sandboxes>/<id>/.devcontainer *)
| DevcontainerJson (id : string)     (* .../.devcontainer/devcontainer.json *)
| ConfigJson (id : string)           (* <sandboxes>/<id>/config.json *)
| CacheDir                           (* ~/.dcsandbox/git-cache *)
| CloneDir (id : string)             (* <git-cache>/<id> *)
| GitDir (id : string).              (* <git-cache>/<id>/.git *)

(** The text handed to [fs.writeFile]. *)
Inductive data :=
| DockerfileText (text : string)
| DevcontainerText (template : Template)
| RecordText (config : SandboxConfig).

Inductive event :=
| Mkdir (p : path)                              (* fs.mkdir(p, {recursive}) *)
| CopyDirectory (src : string) (dest : path)    (* this.copyDirectory *)
| WriteFile (p : path) (d : data)               (* fs.writeFile *)
| Rename (src dest : path)                      (* fs.rename *)
| Rm (p : path)                                 (* fs.rm(p, {recursive, force}) *)
| Access (p : path)                             (* fs.access *)
| GitClone (url branch : string) (dest : path)  (* git.clone, shallow *)
| BuildImage (context : path) (tag : string)
| CreateContainer (name image : string) (memory : Z) (nanoCpus : spec_float)
| StartContainer (containerId : string)
| StopContainer (containerId : string)
| InspectContainer (containerId : string)
| Exec (containerId : string) (command : string)
| Spawn (server : MCPServer)
| Listen (port : Z).

Record t := {
  homedir : string;                   (* os.homedir() *)
  nanoid : string;                    (* nanoid(8) *)
  now : Z;                            (* Date.now(), when a name is made up *)
  clock : Z;                          (* new Date(), when the record is built *)
  succeeds : event → bool;            (* does this call succeed? *)
  container_id : string → string;     (* the id docker gives a new container *)
  cloned : string → string → ProjectDetector.project;
                                      (* the tree a clone leaves behind *)
  templates : string → option Template  (* TemplateManager.getTemplate *)
}.

(** The sandboxes directory, as far as the manager reads it back. *)
Inductive dir_state :=
| Absent
| NotDirectory
| Unlistable
| Entries (names : list string).

(** What is found at [<sandboxes>/<id>/config.json]. *)
Inductive file_state :=
| Unreadable
| NotJson
| ScalarJson
| RecordJson (stored : SandboxConfig).

(** The files are kept by the id under which the code asks for them: an id
    stands for the directory of that name, so it is taken to be one path
    segment ([path.join] would read [./b] as another spelling of [b]), on a
    file system that tells names apart exactly.
    [configs !! id = None]: there is no such file (or no such
    directory).  [RecordJson c]: the file holds a JSON object, which the
    code reads through [interface SandboxConfig] without checking it; [c]
    is that reading.  [ScalarJson]: valid JSON that is not an object
    ([null], a number, a string, a boolean).  [NotJson]: [JSON.parse]
    throws.  [Unreadable]: [readFile] throws. *)
Record disk := {
  sandboxes : dir_state;
  configs : gmap string file_state
}.

(** [Date.prototype.toJSON] followed by [new Date(...)]: a valid date comes
    back as it was; an invalid one is written as [null], which reads back
    as the epoch. *)
Definition reread_date (d : Date) : Date :=
  match d with
  | Some t => Some t
  | None => Some 0
  end.

(** A number written by [JSON.stringify] and read back: NaN and the
    infinities are written as [null] and stay [null], negative zero is
    written as [0]. *)
Definition reread_number (x : option spec_float) : option spec_float :=
  match x with
  | Some (S754_zero _) => Some (S754_zero false)
  | Some (S754_finite s m e) => Some (S754_finite s m e)
  | Some S754_nan | Some (S754_infinity _) | None => None
  end.

Definition reread_resources (r : ResourceConfig) : ResourceConfig :=
  {| res_memory := res_memory r; res_cpu := reread_number (res_cpu r);
     res_disk := res_disk r; res_timeout := res_timeout r |}.

(** [JSON.stringify(config)] as [getSandbox] will read it back.  The other
    fields are strings, integers and optional fields, which come back as
    they were. *)
Definition stored (c : SandboxConfig) : SandboxConfig :=
  {| id := id c; name := name c; status := status c;
     created := reread_date (created c); template := template c;
     git := git c; mcp := mcp c; resources := reread_resources (resources c);
     containerId := containerId c; mcpPort := mcpPort c |}.

Definition add_entry (name : string) (d : dir_state) : dir_state :=
  match d with
  | Absent => Entries [name]
  | Entries names =>
      if bool_decide (name ∈ names) then d else Entries (names ++ [name])
  | _ => d
  end.

(** A call that cannot succeed whatever the host says. *)
Definition impossible (e : event) (d : disk) : bool :=
  match e, sandboxes d with
  | Mkdir (SandboxesDir | SandboxDir _ | Workspace _ | DevcontainerDir _),
    NotDirectory => true
  | WriteFile (Dockerfile _ | DevcontainerJson _ | ConfigJson _) _,
    (Absent | NotDirectory) => true
  | _, _ => false
  end.

(** The effect of a successful call on what will be read back. *)
Definition apply (e : event) (d : disk) : disk :=
  match e with
  | Mkdir SandboxesDir =>
      {| sandboxes := match sandboxes d with Absent => Entries [] | st => st end;
         configs := configs d |}
  | Mkdir (SandboxDir id) =>
      {| sandboxes := add_entry id (sandboxes d); configs := configs d |}
  | WriteFile (ConfigJson id) (RecordText c) =>
      {| sandboxes := sandboxes d;
         configs := <[id := RecordJson (stored c)]> (configs d) |}
  | _ => d
  end.

End Host.

(** ** [mcp-proxy.ts]: JSON-RPC dispatch of [class MCPProxyInstance] *)

Module MCPProxyInstance.

Record t := {
  sandboxId : string;
  port : Z;
  mcpServerConfigs : list MCPServer
}.

(** [{ isError, content: [{ type, text }] }] *)
Record TextContent := { type : string; text : Js.text }.
Record ToolResult := { isError : bool; content : list TextContent }.

Record Tool := {
  tool_name : string;
  tool_description : string;
  tool_properties : list (string * string);
  tool_required : list string
}.

Record Resource := {
  uri : string;
  res_name : string;
  res_description : string;
  mimeType : string
}.

(** The object [{ protocolVersion, capabilities, serverInfo }] that both
    the greeting and the answer to [initialize] carry. *)
Record Hello := {
  protocolVersion : string;
  capabilities : list string;
  serverInfo_name : string;
  serverInfo_version : string
}.

Definition hello : Hello := {|
  protocolVersion := "2024-11-05";
  capabilities := ["tools"; "resources"; "prompts"];
  serverInfo_name := "dcsandbox-proxy";
  serverInfo_version := "1.0.0"
|}.

Inductive payload :=
| PHello (h : Hello)
| PTools (tools : list Tool)
| PToolResult (r : ToolResult)
| PResources (resources : list Resource)
| PContents (contents : list ToolResult).

(** The frames sent by [ws.send(JSON.stringify(...))], as they are
    written: the [id] is what [JSON.stringify] writes for the [id] of the
    object, and an [id] that is [Undefined] is a field left out. *)
Inductive rpc :=
| Notification (method : string) (params : payload)
| Result (result : payload) (id : value)
| Failure (code : Z) (message : string) (id : value).

(** What a handler does to its socket. *)
Inductive ws_action :=
| Send (m : rpc)
| Close.

Definition getAvailableTools : list Tool := [
  {| tool_name := "filesystem_read";
     tool_description := "Read file contents from the sandbox";
     tool_properties := [("path", "File path relative to workspace")];
     tool_required := ["path"] |};
  {| tool_name := "filesystem_write";
     tool_description := "Write content to a file in the sandbox";
     tool_properties := [("path", "File path relative to workspace");
                         ("content", "File content")];
     tool_required := ["path"; "content"] |};
  {| tool_name := "shell_execute";
     tool_description := "Execute shell command in the sandbox";
     tool_properties := [("command", "Shell command to execute")];
     tool_required := ["command"] |}
].

Definition getAvailableResources : list Resource := [
  {| uri := "file:///workspace";
     res_name := "Workspace";
     res_description := "Sandbox workspace directory";
     mimeType := "inode/directory" |}
].

Definition text_result (t : Js.text) : ToolResult :=
  {| isError := false; content := [{| type := "text"; text := t |}] |}.

(** The three handlers build their answer with a template literal over
    their argument, whatever value it is. *)
Definition handleFilesystemRead (this : t) (path : value) : completion ToolResult :=
  text ← interpolate [Lit "Content of "; Subst path; Lit " from sandbox ";
                      Lit (sandboxId this)];
  Return (text_result text).

Definition handleFilesystemWrite (this : t) (path content : value)
  : completion ToolResult :=
  text ← interpolate [Lit "Successfully wrote to "; Subst path;
                      Lit " in sandbox "; Lit (sandboxId this)];
  Return (text_result text).

Definition handleShellExecute (this : t) (command : value) : completion ToolResult :=
  text ← interpolate [Lit "Executed: "; Subst command;
                      Lit "
Output: Command executed successfully in sandbox ";
                      Lit (sandboxId this)];
  Return (text_result text).

Definition callTool (this : t) (name args : value) : completion ToolResult :=
  if strict_eq_str name "filesystem_read" then
    path ← get args "path";
    handleFilesystemRead this path
  else if strict_eq_str name "filesystem_write" then
    path ← get args "path";
    content ← get args "content";
    handleFilesystemWrite this path content
  else if strict_eq_str name "shell_execute" then
    command ← get args "command";
    handleShellExecute this command
  else
    message ← interpolate [Lit "Unknown tool: "; Subst name];
    Throw (Error message).

(** [uri.startsWith('file://')] needs [uri] to be a string: on [null] or
    [undefined] the property read throws, on any other value the property
    is not a function and the call throws. *)
Definition readResource (this : t) (uri : value) : completion ToolResult :=
  match uri with
  | Str u =>
      if String.prefix "file://" u then
        (* [replace] rewrites the first occurrence, the prefix itself *)
        let filePath := String.substring 7 (String.length u - 7) u in
        handleFilesystemRead this (Str filePath)
      else
        message ← interpolate [Lit "Unsupported resource URI: "; Subst uri];
        Throw (Error message)
  | _ => Throw TypeError
  end.

(** [ws.send(JSON.stringify({ jsonrpc: '2.0', result, id }))] and its
    sibling for errors. *)
Definition send_result (result : payload) (id : value) : ws_action :=
  Send (Result result (JSON_written id)).

Definition send_error (code : Z) (message : string) (id : value) : ws_action :=
  Send (Failure code message (JSON_written id)).

Definition forwardToMCPServer (message : value) : completion (list ws_action) :=
  id ← get message "id";
  Return [send_error (-32601) "Method not found" id].

(** [handleMCPMessage]: the frames it sends, unless it throws first.  Every
    branch sends at most once and as its last step, so a throw means that
    nothing was sent. *)
Definition handleMCPMessage (this : t) (message : value)
  : completion (list ws_action) :=
  method ← get message "method";
  params ← get message "params";
  id ← get message "id";
  if strict_eq_str method "initialize" then
    Return [send_result (PHello hello) id]
  else if strict_eq_str method "tools/list" then
    Return [send_result (PTools getAvailableTools) id]
  else if strict_eq_str method "tools/call" then
    name ← get params "name";
    args ← get params "arguments";
    result ← callTool this name args;
    Return [send_result (PToolResult result) id]
  else if strict_eq_str method "resources/list" then
    Return [send_result (PResources getAvailableResources) id]
  else if strict_eq_str method "resources/read" then
    uri ← get params "uri";
    resource ← readResource this uri;
    Return [send_result (PContents [resource]) id]
  else forwardToMCPServer message.

Definition parse_error : rpc := Failure (-32700) "Parse error" Null.

(** The ['message'] listener that [handleConnection] installs: parsing and
    handling sit in one [try], and its [catch] answers every exception the
    same way. *)
Definition onMessage (this : t) (data : json_text) : list ws_action :=
  match message ← JSON_parse data; handleMCPMessage this message with
  | Return sent => sent
  | Throw _ => [Send parse_error]
  end.

(** [handleConnection] proper: after installing the listeners it greets
    the client. *)
Definition handleConnection (this : t) : list ws_action :=
  [Send (Notification "initialized" (PHello hello))].

(** The [id] field of a frame sent, and the [id] that a parsed request
    carries ([Undefined]: there is no such field). *)
Definition id_of (m : rpc) : value :=
  match m with
  | Notification _ _ => Undefined
  | Result _ id | Failure _ _ id => id
  end.

Definition request_id (message : value) : value :=
  match get message "id" with
  | Return id => id
  | Throw _ => Undefined
  end.

Definition is_reply (m : rpc) : bool :=
  match m with
  | Notification _ _ => false
  | _ => true
  end.

(** [start]: one child process per enabled server, then the WebSocket
    server.  Both report their failures later, through ['error'] events. *)
Definition start (this : t) : list Host.event :=
  map Host.Spawn (List.filter srv_enabled (mcpServerConfigs this))
  ++ [Host.Listen (port this)].

End MCPProxyInstance.

(** ** [mcp-proxy.ts]: the port allocator of [class MCPProxy] *)

Module MCPProxy.

Record PortRange := { min : Z; max : Z }.

Record t := {
  activePorts : gset Z;
  proxies : gmap string MCPProxyInstance.t;
  portRange : PortRange
}.

(** [private portRange = { min: 50000, max: 60000 }] *)
Definition defaultRange : PortRange := {| min := 50000; max := 60000 |}.

(** [new MCPProxy()] *)
Definition new : t :=
  {| activePorts := ∅; proxies := ∅; portRange := defaultRange |}.

(** The body of
    [for (let port = min; port <= max; port++) { if (!has(port)) ... }].
    [steps] bounds the number of iterations; [allocatePort] passes the
    number of ports in the range, which the loop can never exceed. *)
Fixpoint scan (steps : nat) (port hi : Z) (active : gset Z) : option Z :=
  match steps with
  | O => None
  | S steps' =>
      if bool_decide (port ≤ hi) then
        if bool_decide (port ∈ active) then scan steps' (port + 1) hi active
        else Some port
      else None
  end.

Definition allocatePort (this : t) : completion Z * t :=
  let lo := min (portRange this) in
  let hi := max (portRange this) in
  match scan (Z.to_nat (hi - lo + 1)) lo hi (activePorts this) with
  | Some port =>
      (Return port,
       {| activePorts := {[port]} ∪ activePorts this;
          proxies := proxies this;
          portRange := portRange this |})
  | None => (Throw (Error [Lit "No available ports in range"]), this)
  end.

Definition releasePort (port : Z) (this : t) : t :=
  {| activePorts := activePorts this ∖ {[port]};
     proxies := proxies this;
     portRange := portRange this |}.

Definition startProxy (sandboxId : string) (port : Z) (mcpServers : list MCPServer)
    (this : t) : list Host.event * t :=
  let proxy := {| MCPProxyInstance.sandboxId := sandboxId;
                  MCPProxyInstance.port := port;
                  MCPProxyInstance.mcpServerConfigs := mcpServers |} in
  (MCPProxyInstance.start proxy,
   {| activePorts := activePorts this;
      proxies := <[sandboxId := proxy]> (proxies this);
      portRange := portRange this |}).

End MCPProxy.

(** ** The pattern [/^(\d+)([KMGT]?)$/i] of [parseMemory] *)

Module Memory.

(** [\d]: an ASCII digit. *)
Definition is_digit (c : ascii) : bool :=
  let n := nat_of_ascii c in (48 <=? n)%nat && (n <=? 57)%nat.

(** [[KMGT]] under the [i] flag: the four letters in either case. *)
Definition is_unit (c : ascii) : bool :=
  match c with
  | "K" | "M" | "G" | "T" | "k" | "m" | "g" | "t" => true
  | _ => false
  end%char.

(** The longest prefix of digits, and what follows it: how the greedy
    [\d+] splits its input. *)
Fixpoint span_digits (s : string) : string * string :=
  match s with
  | EmptyString => (EmptyString, EmptyString)
  | String c rest =>
      if is_digit c then
        let (ds, tl) := span_digits rest in (String c ds, tl)
      else (EmptyString, s)
  end.

(** [memoryStr.match(/^(\d+)([KMGT]?)$/i)]: the two capture groups, or
    [None] for [null]. *)
Definition match_memory (s : string) : option (string * string) :=
  let (ds, tl) := span_digits s in
  match ds, tl with
  | EmptyString, _ => None
  | _, EmptyString => Some (ds, EmptyString)
  | _, String u EmptyString =>
      if is_unit u then Some (ds, tl) else None
  | _, _ => None
  end.

Definition digit_value (c : ascii) : Z := Z.of_nat (nat_of_ascii c) - 48.

(** [parseInt] on a string of decimal digits.  The result is the integer
    the digits denote; a [number] holds it exactly as long as it does not
    exceed 2^53, and so it does its products with powers of two. *)
Fixpoint parseInt_from (acc : Z) (s : string) : Z :=
  match s with
  | EmptyString => acc
  | String c rest => parseInt_from (10 * acc + digit_value c) rest
  end.
Definition parseInt (s : string) : Z := parseInt_from 0 s.

(** [String.prototype.toUpperCase] on the one-character unit. *)
Definition toUpperCase_unit (c : ascii) : ascii :=
  match c with
  | "k" => "K" | "m" => "M" | "g" => "G" | "t" => "T" | _ => c
  end%char.

(** The grammar as the specification words it: one or more digits, then at
    most one of the letters K, M, G, T in either case, and nothing else. *)
Fixpoint all_digits (s : string) : bool :=
  match s with
  | EmptyString => true
  | String c rest => is_digit c && all_digits rest
  end.

Definition unit_suffix (u : string) : bool :=
  match u with
  | EmptyString => true
  | String c EmptyString => is_unit c
  | _ => false
  end.

Definition grammar (s : string) : Prop :=
  ∃ digits unit,
    s = digits +:+ unit
    ∧ digits ≠ EmptyString
    ∧ all_digits digits = true
    ∧ unit_suffix unit = true.

(** No unit: bytes; K, M, G, T: 2^10, 2^20, 2^30, 2^40. *)
Definition multiplier (unit : string) : Z :=
  match unit with
  | String c _ =>
      match toUpperCase_unit c with
      | "K" => 2 ^ 10
      | "M" => 2 ^ 20
      | "G" => 2 ^ 30
      | "T" => 2 ^ 40
      | _ => 1
      end%char
  | EmptyString => 1
  end.

End Memory.

(** ** [sandbox-manager.ts] *)

Module SandboxManager.

Import Memory.

(** The state a run threads: the disk, the manager's [mcpProxy] field and
    the calls issued so far. *)
Record state := {
  fs : Host.disk;
  mcpProxy : MCPProxy.t;
  trace : list Host.event
}.

(** A method body: it may change the state and either returns or throws.
    The state changes made before a [throw] stay. *)
Definition M (A : Type) : Type := state → completion A * state.

Definition ret {A} (a : A) : M A := λ s, (Return a, s).
Definition throw {A} (e : exn) : M A := λ s, (Throw e, s).
Definition bind {A B} (m : M A) (k : A → M B) : M B :=
  λ s, match m s with
       | (Return a, s') => k a s'
       | (Throw e, s') => (Throw e, s')
       end.

(** [try { body } catch (error) { handler }] *)
Definition try_catch {A} (body : M A) (handler : exn → M A) : M A :=
  λ s, match body s with
       | (Return a, s') => (Return a, s')
       | (Throw e, s') => handler e s'
       end.

Definition lift {A} (c : completion A) : M A := λ s, (c, s).

Notation "'do' x <- m ; k" := (bind m (λ x, k))
  (at level 10, x name, m at level 100, k at level 200,
   format "'[v' 'do'  x  <-  m ; '/' k ']'").
Notation "'run' m ; k" := (bind m (λ _, k))
  (at level 10, m at level 100, k at level 200,
   format "'[v' 'run'  m ; '/' k ']'").

Fixpoint for_each {A} (body : A → M unit) (items : list A) : M unit :=
  match items with
  | [] => ret tt
  | x :: rest => run body x; for_each body rest
  end.

Section WithHost.

Context (h : Host.t).

(** A call to the host: it is recorded, then fails or takes effect. *)
Definition call (e : Host.event) : M unit :=
  λ s,
    let s' := {| fs := fs s; mcpProxy := mcpProxy s; trace := trace s ++ [e] |} in
    if Host.impossible e (fs s) || negb (Host.succeeds h e) then
      (Throw (SystemError "host"), s')
    else
      (Return tt,
       {| fs := Host.apply e (fs s); mcpProxy := mcpProxy s;
          trace := trace s ++ [e] |}).

(** [fs.readFile(configPath, 'utf8')] *)
Definition readConfig (sandboxId : string) : M Host.file_state :=
  λ s, match Host.configs (fs s) !! sandboxId with
       | None | Some Host.Unreadable => (Throw (SystemError "open"), s)
       | Some content => (Return content, s)
       end.

(** [JSON.parse(configData)] followed by
    [config.created = new Date(config.created)], which throws on [null] and,
    in strict-mode code, on a primitive. *)
Definition parseConfig (content : Host.file_state) : completion SandboxConfig :=
  match content with
  | Host.RecordJson c => Return c
  | Host.ScalarJson => Throw TypeError
  | Host.NotJson => Throw SyntaxError
  | Host.Unreadable => Throw (SystemError "read")
  end.

Definition getSandbox (sandboxId : string) : M (option SandboxConfig) :=
  try_catch
    (do configData <- readConfig sandboxId;
     do config <- lift (parseConfig configData);
     ret (Some config))
    (λ _, ret None).

Definition saveSandboxConfig (config : SandboxConfig) : M unit :=
  call (Host.WriteFile (Host.ConfigJson (id config)) (Host.RecordText config)).

Definition newline : string := String (ascii_of_nat 10) EmptyString.
Definition quote : string := String (ascii_of_nat 34) EmptyString.

Definition generateDockerfile (template : Template) : string :=
  String.concat newline
    (["FROM " +:+ tpl_baseImage template;
      "";
      "# Install additional features"]
     ++ map (λ feature, "RUN apt-get update && apt-get install -y " +:+ feature)
            (tpl_features template)
     ++ ["";
         "# Set working directory";
         "WORKDIR /workspace";
         "";
         "# Copy workspace files";
         "COPY workspace/ /workspace/";
         "";
         "# Set environment variables"]
     ++ map (λ kv, "ENV " +:+ fst kv +:+ "=" +:+ snd kv)
            (default [] (tpl_environment template))
     ++ ["";
         "# Expose ports"]
     ++ map (λ port : Z, "EXPOSE " +:+ pretty port)
            (default [] (tpl_ports template))
     ++ ["";
         "# Default command";
         "CMD [" +:+ quote +:+ "/bin/bash" +:+ quote +:+ "]"]).

Definition parseMemory (memoryStr : string) : completion Z :=
  match match_memory memoryStr with
  | None => Throw (Error [Lit "Invalid memory format: "; Lit memoryStr])
  | Some (digits, unit) =>
      let value := parseInt digits in
      match unit with
      | String u _ =>
          match toUpperCase_unit u with
          | "K" => Return (value * 1024)
          | "M" => Return (value * 1024 * 1024)
          | "G" => Return (value * 1024 * 1024 * 1024)
          | "T" => Return (value * 1024 * 1024 * 1024 * 1024)
          | _ => Return value
          end%char
      | EmptyString => Return value
      end
  end.

Definition with_container (config : SandboxConfig) (cid : string) : SandboxConfig :=
  {| id := id config; name := name config; status := stopped;
     created := created config; template := template config;
     git := git config; mcp := mcp config; resources := resources config;
     containerId := Some cid; mcpPort := mcpPort config |}.

Definition createSandbox (config : SandboxConfig) (template : Template)
  : M SandboxConfig :=
  run call (Host.Mkdir Host.SandboxesDir);
  run call (Host.Mkdir (Host.SandboxDir (id config)));
  run (match git config with
       | Some {| git_clonePath := Some clonePath |} =>
           if negb (String.eqb clonePath "") then
             call (Host.CopyDirectory clonePath (Host.Workspace (id config)))
           else call (Host.Mkdir (Host.Workspace (id config)))
       | _ => call (Host.Mkdir (Host.Workspace (id config)))
       end);
  run call (Host.WriteFile (Host.Dockerfile (id config))
                           (Host.DockerfileText (generateDockerfile template)));
  run call (Host.Mkdir (Host.DevcontainerDir (id config)));
  run call (Host.WriteFile (Host.DevcontainerJson (id config))
                           (Host.DevcontainerText template));
  let imageTag := "dcsandbox:" +:+ id config in
  run call (Host.BuildImage (Host.SandboxDir (id config)) imageTag);
  do memory <- lift (parseMemory (res_memory (resources config)));
  let name := "dcsandbox-" +:+ id config in
  (* [config.resources.cpu * 1e9]; a cpu of [null] counts as 0 *)
  run call (Host.CreateContainer name imageTag memory
              (Binary64.mul (default Binary64.zero (res_cpu (resources config)))
                            (Binary64.of_Z 1000000000)));
  let updatedConfig := with_container config (Host.container_id h name) in
  run saveSandboxConfig updatedConfig;
  ret updatedConfig.

(** [this.mcpProxy.allocatePort()] *)
Definition allocatePort : M Z :=
  λ s, let (r, proxy) := MCPProxy.allocatePort (mcpProxy s) in
       (r, {| fs := fs s; mcpProxy := proxy; trace := trace s |}).

Definition releasePort (port : Z) : M unit :=
  λ s, (Return tt,
        {| fs := fs s; mcpProxy := MCPProxy.releasePort port (mcpProxy s);
           trace := trace s |}).

Definition not_found (sandboxId : string) : exn :=
  Error [Lit "Sandbox "; Lit sandboxId; Lit " not found or has no container"].

Definition started (config : SandboxConfig) (port : Z) : SandboxConfig :=
  {| id := id config; name := name config; status := running;
     created := created config; template := template config;
     git := git config; mcp := mcp config; resources := resources config;
     containerId := containerId config; mcpPort := Some port |}.

Definition startSandbox (sandboxId : string) : M unit :=
  do config <- getSandbox sandboxId;
  match config with
  | Some config =>
      if truthy_string (containerId config) then
        run call (Host.StartContainer (default "" (containerId config)));
        do mcpPort <- allocatePort;
        saveSandboxConfig (started config mcpPort)
      else throw (not_found sandboxId)
  | None => throw (not_found sandboxId)
  end.

Definition halted (config : SandboxConfig) : SandboxConfig :=
  {| id := id config; name := name config; status := stopped;
     created := created config; template := template config;
     git := git config; mcp := mcp config; resources := resources config;
     containerId := containerId config; mcpPort := None |}.

Definition stopSandbox (sandboxId : string) : M unit :=
  do config <- getSandbox sandboxId;
  match config with
  | Some config =>
      if truthy_string (containerId config) then
        run call (Host.StopContainer (default "" (containerId config)));
        run (if truthy_int (mcpPort config)
             then releasePort (default 0 (mcpPort config))
             else ret tt);
        saveSandboxConfig (halted config)
      else throw (not_found sandboxId)
  | None => throw (not_found sandboxId)
  end.

Definition setupMCP (sandboxId : string) : M unit :=
  do config <- getSandbox sandboxId;
  match config with
  | Some config =>
      if truthy_int (mcpPort config) then
        λ s,
          let (events, proxy) :=
            MCPProxy.startProxy sandboxId (default 0 (mcpPort config))
                                (mcp_servers (mcp config)) (mcpProxy s) in
          (Return tt,
           {| fs := fs s; mcpProxy := proxy; trace := trace s ++ events |})
      else throw (Error [Lit "Sandbox "; Lit sandboxId;
                         Lit " not ready for MCP setup"])
  | None => throw (Error [Lit "Sandbox "; Lit sandboxId;
                          Lit " not ready for MCP setup"])
  end.

Definition runPostCreateCommands (sandboxId : string) (commands : list string)
  : M unit :=
  do config <- getSandbox sandboxId;
  match config with
  | Some config =>
      if truthy_string (containerId config) then
        for_each (λ command, call (Host.Exec (default "" (containerId config)) command))
                 commands
      else throw (not_found sandboxId)
  | None => throw (not_found sandboxId)
  end.

Record SandboxInfo := {
  sandbox : SandboxConfig;
  containerInfo : bool;              (* was [inspect()] answered? *)
  mcpConnection : option string;
  workingDirectory : string
}.

Definition getSandboxInfo (sandboxId : string) : M (option SandboxInfo) :=
  do sandbox <- getSandbox sandboxId;
  match sandbox with
  | None => ret None
  | Some sandbox =>
      do found <-
        (if truthy_string (containerId sandbox) then (
           try_catch
             (run call (Host.InspectContainer (default "" (containerId sandbox)));
              ret (true,
                   if truthy_int (mcpPort sandbox)
                      && bool_decide (status sandbox = running)
                   then Some ("localhost:" +:+ pretty (default 0 (mcpPort sandbox)))
                   else None))
             (λ _, ret (false, None)) : M (bool * option string))
         else ret (false, None));
      ret (Some {| sandbox := sandbox; containerInfo := fst found;
                   mcpConnection := snd found;
                   workingDirectory := "/workspace" |})
  end.

(** [fs.readdir(this.sandboxesDir)] *)
Definition readdir_sandboxes : M (list string) :=
  λ s, match Host.sandboxes (fs s) with
       | Host.Entries names => (Return names, s)
       | _ => (Throw (SystemError "scandir"), s)
       end.

(** The comparator [(a, b) => b.created.getTime() - a.created.getTime()];
    [None] is NaN, which [sort] treats as 0. *)
Definition by_created (a b : SandboxConfig) : option Z :=
  match created a, created b with
  | Some ta, Some tb => Some (tb - ta)
  | _, _ => None
  end.

Definition after (cmp : SandboxConfig → SandboxConfig → option Z)
    (y x : SandboxConfig) : bool :=
  match cmp y x with
  | Some d => 0 <? d
  | None => false
  end.

(** [Array.prototype.sort] is stable; for a comparator that is a consistent
    order this is the list it produces. *)
Fixpoint insert_sorted cmp (x : SandboxConfig) (sorted : list SandboxConfig)
  : list SandboxConfig :=
  match sorted with
  | [] => [x]
  | y :: rest =>
      if after cmp y x then x :: y :: rest
      else y :: insert_sorted cmp x rest
  end.

Definition sort cmp (l : list SandboxConfig) : list SandboxConfig :=
  fold_left (λ sorted x, insert_sorted cmp x sorted) l [].

Fixpoint collect (entries : list string) : M (list SandboxConfig) :=
  match entries with
  | [] => ret []
  | entry :: rest =>
      do sandbox <- getSandbox entry;
      do others <- collect rest;
      ret (match sandbox with
           | Some sandbox => sandbox :: others
           | None => others
           end)
  end.

Definition listSandboxes : M (list SandboxConfig) :=
  try_catch
    (run call (Host.Mkdir Host.SandboxesDir);
     do entries <- readdir_sandboxes;
     do sandboxes <- collect entries;
     ret (sort by_created sandboxes))
    (λ _, ret []).

End WithHost.

(** [new SandboxManager()] on a given disk: a fresh proxy, nothing issued
    yet. *)
Definition new (d : Host.disk) : state :=
  {| fs := d; mcpProxy := MCPProxy.new; trace := [] |}.

End SandboxManager.

(** ** [git-manager.ts]: [cloneRepository] *)

Module GitManager.

Import SandboxManager.

Definition cloneDir (h : Host.t) (sandboxId : string) : string :=
  Host.homedir h +:+ "/.dcsandbox/git-cache/" +:+ sandboxId.

Definition cloneRepository (h : Host.t) (gitUrl branch sandboxId : string)
  : M string :=
  run call h (Host.Mkdir Host.CacheDir);
  try_catch
    (run call h (Host.Rm (Host.CloneDir sandboxId));
     run call h (Host.GitClone gitUrl branch (Host.CloneDir sandboxId));
     run try_catch
           (call h (Host.Access (Host.GitDir sandboxId)))
           (λ _, throw (Error [Lit "Git clone appears to have failed - no .git directory found"]));
     ret (cloneDir h sandboxId))
    (λ error,
       run try_catch (call h (Host.Rm (Host.CloneDir sandboxId))) (λ _, ret tt);
       throw (Error (Lit "Failed to clone repository: " :: message_of error))).

End GitManager.

(** ** [commands/create.ts] *)

Module Create.

Import SandboxManager.

(** How the command ends: it returns, or it calls [process.exit(1)]. *)
Inductive outcome := Completed | Exit (code : Z).

(** The text after the last ["/"] of a string, if it has one. *)
Fixpoint after_last_slash (s : string) : option string :=
  match s with
  | EmptyString => None
  | String c rest =>
      match after_last_slash rest with
      | Some t => Some t
      | None => if Ascii.eqb c "/" then Some rest else None
      end
  end.

(** [gitUrl.match(/\/([^\/]+?)(?:\.git)?$/)]: the last path segment, without
    one trailing [.git]; ['repo'] when nothing follows the last slash. *)
Definition extractRepoName (gitUrl : string) : string :=
  match after_last_slash gitUrl with
  | None | Some EmptyString => "repo"
  | Some segment =>
      let n := String.length segment in
      if (4 <? n)%nat && ProjectDetector.endsWith segment ".git"
      then String.substring 0 (n - 4) segment
      else segment
  end.

(** [x || fallback] on an optional string. *)
Definition or_else (x : option string) (fallback : string) : string :=
  if truthy_string x then default "" x else fallback.

Definition is_true (x : option bool) : bool := default false x.

(** Lines 23 and 36-41: the template that create goes on with, once a
    detection is at hand. *)
Definition selectTemplate (options : CreateOptions) (detection : ProjectDetection)
  : string :=
  let template := or_else (opt_template options) "base" in
  if Binary64.gtb (confidence detection) (Binary64.decimal 7 10)
  then det_template detection
  else template.

Definition truthy_number (x : option spec_float) : bool :=
  match x with
  | Some v => truthy (Num v)
  | None => false
  end.

(** Lines 19-21: the id and the name of the new sandbox. *)
Definition sandboxId (h : Host.t) : string := "sandbox-" +:+ Host.nanoid h.

Definition sandboxName (h : Host.t) (options : CreateOptions) : string :=
  or_else (opt_name options)
          (if truthy_string (opt_git options)
           then extractRepoName (default "" (opt_git options))
           else "sandbox-" +:+ pretty (Host.now h)).

(** Lines 23-43: clone the repository if one is given, and settle on a
    template; the result is the template name and the clone path. *)
Definition resolve (h : Host.t) (options : CreateOptions)
  : M (string * option string) :=
  let branch := or_else (opt_branch options) "main" in
  if truthy_string (opt_git options) then
    let url := default "" (opt_git options) in
    do clonePath <- GitManager.cloneRepository h url branch (sandboxId h);
    if is_true (opt_autoDetect options)
       || negb (truthy_string (opt_template options))
    then
      let detection := ProjectDetector.detectProject (Host.cloned h url branch) in
      ret (selectTemplate options detection, Some clonePath)
    else ret (or_else (opt_template options) "base", Some clonePath)
  else ret (or_else (opt_template options) "base", None).

(** Lines 54-75: the configuration handed to [createSandbox]. *)
Definition sandboxConfig (h : Host.t) (options : CreateOptions)
    (template : string) (clonePath : option string) (templateConfig : Template)
  : SandboxConfig :=
  {| id := sandboxId h;
     name := sandboxName h options;
     status := creating;
     created := Some (Host.clock h);
     template := template;
     git := if truthy_string (opt_git options)
            then Some {| git_url := default "" (opt_git options);
                         git_branch := or_else (opt_branch options) "main";
                         git_clonePath := clonePath |}
            else None;
     mcp := {| mcp_enabled := true;
               mcp_servers := tpl_mcpServers templateConfig;
               mcp_proxyPort := None |};
     resources :=
       {| res_memory := or_else (opt_memory options) "2G";
          res_cpu := Some (if truthy_number (opt_cpu options)
                           then default Binary64.zero (opt_cpu options)
                           else Binary64.of_Z 2);
          res_disk := "10G";
          res_timeout := if truthy_int (opt_timeout options)
                         then default 0 (opt_timeout options)
                         else 120 |};
     containerId := None;
     mcpPort := None |}.

(** Lines 82-101: start the container, the proxy, the post-create
    commands, and look the sandbox up once more. *)
Definition bring_up (h : Host.t) (templateConfig : Template)
    (sandbox : SandboxConfig) : M outcome :=
  run startSandbox h (id sandbox);
  run setupMCP (id sandbox);
  run (match tpl_postCreate templateConfig with
       | Some (c :: cs) => runPostCreateCommands h (id sandbox) (c :: cs)
       | _ => ret tt
       end);
  do sandboxInfo <- getSandboxInfo h (id sandbox);
  match sandboxInfo with
  | None => throw (Error [Lit "Failed to get sandbox information after creation"])
  | Some _ => ret Completed
  end.

Definition createCommand (h : Host.t) (options : CreateOptions) : M outcome :=
  try_catch
    (do chosen <- resolve h options;
     let template := fst chosen in
     let clonePath := snd chosen in
     match Host.templates h template with
     | None => throw (Error [Lit "Template '"; Lit template; Lit "' not found"])
     | Some templateConfig =>
         do sandbox <-
           createSandbox h (sandboxConfig h options template clonePath templateConfig)
                         templateConfig;
         bring_up h templateConfig sandbox
     end)
    (λ _, ret (Exit 1)).

End Create.

(** ** Vocabulary of the properties *)

Module Spec.

Import SandboxManager.

(** The invariants of a record: a running sandbox has a container and a
    port, a stopped one has no port. *)
Definition status_invariant (c : SandboxConfig) : Prop :=
  (status c = running →
   truthy_string (containerId c) = true ∧ is_Some (mcpPort c))
  ∧ (status c = stopped → mcpPort c = None).

(** The one call by which [saveSandboxConfig] writes a record. *)
Definition save_of (c : SandboxConfig) : Host.event :=
  Host.WriteFile (Host.ConfigJson (id c)) (Host.RecordText c).

(** The ids that JSON-RPC provides for, as far as [JSON.stringify] writes
    them as they are: a string, [null], a finite number other than the
    negative zero; also a boolean, and no id at all. *)
Definition echoed (id : value) : bool :=
  match id with
  | Undefined | Null | Bool _ | Str _ => true
  | Num (S754_zero false) | Num (S754_finite _ _ _) => true
  | _ => false
  end.

(** A number that is NaN or an infinity; [JSON.parse] reads a literal
    beyond the range of binary64, such as [1e400], as an infinity. *)
Definition unbounded (id : value) : Prop :=
  ∃ x, id = Num x ∧ Binary64.finite x = false.

(** A call that leaves every record file alone: neither a write at a
    [config.json] nor a rename. *)
Definition quiet (e : Host.event) : bool :=
  match e with
  | Host.WriteFile (Host.ConfigJson _) _ | Host.Rename _ _ => false
  | _ => true
  end.

(** The records written by a sequence of calls, in order. *)
Definition record_of (e : Host.event) : option SandboxConfig :=
  match e with
  | Host.WriteFile (Host.ConfigJson _) (Host.RecordText c) => Some c
  | _ => None
  end.

Definition persisted (evs : list Host.event) : list SandboxConfig :=
  omap record_of evs.

(** How a run may leave the record files: each [config.json] is as it was,
    or holds a record for which [I] holds. *)
Definition rewrites (I : SandboxConfig → Prop) (d d' : Host.disk) : Prop :=
  ∀ i, Host.configs d' !! i = Host.configs d !! i
       ∨ ∃ c, I c ∧ Host.configs d' !! i = Some (Host.RecordJson (Host.stored c)).

Definition keeps (I : SandboxConfig → Prop) {A} (m : M A) : Prop :=
  ∀ s, rewrites I (fs s) (fs (m s).2).

(** The write-to-temporary-then-rename discipline: no call writes at a
    [config.json] itself. *)
Definition in_place (e : Host.event) : bool :=
  match e with
  | Host.WriteFile (Host.ConfigJson _) _ => true
  | _ => false
  end.

Definition is_rename (e : Host.event) : bool :=
  match e with
  | Host.Rename _ _ => true
  | _ => false
  end.

Definition atomic_rewrites (evs : list Host.event) : Prop :=
  Forall (λ e, in_place e = false) evs.

(** A side effect outside the sandbox directory. *)
Definition outside (e : Host.event) : bool :=
  match e with
  | Host.GitClone _ _ _ | Host.BuildImage _ _ | Host.CreateContainer _ _ _ _
  | Host.Mkdir Host.CacheDir | Host.Rm (Host.CloneDir _)
  | Host.StartContainer _ | Host.StopContainer _ | Host.Exec _ _
  | Host.Spawn _ | Host.Listen _ => true
  | _ => false
  end.

(** "The record is persisted with [status = creating] before any side
    effect outside the sandbox directory": whenever such a call is issued, a
    record with that status has been written before it. *)
Definition creating_first (evs : list Host.event) : Prop :=
  ∀ before e after,
    evs = before ++ e :: after →
    outside e = true →
    ∃ c, save_of c ∈ before ∧ status c = creating.

(** The calls a method issues: those its run appends to the trace. *)
Definition emits {A} (m : M A) (P : completion A → list Host.event → Prop) : Prop :=
  ∀ s, ∃ evs, trace (m s).2 = trace s ++ evs ∧ P (m s).1 evs.

(** What the steps of create that follow [createSandbox] may issue: calls
    that leave the record files alone, and the write by which [startSandbox]
    saves a record that has a container. *)
Definition quiet_or_start (e : Host.event) : Prop :=
  quiet e = true
  ∨ ∃ c port,
      e = save_of (started c port) ∧ truthy_string (containerId c) = true.

(** What reading a sandbox's [config.json] can meet that is not a record:
    no file (or no directory), a file that cannot be read, text that is not
    JSON. *)
Definition unusable (node : option Host.file_state) : Prop :=
  node = None ∨ node = Some Host.Unreadable ∨ node = Some Host.NotJson.

(** The record an entry of the sandboxes directory holds, if it holds
    one. *)
Definition record_at (d : Host.disk) (entry : string) : option SandboxConfig :=
  match Host.configs d !! entry with
  | Some (Host.RecordJson c) => Some c
  | _ => None
  end.

(** The results of the eight detectors, in the order [detectProject] runs
    them. *)
Definition results (p : ProjectDetector.project) : list ProjectDetection :=
  [ProjectDetector.detectNodeJS p; ProjectDetector.detectPython p;
   ProjectDetector.detectGo p; ProjectDetector.detectRust p;
   ProjectDetector.detectJava p; ProjectDetector.detectRuby p;
   ProjectDetector.detectPHP p; ProjectDetector.detectDotNet p].

(** [r] is the first of the detections with the highest confidence: every
    detection before it has a smaller confidence, none after it has a
    greater one. *)
Definition first_highest (l : list ProjectDetection) (r : ProjectDetection) : Prop :=
  ∃ before after,
    l = before ++ r :: after
    ∧ Forall (λ x, Binary64.gtb (confidence r) (confidence x) = true) before
    ∧ Forall (λ x, Binary64.gtb (confidence x) (confidence r) = false) after.

(** The template create settles on (lines 23-43 of [create.ts]). *)
Definition chosen_template (h : Host.t) (options : CreateOptions) : string :=
  if truthy_string (opt_git options)
     && (Create.is_true (opt_autoDetect options)
         || negb (truthy_string (opt_template options)))
  then Create.selectTemplate options
         (ProjectDetector.detectProject
            (Host.cloned h (default "" (opt_git options))
                         (Create.or_else (opt_branch options) "main")))
  else Create.or_else (opt_template options) "base".

End Spec.

(** ** Sample inputs *)

Module Examples.

(** A proxy holding the first two ports of its range. *)
Definition two_held : MCPProxy.t :=
  {| MCPProxy.activePorts := {[50000; 50001]};
     MCPProxy.proxies := ∅;
     MCPProxy.portRange := MCPProxy.defaultRange |}.

Definition proxy_s1 : MCPProxyInstance.t :=
  {| MCPProxyInstance.sandboxId := "s1";
     MCPProxyInstance.port := 50000;
     MCPProxyInstance.mcpServerConfigs := [] |}.

(** [{"jsonrpc":"2.0","method":"initialize","id":null}] *)
Definition initialize_null_id : json_text :=
  JsonText (obj [("jsonrpc", Str "2.0"); ("method", Str "initialize");
                 ("id", Null)]).

(** [{"jsonrpc":"2.0","method":"initialize","id":1e400}]: the literal is
    beyond the range of binary64 and is read as [Infinity]. *)
Definition initialize_huge_id : json_text :=
  JsonText (obj [("jsonrpc", Str "2.0"); ("method", Str "initialize");
                 ("id", Num (Binary64.of_Z (10 ^ 400)))]).

(** [{"jsonrpc":"2.0","method":"initialize","id":9007199254740993}]: the
    literal is read as the nearest binary64 value. *)
Definition initialize_big_id : json_text :=
  JsonText (obj [("jsonrpc", Str "2.0"); ("method", Str "initialize");
                 ("id", Num (Binary64.of_Z (2 ^ 53 + 1)))]).

(** [{"jsonrpc":"2.0","method":"tools/call",
      "params":{"name":"nope","arguments":{}},"id":7}] *)
Definition call_unknown_tool : json_text :=
  JsonText (obj [("jsonrpc", Str "2.0"); ("method", Str "tools/call");
                 ("params", obj [("name", Str "nope"); ("arguments", obj [])]);
                 ("id", Num (Binary64.of_Z 7))]).

(** [{"jsonrpc":"2.0","method":"tools/call",
      "params":{"name":"filesystem_read","arguments":{"path":"a.txt"}},"id":7}] *)
Definition call_filesystem_read : json_text :=
  JsonText (obj [("jsonrpc", Str "2.0"); ("method", Str "tools/call");
                 ("params", obj [("name", Str "filesystem_read");
                                 ("arguments", obj [("path", Str "a.txt")])]);
                 ("id", Num (Binary64.of_Z 7))]).

Definition no_limits : ResourceConfig :=
  {| res_memory := "2G"; res_cpu := Some (Binary64.of_Z 2);
     res_disk := "10G"; res_timeout := 120 |}.

(** A record at rest, as create leaves it behind. *)
Definition record_a : SandboxConfig :=
  {| id := "a"; name := "alpha"; status := stopped; created := Some 1000;
     template := "node"; git := None;
     mcp := {| mcp_enabled := true; mcp_servers := []; mcp_proxyPort := None |};
     resources := no_limits;
     containerId := Some "c-a"; mcpPort := None |}.

(** A sandboxes directory with four entries: [a] holds a record, the
    [config.json] of [b] is not JSON, [c] has none, that of [d] cannot be
    read. *)
Definition disk_mixed : Host.disk :=
  {| Host.sandboxes := Host.Entries ["a"; "b"; "c"; "d"];
     Host.configs := <["a" := Host.RecordJson record_a]>
                       (<["b" := Host.NotJson]>
                          (<["d" := Host.Unreadable]> ∅)) |}.

Definition go_only : ProjectDetector.project :=
  {| ProjectDetector.root := Some [ProjectDetector.File "main.go"];
     ProjectDetector.package_json := None |}.

Definition base_template : Template :=
  {| tpl_name := "base"; tpl_baseImage := "ubuntu:22.04"; tpl_features := [];
     tpl_mcpServers := []; tpl_postCreate := None; tpl_environment := None;
     tpl_ports := None |}.

(** A host on which every call succeeds, every repository is [go_only] and
    every template is known. *)
Definition willing : Host.t :=
  {| Host.homedir := "/home/u";
     Host.nanoid := "V1StGXR8";
     Host.now := 1699999999989;
     Host.clock := 1700000000000;
     Host.succeeds := λ _, true;
     Host.container_id := λ name, "cid-" +:+ name;
     Host.cloned := λ _ _, go_only;
     Host.templates := λ name,
       Some {| tpl_name := name; tpl_baseImage := "ubuntu:22.04";
               tpl_features := []; tpl_mcpServers := [];
               tpl_postCreate := None; tpl_environment := None;
               tpl_ports := None |} |}.

(** A React project with a lock file, sources in both languages and the
    usual configuration files. *)
Definition react_app : ProjectDetector.project :=
  {| ProjectDetector.root :=
       Some [ProjectDetector.File "package.json";
             ProjectDetector.File "package-lock.json";
             ProjectDetector.File "tsconfig.json";
             ProjectDetector.File ".eslintrc.json";
             ProjectDetector.Directory "src"
               (Some [ProjectDetector.File "index.js";
                      ProjectDetector.File "App.tsx"])];
     ProjectDetector.package_json :=
       Some (JsonText (obj [("name", Str "app");
                            ("dependencies", obj [("react", Str "^18.2.0")])])) |}.

Definition disk_empty : Host.disk :=
  {| Host.sandboxes := Host.Absent; Host.configs := ∅ |}.

(** A record that still carries the port of an earlier run. *)
Definition stale : SandboxConfig :=
  {| id := "x"; name := "xray"; status := creating; created := Some 2000;
     template := "base"; git := None;
     mcp := {| mcp_enabled := true; mcp_servers := []; mcp_proxyPort := None |};
     resources := no_limits;
     containerId := None; mcpPort := Some 50000 |}.

(** [create --git https://example.org/u/tool.git] *)
Definition create_from_git : CreateOptions :=
  {| opt_name := None; opt_git := Some "https://example.org/u/tool.git";
     opt_branch := None; opt_template := None; opt_memory := None;
     opt_cpu := None; opt_timeout := None; opt_persist := None;
     opt_autoDetect := None |}.

(** One run of create on an empty disk. *)
Definition create_run : completion Create.outcome * SandboxManager.state :=
  Create.createCommand willing create_from_git (SandboxManager.new disk_empty).

(** The record that this run hands to [createSandbox], once saved. *)
Definition created_record : SandboxConfig :=
  SandboxManager.with_container
    (Create.sandboxConfig willing create_from_git "base"
       (Some "/home/u/.dcsandbox/git-cache/sandbox-V1StGXR8") base_template)
    "cid-dcsandbox-sandbox-V1StGXR8".

End Examples.

(** ** [template-manager.ts]: [class TemplateManager] *)

Module TemplateManager.

(** The server entries that the definitions repeat. *)
Definition filesystem : MCPServer :=
  {| srv_name := "filesystem"; srv_command := "mcp-server-filesystem";
     srv_args := ["--root"; "/workspace"]; srv_env := []; srv_enabled := true |}.

Definition shell : MCPServer :=
  {| srv_name := "shell"; srv_command := "mcp-server-shell";
     srv_args := ["--cwd"; "/workspace"]; srv_env := []; srv_enabled := true |}.

Definition git : MCPServer :=
  {| srv_name := "git"; srv_command := "mcp-server-git";
     srv_args := ["--repo-path"; "/workspace"]; srv_env := []; srv_enabled := true |}.

Definition npm : MCPServer :=
  {| srv_name := "npm"; srv_command := "mcp-server-npm";
     srv_args := ["--cwd"; "/workspace"]; srv_env := []; srv_enabled := true |}.

Definition python : MCPServer :=
  {| srv_name := "python"; srv_command := "mcp-server-python";
     srv_args := ["--cwd"; "/workspace"]; srv_env := []; srv_enabled := true |}.

(** [getBuiltinTemplateDefinitions()], in the order of the object
    literal. *)
Definition getBuiltinTemplateDefinitions : list (string * Template) := [
  ("base",
   {| tpl_name := "Base Development Environment";
      tpl_baseImage := "mcr.microsoft.com/devcontainers/base:ubuntu";
      tpl_features := ["curl"; "git"; "vim"; "nano"; "htop"; "unzip"];
      tpl_mcpServers := [filesystem; shell; git];
      tpl_postCreate := None;
      tpl_environment := Some [("DEBIAN_FRONTEND", "noninteractive")];
      tpl_ports := Some [] |});
  ("node",
   {| tpl_name := "Node.js Development Environment";
      tpl_baseImage := "mcr.microsoft.com/devcontainers/javascript-node:20";
      tpl_features := ["git"; "vim"; "nano"];
      tpl_mcpServers := [filesystem; shell; git; npm];
      tpl_postCreate := Some ["npm install"];
      tpl_environment := Some [("NODE_ENV", "development")];
      tpl_ports := Some [3000; 8080] |});
  ("python",
   {| tpl_name := "Python Development Environment";
      tpl_baseImage := "mcr.microsoft.com/devcontainers/python:3.11";
      tpl_features := ["git"; "vim"; "nano"];
      tpl_mcpServers := [filesystem; shell; git; python];
      tpl_postCreate := Some ["pip install -r requirements.txt || true"];
      tpl_environment := Some [("PYTHONPATH", "/workspace")];
      tpl_ports := Some [8000; 5000] |});
  ("go",
   {| tpl_name := "Go Development Environment";
      tpl_baseImage := "mcr.microsoft.com/devcontainers/go:1.21";
      tpl_features := ["git"; "vim"; "nano"];
      tpl_mcpServers := [filesystem; shell; git];
      tpl_postCreate := Some ["go mod download || true"];
      tpl_environment := Some [("GOPROXY", "https://proxy.golang.org")];
      tpl_ports := Some [8080] |});
  ("rust",
   {| tpl_name := "Rust Development Environment";
      tpl_baseImage := "mcr.microsoft.com/devcontainers/rust:1";
      tpl_features := ["git"; "vim"; "nano"];
      tpl_mcpServers := [filesystem; shell; git];
      tpl_postCreate := Some ["cargo fetch || true"];
      tpl_environment := Some [("CARGO_HOME", "/usr/local/cargo");
                               ("RUSTUP_HOME", "/usr/local/rustup")];
      tpl_ports := Some [8080] |});
  ("react",
   {| tpl_name := "React Development Environment";
      tpl_baseImage := "mcr.microsoft.com/devcontainers/javascript-node:18";
      tpl_features := ["git"; "vim"; "nano"];
      tpl_mcpServers := [filesystem; shell; git; npm];
      tpl_postCreate := Some ["npm install"; "npm run build || true"];
      tpl_environment := Some [("NODE_ENV", "development");
                               ("FAST_REFRESH", "true")];
      tpl_ports := Some [3000; 3001] |});
  ("django",
   {| tpl_name := "Django Development Environment";
      tpl_baseImage := "mcr.microsoft.com/devcontainers/python:3.11";
      tpl_features := ["git"; "vim"; "nano"; "postgresql-client"];
      tpl_mcpServers := [filesystem; shell; git; python];
      tpl_postCreate := Some ["pip install -r requirements.txt || true";
                              "python manage.py migrate || true"];
      tpl_environment := Some [("PYTHONPATH", "/workspace");
                               ("DJANGO_DEBUG", "True")];
      tpl_ports := Some [8000; 8080] |});
  ("fullstack",
   {| tpl_name := "Full-Stack Development Environment";
      tpl_baseImage := "mcr.microsoft.com/devcontainers/universal:2";
      tpl_features := ["git"; "vim"; "nano"; "postgresql-client"; "redis-tools"];
      tpl_mcpServers := [filesystem; shell; git; npm; python];
      tpl_postCreate := Some ["npm install || true";
                              "pip install -r requirements.txt || true"];
      tpl_environment := Some [("NODE_ENV", "development");
                               ("PYTHONPATH", "/workspace")];
      tpl_ports := Some [3000; 8000; 8080; 5000] |})
].

(** A template as a plain value: what [YAML.stringify] is given.  A field
    that is absent is a key that is not there. *)
Definition server_value (server : MCPServer) : value :=
  obj ([("name", Str (srv_name server));
        ("command", Str (srv_command server));
        ("args", Arr (map Str (srv_args server)))]
       ++ match srv_env server with
          | [] => []
          | env => [("env", obj (map (λ kv, (fst kv, Str (snd kv))) env))]
          end
       ++ [("enabled", Bool (srv_enabled server))]).

Definition to_value (template : Template) : value :=
  obj ([("name", Str (tpl_name template));
        ("baseImage", Str (tpl_baseImage template));
        ("features", Arr (map Str (tpl_features template)));
        ("mcpServers", Arr (map server_value (tpl_mcpServers template)))]
       ++ match tpl_postCreate template with
          | Some commands => [("postCreate", Arr (map Str commands))]
          | None => []
          end
       ++ match tpl_environment template with
          | Some env =>
              [("environment", obj (map (λ kv, (fst kv, Str (snd kv))) env))]
          | None => []
          end
       ++ match tpl_ports template with
          | Some ports =>
              [("ports", Arr (map (λ port, Num (Binary64.of_Z port)) ports))]
          | None => []
          end).

(** A file of a templates directory, by what [readFile] and [YAML.parse]
    make of it: [Yaml v] is text that parses to [v], and the text that
    [YAML.stringify] writes for a value parses to that value. *)
Inductive file :=
| Unreadable
| NotYaml
| Yaml (v : value).

(** A templates directory: not there, something that is not a directory,
    or a directory with its files by name.  Template names are file
    names: a name is taken to be one path segment ([path.join] would read
    [./base] as another spelling of [base]), on a file system that tells
    names apart exactly. *)
Inductive dir :=
| Missing
| Blocked
| Dir (files : gmap string file).

(** The two directories of a manager: [templatesDir] under the home
    directory and [builtinTemplatesDir] beside the code. *)
Record store := {
  templatesDir : dir;
  builtinTemplatesDir : dir
}.

Inductive place := Custom | Builtin.

Definition at_ (where_ : place) (this : store) : dir :=
  match where_ with
  | Custom => templatesDir this
  | Builtin => builtinTemplatesDir this
  end.

Definition put (where_ : place) (d : dir) (this : store) : store :=
  match where_ with
  | Custom => {| templatesDir := d; builtinTemplatesDir := builtinTemplatesDir this |}
  | Builtin => {| templatesDir := templatesDir this; builtinTemplatesDir := d |}
  end.

(** The calls that change a templates directory, and a host that says
    which of them succeed.  A call that fails changes nothing. *)
Inductive event :=
| Mkdir (where_ : place)                                  (* fs.mkdir(dir, { recursive }) *)
| WriteFile (where_ : place) (fileName : string) (template : Template)
| Unlink (fileName : string).                             (* fs.unlink, custom only *)

Record host := { succeeds : event → bool }.

Definition T (A : Type) : Type := store → completion A * store.

Definition mkdir (h : host) (where_ : place) : T unit :=
  λ this,
    match at_ where_ this with
    | Blocked => (Throw (SystemError "mkdir"), this)
    | found =>
        if succeeds h (Mkdir where_) then
          (Return tt,
           put where_ (match found with Missing => Dir ∅ | _ => found end) this)
        else (Throw (SystemError "mkdir"), this)
    end.

Definition writeFile (h : host) (where_ : place) (fileName : string)
    (template : Template) : T unit :=
  λ this,
    match at_ where_ this with
    | Dir files =>
        if succeeds h (WriteFile where_ fileName template) then
          (Return tt,
           put where_ (Dir (<[fileName := Yaml (to_value template)]> files)) this)
        else (Throw (SystemError "open"), this)
    | _ => (Throw (SystemError "open"), this)
    end.

(** [typeof obj === 'object'], [typeof x === 'string'],
    [Array.isArray(x)]. *)
Definition typeof_object (v : value) : bool :=
  match v with
  | Null | Arr _ | Obj _ => true
  | _ => false
  end.

Definition typeof_string (v : value) : bool :=
  match v with
  | Str _ => true
  | _ => false
  end.

Definition isArray (v : value) : bool :=
  match v with
  | Arr _ => true
  | _ => false
  end.

(** The conjunction of [isValidTemplate], left to right; [null] passes the
    first test and makes the second throw. *)
Definition isValidTemplate (obj : value) : completion bool :=
  if negb (typeof_object obj) then Return false else
  name ← get obj "name";
  if negb (typeof_string name) then Return false else
  baseImage ← get obj "baseImage";
  if negb (typeof_string baseImage) then Return false else
  features ← get obj "features";
  if negb (isArray features) then Return false else
  mcpServers ← get obj "mcpServers";
  Return (isArray mcpServers).

(** [fs.readFile(path.join(baseDir, name + '.yaml'))] and [YAML.parse]. *)
Definition parseFile (baseDir : dir) (name : string) : completion value :=
  match baseDir with
  | Dir files =>
      match files !! (name +:+ ".yaml") with
      | Some (Yaml parsed) => Return parsed
      | Some NotYaml => Throw SyntaxError
      | Some Unreadable | None => Throw (SystemError "open")
      end
  | _ => Throw (SystemError "open")
  end.

(** The [try] block of [loadTemplate]. *)
Definition validated (baseDir : dir) (name : string) : completion (option value) :=
  parsed ← parseFile baseDir name;
  valid ← isValidTemplate parsed;
  Return (if valid : bool then Some parsed else None).

Definition loadTemplate (baseDir : dir) (name : string) : option value :=
  match validated baseDir name with
  | Return template => template
  | Throw _ => None
  end.

Definition getTemplate (this : store) (name : string) : option value :=
  match loadTemplate (templatesDir this) name with
  | Some customTemplate => Some customTemplate
  | None => loadTemplate (builtinTemplatesDir this) name
  end.

Definition saveTemplate (h : host) (name : string) (template : Template) : T unit :=
  λ this,
    match mkdir h Custom this with
    | (Return _, this') => writeFile h Custom (name +:+ ".yaml") template this'
    | (Throw e, this') => (Throw e, this')
    end.


Fixpoint writeAll (h : host) (templates : list (string * Template)) : T unit :=
  match templates with
  | [] => λ this, (Return tt, this)
  | (name, template) :: rest =>
      λ this,
        match writeFile h Builtin (name +:+ ".yaml") template this with
        | (Return _, this') => writeAll h rest this'
        | (Throw e, this') => (Throw e, this')
        end
  end.

Definition createBuiltinTemplates (h : host) : T unit :=
  λ this,
    match mkdir h Builtin this with
    | (Return _, this') => writeAll h getBuiltinTemplateDefinitions this'
    | (Throw e, this') => (Throw e, this')
    end.

End TemplateManager.

(** ** [sandbox-manager.ts]: [removeSandbox]; the commands [stop], [remove]
    and [cleanup]

    Removal issues two calls that the lifecycle operations do not, and
    removes directories.  Its runs are traced with events of their own; the
    methods modelled above run inside them unchanged.  A call that fails is
    taken to have changed nothing. *)

Module Removal.

(** What removing a path, given as a string, takes away from the sandboxes
    directory: nothing, the directories of some sandboxes, or the directory
    itself. *)
Inductive reach :=
| Elsewhere
| Sandboxes (ids : list string)
| Everything.

Inductive event :=
| Call (e : Host.event)                      (* a call of the kinds above *)
| RemoveContainer (containerId : string)     (* container.remove({ force: true }) *)
| RmPath (path : string).                    (* fs.rm(path, { recursive, force }) *)

Record host := {
  base : Host.t;
  removes : string → bool;        (* does removing this container succeed? *)
  clears : string → bool;         (* does removing this path succeed? *)
  reaches : string → reach;       (* what the path reaches *)
  confirm : completion bool       (* the answer to the prompt of inquirer *)
}.

Record state := {
  fs : Host.disk;
  mcpProxy : MCPProxy.t;
  trace : list event
}.

Definition M (A : Type) : Type := state → completion A * state.

Definition ret {A} (a : A) : M A := λ s, (Return a, s).
Definition throw {A} (e : exn) : M A := λ s, (Throw e, s).
Definition bind {A B} (m : M A) (k : A → M B) : M B :=
  λ s, match m s with
       | (Return a, s') => k a s'
       | (Throw e, s') => (Throw e, s')
       end.
Definition try_catch {A} (body : M A) (handler : exn → M A) : M A :=
  λ s, match body s with
       | (Return a, s') => (Return a, s')
       | (Throw e, s') => handler e s'
       end.
Definition lift {A} (c : completion A) : M A := λ s, (c, s).

Notation "'do' x <- m ; k" := (bind m (λ x, k))
  (at level 10, x name, m at level 100, k at level 200,
   format "'[v' 'do'  x  <-  m ; '/' k ']'").
Notation "'run' m ; k" := (bind m (λ _, k))
  (at level 10, m at level 100, k at level 200,
   format "'[v' 'run'  m ; '/' k ']'").

(** A method of the manager, run as it is: its calls are appended to the
    trace. *)
Definition inner {A} (m : SandboxManager.M A) : M A :=
  λ s,
    let r := m {| SandboxManager.fs := fs s;
                  SandboxManager.mcpProxy := mcpProxy s;
                  SandboxManager.trace := [] |} in
    (r.1,
     {| fs := SandboxManager.fs r.2;
        mcpProxy := SandboxManager.mcpProxy r.2;
        trace := trace s ++ map Call (SandboxManager.trace r.2) |}).

(** The sandboxes directory without one sandbox. *)
Definition remove_entry (name : string) (d : Host.dir_state) : Host.dir_state :=
  match d with
  | Host.Entries names =>
      Host.Entries (List.filter (λ n, negb (String.eqb n name)) names)
  | _ => d
  end.

Definition without (sandboxId : string) (d : Host.disk) : Host.disk :=
  {| Host.sandboxes := remove_entry sandboxId (Host.sandboxes d);
     Host.configs := delete sandboxId (Host.configs d) |}.

Definition cleared (r : reach) (d : Host.disk) : Host.disk :=
  match r with
  | Elsewhere => d
  | Sandboxes ids => foldr without d ids
  | Everything => {| Host.sandboxes := Host.Absent; Host.configs := ∅ |}
  end.

Definition log (ev : event) (s : state) : state :=
  {| fs := fs s; mcpProxy := mcpProxy s; trace := trace s ++ [ev] |}.

(** [container.remove({ force: true })] *)
Definition removeContainer (h : host) (containerId : string) : M unit :=
  λ s, if removes h containerId
       then (Return tt, log (RemoveContainer containerId) s)
       else (Throw (SystemError "docker"), log (RemoveContainer containerId) s).

(** [fs.rm(sandboxDir, { recursive: true, force: true })] *)
Definition rmSandboxDir (h : host) (sandboxId : string) : M unit :=
  λ s,
    let e := Host.Rm (Host.SandboxDir sandboxId) in
    if Host.succeeds (base h) e then
      (Return tt,
       {| fs := without sandboxId (fs s); mcpProxy := mcpProxy s;
          trace := trace s ++ [Call e] |})
    else (Throw (SystemError "rm"), log (Call e) s).

(** [fs.rm(config.git.clonePath, { recursive: true, force: true })] *)
Definition rmPath (h : host) (path : string) : M unit :=
  λ s,
    if clears h path then
      (Return tt,
       {| fs := cleared (reaches h path) (fs s); mcpProxy := mcpProxy s;
          trace := trace s ++ [RmPath path] |})
    else (Throw (SystemError "rm"), log (RmPath path) s).

Definition quietly (m : M unit) : M unit := try_catch m (λ _, ret tt).

Definition removeSandbox (h : host) (sandboxId : string) : M unit :=
  do config <- inner (SandboxManager.getSandbox sandboxId);
  match config with
  | None => throw (Error [Lit "Sandbox "; Lit sandboxId; Lit " not found"])
  | Some config =>
      run (if bool_decide (status config = running)
           then inner (SandboxManager.stopSandbox (base h) sandboxId)
           else ret tt);
      run (if truthy_string (containerId config)
           then quietly (removeContainer h (default "" (containerId config)))
           else ret tt);
      run quietly (rmSandboxDir h sandboxId);
      match git config with
      | Some {| git_clonePath := Some clonePath |} =>
          if negb (String.eqb clonePath "")
          then quietly (rmPath h clonePath)
          else ret tt
      | _ => ret tt
      end
  end.

(** [commands/stop.ts] *)
Definition stopCommand (h : host) (sandboxId : string) : M Create.outcome :=
  try_catch
    (do sandbox <- inner (SandboxManager.getSandbox sandboxId);
     match sandbox with
     | None => ret (Create.Exit 1)
     | Some sandbox =>
         if bool_decide (status sandbox = stopped) then ret Create.Completed
         else if negb (bool_decide (status sandbox = running))
         then ret (Create.Exit 1)
         else
           run inner (SandboxManager.stopSandbox (base h) sandboxId);
           ret Create.Completed
     end)
    (λ _, ret (Create.Exit 1)).

(** [commands/remove.ts] *)
Record RemoveOptions := { rm_force : option bool }.

(** [if (!options.force) { const answer = await inquirer.prompt(...) }]:
    whether to go on. *)
Definition confirmed (h : host) (force : option bool) : M bool :=
  if Create.is_true force then ret true else lift (confirm h).

Definition removeCommand (h : host) (sandboxId : string) (options : RemoveOptions)
  : M Create.outcome :=
  try_catch
    (do sandbox <- inner (SandboxManager.getSandbox sandboxId);
     match sandbox with
     | None => ret (Create.Exit 1)
     | Some sandbox =>
         do proceed <- confirmed h (rm_force options);
         if negb proceed then ret Create.Completed
         else
           run try_catch
                 (run (if bool_decide (status sandbox = running)
                       then inner (SandboxManager.stopSandbox (base h) sandboxId)
                       else ret tt);
                  removeSandbox h sandboxId)
                 (λ error, throw error);
           ret Create.Completed
     end)
    (λ _, ret (Create.Exit 1)).

(** [commands/cleanup.ts] *)
Record CleanupOptions := { cl_all : option bool; cl_force : option bool }.

(** What the command reports, or that it ended the process. *)
Inductive report :=
| NothingFound
| NothingToClean
| Cancelled
| Summary (removedCount failedCount remaining : nat)
| Failed (code : Z).

(** The loop over [sandboxesToRemove]; the result is [removedCount] and
    [failedCount]. *)
Fixpoint sweep (h : host) (sandboxes : list SandboxConfig) : M (nat * nat) :=
  match sandboxes with
  | [] => ret (O, O)
  | sandbox :: rest =>
      do removed <-
        try_catch
          (run (if bool_decide (status sandbox = running)
                then inner (SandboxManager.stopSandbox (base h) (id sandbox))
                else ret tt);
           run removeSandbox h (id sandbox);
           ret true)
          (λ _, ret false);
      do counts <- sweep h rest;
      ret (if removed : bool
           then (S counts.1, counts.2)
           else (counts.1, S counts.2))
  end.

Definition selected (options : CleanupOptions) (allSandboxes : list SandboxConfig)
  : list SandboxConfig :=
  if Create.is_true (cl_all options) then allSandboxes
  else List.filter
         (λ sandbox, bool_decide (status sandbox = stopped)
                     || bool_decide (status sandbox = error))
         allSandboxes.

Definition cleanupCommand (h : host) (options : CleanupOptions) : M report :=
  try_catch
    (do allSandboxes <- inner (SandboxManager.listSandboxes (base h));
     match allSandboxes with
     | [] => ret NothingFound
     | _ =>
         let sandboxesToRemove := selected options allSandboxes in
         match sandboxesToRemove with
         | [] => ret NothingToClean
         | _ =>
             do proceed <- confirmed h (cl_force options);
             if negb proceed then ret Cancelled
             else
               do counts <- sweep h sandboxesToRemove;
               do remainingSandboxes <- inner (SandboxManager.listSandboxes (base h));
               ret (Summary counts.1 counts.2 (length remainingSandboxes))
         end
     end)
    (λ _, ret (Failed 1)).

(** [new SandboxManager()] on a given disk, for a command. *)
Definition new (d : Host.disk) : state :=
  {| fs := d; mcpProxy := MCPProxy.new; trace := [] |}.

End Removal.

(** ** Vocabulary of the further properties *)

Module Behaviour.

Import SandboxManager.

(** [n] calls of [allocatePort] in a row: what each call gave, and the
    allocator afterwards. *)
Fixpoint allocations (n : nat) (this : MCPProxy.t) : list (completion Z) * MCPProxy.t :=
  match n with
  | O => ([], this)
  | S n' =>
      let (r, this') := MCPProxy.allocatePort this in
      let (rs, this'') := allocations n' this' in
      (r :: rs, this'')
  end.

(** The ports held are exactly the first [n] of the range. *)
Definition first_held (n : Z) (this : MCPProxy.t) : Prop :=
  ∀ q, q ∈ MCPProxy.activePorts this
       ↔ MCPProxy.min (MCPProxy.portRange this) ≤ q
         < MCPProxy.min (MCPProxy.portRange this) + n.

(** The methods [handleMCPMessage] has a [case] for. *)
Definition handled : list string :=
  ["initialize"; "tools/list"; "tools/call"; "resources/list"; "resources/read"].

(** A value on which a property read does not throw. *)
Definition readable (v : value) : Prop := v ≠ Undefined ∧ v ≠ Null.

(** The names that the answer to [tools/list] advertises, and the URIs that
    the answer to [resources/list] does. *)
Definition advertised_tools : list string :=
  map MCPProxyInstance.tool_name MCPProxyInstance.getAvailableTools.

Definition advertised_resources : list string :=
  map MCPProxyInstance.uri MCPProxyInstance.getAvailableResources.

(** The argument that the handler of a tool puts into the text of its
    answer. *)
Definition argument (tool : string) : string :=
  if String.eqb tool "shell_execute" then "command" else "path".

(** A chain of directories, each holding only the next, around one entry. *)
Definition nest (dirs : list string) (leaf : ProjectDetector.dirent)
  : ProjectDetector.dirent :=
  foldr (λ d e, ProjectDetector.Directory d (Some [e])) leaf dirs.

(** The directories that [getFileList] enters. *)
Definition entered (name : string) : bool :=
  negb (ProjectDetector.hidden name) && negb (String.eqb name "node_modules").

(** The names under which [createBuiltinTemplates] writes a template. *)
Definition builtin_names : list string :=
  TemplateManager.getBuiltinTemplateDefinitions.*1.

(** The languages whose detector names a template of its own that is not
    among the built-in ones. *)
Definition unprovided : list string := ["java"; "ruby"; "php"; "csharp"].

(** The language and template a detection can carry together. *)
Definition pairings : list (string * string) :=
  [("javascript", "react"); ("javascript", "node");
   ("python", "django"); ("python", "python");
   ("go", "go"); ("rust", "rust"); ("java", "java"); ("ruby", "ruby");
   ("php", "php"); ("csharp", "dotnet"); ("unknown", "base")].

(** Does the character occur in the string? *)
Fixpoint mentions (c : ascii) (s : string) : bool :=
  match s with
  | EmptyString => false
  | String c' rest => Ascii.eqb c' c || mentions c rest
  end.

(** A name that [path.join] takes as it is, so that different names are
    different files: one path segment (with [/] as the separator), neither
    [.] nor [..]. *)
Definition segment (name : string) : bool :=
  negb (String.eqb name "") && negb (mentions "/" name)
  && negb (String.eqb name ".") && negb (String.eqb name "..").

(** A number that [JSON.stringify] writes as it is: finite, and not the
    negative zero. *)
Definition json_number (x : spec_float) : bool :=
  match x with
  | S754_zero false | S754_finite _ _ _ => true
  | _ => false
  end.

(** A record that comes back from its [config.json] as it was written:
    its date is valid, and its [cpu] is [null] or such a number. *)
Definition plain (c : SandboxConfig) : Prop :=
  is_Some (created c)
  ∧ ∀ x, res_cpu (resources c) = Some x → json_number x = true.

(** The sandboxes directory is there, so that a file can be written below
    it. *)
Definition writable (d : Host.disk) : bool :=
  match Host.sandboxes d with
  | Host.Absent | Host.NotDirectory => false
  | _ => true
  end.

(** Every record sits in the directory that bears its [id]. *)
Definition filed (d : Host.disk) : Prop :=
  ∀ entry c, Spec.record_at d entry = Some c → id c = entry.

(** The sandboxes directory is not in the way: it is a directory, or
    not there yet. *)
Definition free (d : Host.disk) : bool :=
  match Host.sandboxes d with
  | Host.NotDirectory => false
  | _ => true
  end.

(** [a] was created no earlier than [b]; both dates are valid. *)
Definition not_older (a b : SandboxConfig) : Prop :=
  ∃ ta tb, created a = Some ta ∧ created b = Some tb ∧ tb ≤ ta.

(** Newest first. *)
Fixpoint newest_first (l : list SandboxConfig) : Prop :=
  match l with
  | [] => True
  | x :: rest => Forall (not_older x) rest ∧ newest_first rest
  end.

(** A call that stops a container. *)
Definition stops (ev : Removal.event) : bool :=
  match ev with
  | Removal.Call (Host.StopContainer _) => true
  | _ => false
  end.

(** A call that removes something. *)
Definition removal (ev : Removal.event) : bool :=
  match ev with
  | Removal.Call (Host.Rm _) | Removal.RemoveContainer _ | Removal.RmPath _ => true
  | _ => false
  end.

(** The disk after the directory of a sandbox, and then its clone, have
    been removed as far as the host lets them. *)
Definition swept (h : Removal.host) (sandboxId : string) (c : SandboxConfig)
    (d : Host.disk) : Host.disk :=
  let d1 :=
    if Host.succeeds (Removal.base h) (Host.Rm (Host.SandboxDir sandboxId))
    then Removal.without sandboxId d else d in
  match git c with
  | Some {| git_clonePath := Some clonePath |} =>
      if negb (String.eqb clonePath "") && Removal.clears h clonePath
      then Removal.cleared (Removal.reaches h clonePath) d1
      else d1
  | _ => d1
  end.

(** A method that throws whatever the host does. *)
Definition fails {A} (m : M A) : Prop := ∀ s, throws (m s).1 = true.

(** Methods that leave the disk, or the allocator, as they found it. *)
Definition same_disk {A} (m : M A) : Prop := ∀ s, fs (m s).2 = fs s.
Definition same_proxy {A} (m : M A) : Prop := ∀ s, mcpProxy (m s).2 = mcpProxy s.

(** The files of the built-in directory after [writeAll]. *)
Definition written (files : gmap string TemplateManager.file)
    (templates : list (string * Template)) : gmap string TemplateManager.file :=
  foldl (λ fs entry,
           <[entry.1 +:+ ".yaml"
             := TemplateManager.Yaml (TemplateManager.to_value entry.2)]> fs)
        files templates.

(** A record that [cleanup] leaves alone unless it is given [--all]. *)
Definition in_use (c : SandboxConfig) : Prop :=
  status c = running ∨ status c = creating.

(** Removing the clone of a recorded sandbox takes nothing away from the
    sandboxes directory: no recorded clone path is that directory, one of
    its parents, or a path inside it. *)
Definition clones_apart (h : Removal.host) (d : Host.disk) : Prop :=
  ∀ entry c url branch path,
    Spec.record_at d entry = Some c →
    git c = Some {| git_url := url; git_branch := branch;
                    git_clonePath := Some path |} →
    Removal.reaches h path = Removal.Elsewhere.

(** The calls by which [removeSandbox] removes a sandbox at rest. *)
Definition sweeping (sandboxId : string) (c : SandboxConfig) : list Removal.event :=
  (if truthy_string (containerId c)
   then [Removal.RemoveContainer (default "" (containerId c))]
   else [])
  ++ [Removal.Call (Host.Rm (Host.SandboxDir sandboxId))]
  ++ match git c with
     | Some {| git_clonePath := Some clonePath |} =>
         if negb (String.eqb clonePath "") then [Removal.RmPath clonePath] else []
     | _ => []
     end.

End Behaviour.

(** ** Further sample inputs *)

Module Samples.

(** [{"jsonrpc":"2.0","method":"ping","id":3}] *)
Definition ping : value :=
  obj [("jsonrpc", Str "2.0"); ("method", Str "ping");
       ("id", Num (Binary64.of_Z 3))].

(** [{"path":{"toString":1}}]: arguments whose path has no string. *)
Definition unprintable_path : value :=
  obj [("path", obj [("toString", Num (Binary64.of_Z 1))])].

(** A repository whose only entries are a [.git] directory and
    [node_modules]. *)
Definition bare_checkout : ProjectDetector.project :=
  {| ProjectDetector.root :=
       Some [ProjectDetector.Directory ".git"
               (Some [ProjectDetector.File "HEAD"]);
             ProjectDetector.Directory "node_modules"
               (Some [ProjectDetector.File "index.js"])];
     ProjectDetector.package_json := None |}.

(** A Maven project. *)
Definition maven_app : ProjectDetector.project :=
  {| ProjectDetector.root :=
       Some [ProjectDetector.File "pom.xml";
             ProjectDetector.Directory "src"
               (Some [ProjectDetector.File "Main.java"])];
     ProjectDetector.package_json := None |}.

(** A second record at rest. *)
Definition record_b : SandboxConfig :=
  {| id := "b"; name := "bravo"; status := stopped; created := Some 2000;
     template := "go"; git := None;
     mcp := {| mcp_enabled := true; mcp_servers := []; mcp_proxyPort := None |};
     resources := Examples.no_limits;
     containerId := Some "c-b"; mcpPort := None |}.

(** Two sandboxes, both at rest. *)
Definition disk_two : Host.disk :=
  {| Host.sandboxes := Host.Entries ["a"; "b"];
     Host.configs := <["a" := Host.RecordJson Examples.record_a]>
                       (<["b" := Host.RecordJson record_b]> ∅) |}.

(** A host like [willing], on which no [config.json] can be written. *)
Definition read_only : Host.t :=
  {| Host.homedir := Host.homedir Examples.willing;
     Host.nanoid := Host.nanoid Examples.willing;
     Host.now := Host.now Examples.willing;
     Host.clock := Host.clock Examples.willing;
     Host.succeeds := λ e, negb (Spec.in_place e);
     Host.container_id := Host.container_id Examples.willing;
     Host.cloned := Host.cloned Examples.willing;
     Host.templates := Host.templates Examples.willing |}.

(** A host like [willing], on which [make test] cannot be run. *)
Definition no_tests : Host.t :=
  {| Host.homedir := Host.homedir Examples.willing;
     Host.nanoid := Host.nanoid Examples.willing;
     Host.now := Host.now Examples.willing;
     Host.clock := Host.clock Examples.willing;
     Host.succeeds := λ e,
       match e with
       | Host.Exec _ command => negb (String.eqb command "make test")
       | _ => true
       end;
     Host.container_id := Host.container_id Examples.willing;
     Host.cloned := Host.cloned Examples.willing;
     Host.templates := Host.templates Examples.willing |}.

(** A configuration whose memory limit is not in the grammar. *)
Definition two_gigabytes : SandboxConfig :=
  {| id := "m"; name := "mike"; status := creating; created := Some 3000;
     template := "base"; git := None;
     mcp := {| mcp_enabled := true; mcp_servers := []; mcp_proxyPort := None |};
     resources := {| res_memory := "2GB"; res_cpu := Some (Binary64.of_Z 2);
                     res_disk := "10G"; res_timeout := 120 |};
     containerId := None; mcpPort := None |}.

(** A host on which every change to a templates directory succeeds. *)
Definition writable_templates : TemplateManager.host :=
  {| TemplateManager.succeeds := λ _, true |}.

(** An installation without any template file. *)
Definition no_templates : TemplateManager.store :=
  {| TemplateManager.templatesDir := TemplateManager.Missing;
     TemplateManager.builtinTemplatesDir := TemplateManager.Missing |}.

(** A host on which every call of the manager succeeds, and nothing can
    be removed. *)
Definition stubborn : Removal.host :=
  {| Removal.base :=
       {| Host.homedir := Host.homedir Examples.willing;
          Host.nanoid := Host.nanoid Examples.willing;
          Host.now := Host.now Examples.willing;
          Host.clock := Host.clock Examples.willing;
          Host.succeeds := λ e, match e with Host.Rm _ => false | _ => true end;
          Host.container_id := Host.container_id Examples.willing;
          Host.cloned := Host.cloned Examples.willing;
          Host.templates := Host.templates Examples.willing |};
     Removal.removes := λ _, false;
     Removal.clears := λ _, false;
     Removal.reaches := λ _, Removal.Elsewhere;
     Removal.confirm := Return true |}.

(** A host on which every call succeeds and clones lie outside the
    sandboxes directory. *)
Definition helpful : Removal.host :=
  {| Removal.base := Examples.willing;
     Removal.removes := λ _, true;
     Removal.clears := λ _, true;
     Removal.reaches := λ _, Removal.Elsewhere;
     Removal.confirm := Return true |}.

(** A host like [helpful], on which no container can be stopped. *)
Definition unstoppable : Removal.host :=
  {| Removal.base :=
       {| Host.homedir := Host.homedir Examples.willing;
          Host.nanoid := Host.nanoid Examples.willing;
          Host.now := Host.now Examples.willing;
          Host.clock := Host.clock Examples.willing;
          Host.succeeds := λ e,
            match e with Host.StopContainer _ => false | _ => true end;
          Host.container_id := Host.container_id Examples.willing;
          Host.cloned := Host.cloned Examples.willing;
          Host.templates := Host.templates Examples.willing |};
     Removal.removes := λ _, true;
     Removal.clears := λ _, true;
     Removal.reaches := λ _, Removal.Elsewhere;
     Removal.confirm := Return true |}.

(** The sandbox [a] running, [b] at rest. *)
Definition disk_running : Host.disk :=
  {| Host.sandboxes := Host.Entries ["a"; "b"];
     Host.configs :=
       <["a" := Host.RecordJson (SandboxManager.started Examples.record_a 50000)]>
         (<["b" := Host.RecordJson record_b]> ∅) |}.

End Samples.

(** * Properties *)

(** ** The port allocator *)

Section PortAllocator.

Import MCPProxy.

(** What the loop has established when it stops: the port it returns is the
    first free one from where it started; if it returns nothing, every port
    it was allowed to visit is held. *)
Lemma scan_Some steps port hi active p :
  scan steps port hi active = Some p →
  (port ≤ p ≤ hi) ∧ (p ∉ active) ∧ ∀ q, port ≤ q < p → q ∈ active.
Proof.
  revert port. induction steps as [|steps IH]; intros port; simpl; [done|].
  case_bool_decide as Hhi; [|done].
  case_bool_decide as Hin.
  - intros Hscan. destruct (IH _ Hscan) as (Hrange & Hfree & Hbelow).
    split; [lia|]. split; [done|].
    intros q Hq. destruct (decide (q = port)) as [->|]; [done|].
    apply Hbelow. lia.
  - intros [= <-]. split; [lia|]. split; [done|]. intros q Hq. lia.
Qed.

Lemma scan_None steps port hi active :
  scan steps port hi active = None →
  ∀ q, port ≤ q ≤ hi → q < port + Z.of_nat steps → q ∈ active.
Proof.
  revert port. induction steps as [|steps IH]; intros port; simpl.
  - intros _ q Hq Hlt. lia.
  - case_bool_decide as Hhi.
    + case_bool_decide as Hin; [|done].
      intros Hscan q Hq Hlt.
      destruct (decide (q = port)) as [->|]; [done|].
      apply (IH _ Hscan); lia.
    + intros _ q Hq. lia.
Qed.

Lemma allocatePort_Return this p this' :
  allocatePort this = (Return p, this') →
  (min (portRange this) ≤ p ≤ max (portRange this))
  ∧ (p ∉ activePorts this)
  ∧ (∀ q, min (portRange this) ≤ q < p → q ∈ activePorts this)
  ∧ activePorts this' = {[p]} ∪ activePorts this
  ∧ portRange this' = portRange this.
Proof.
  unfold allocatePort.
  destruct (scan _ _ _ _) as [r|] eqn:Hscan; [|done].
  intros [= <- <-]. simpl.
  destruct (scan_Some _ _ _ _ _ Hscan) as (? & ? & ?). done.
Qed.

Lemma allocatePort_Throw this e this' :
  allocatePort this = (Throw e, this') →
  this' = this
  ∧ ∀ q, min (portRange this) ≤ q ≤ max (portRange this) → q ∈ activePorts this.
Proof.
  unfold allocatePort.
  destruct (scan _ _ _ _) as [r|] eqn:Hscan; [done|].
  intros [= <- <-]. split; [done|].
  intros q Hq. apply (scan_None _ _ _ _ Hscan); lia.
Qed.

Lemma allocatePort_first_free this p :
  min (portRange this) ≤ p ≤ max (portRange this) →
  p ∉ activePorts this →
  (∀ q, min (portRange this) ≤ q < p → q ∈ activePorts this) →
  (allocatePort this).1 = Return p.
Proof.
  intros Hrange Hfree Hbelow.
  destruct (allocatePort this) as [[r|e] this'] eqn:Halloc; simpl.
  - destruct (allocatePort_Return _ _ _ Halloc) as (Hr & Hrfree & Hrbelow & _).
    f_equal. destruct (Z.lt_trichotomy r p) as [Hlt|[->|Hgt]]; [|done|].
    + destruct Hrfree. apply Hbelow. lia.
    + destruct Hfree. apply Hrbelow. lia.
  - destruct (allocatePort_Throw _ _ _ Halloc) as (_ & Hall).
    destruct Hfree. by apply Hall.
Qed.

End PortAllocator.

(** C2.  Whatever ports are held, [allocatePort] returns a port of the
    configured range (50000 to 60000 for a new proxy) that is not held, and
    marks it held; it throws only when every port of the range is held, and
    then it does.  With the range narrowed to a single port [p] it returns
    [p] once and then throws.  A port that [releasePort] has freed is
    returned by the next [allocatePort] when the ports below it are held. *)
Theorem allocatePort_correct :
  MCPProxy.portRange MCPProxy.new = {| MCPProxy.min := 50000; MCPProxy.max := 60000 |}
  ∧ (∀ this : MCPProxy.t,
       let lo := MCPProxy.min (MCPProxy.portRange this) in
       let hi := MCPProxy.max (MCPProxy.portRange this) in
       match MCPProxy.allocatePort this with
       | (Return p, this') =>
           (lo ≤ p ≤ hi)
           ∧ (p ∉ MCPProxy.activePorts this)
           ∧ MCPProxy.activePorts this' = {[p]} ∪ MCPProxy.activePorts this
           ∧ MCPProxy.portRange this' = MCPProxy.portRange this
       | (Throw e, this') =>
           e = Error [Lit "No available ports in range"]
           ∧ this' = this
           ∧ ∀ q, lo ≤ q ≤ hi → q ∈ MCPProxy.activePorts this
       end)
  ∧ (∀ this : MCPProxy.t,
       (∀ q, MCPProxy.min (MCPProxy.portRange this) ≤ q
              ≤ MCPProxy.max (MCPProxy.portRange this) →
             q ∈ MCPProxy.activePorts this) →
       (MCPProxy.allocatePort this).1 = Throw (Error [Lit "No available ports in range"]))
  ∧ (∀ (p : Z) (running : gmap string MCPProxyInstance.t),
       let this := {| MCPProxy.activePorts := ∅;
                      MCPProxy.proxies := running;
                      MCPProxy.portRange := {| MCPProxy.min := p; MCPProxy.max := p |} |} in
       (MCPProxy.allocatePort this).1 = Return p
       ∧ (MCPProxy.allocatePort (MCPProxy.allocatePort this).2).1
         = Throw (Error [Lit "No available ports in range"]))
  ∧ (∀ (this : MCPProxy.t) (p : Z),
       (MCPProxy.min (MCPProxy.portRange this) ≤ p
        ≤ MCPProxy.max (MCPProxy.portRange this)) →
       (∀ q, MCPProxy.min (MCPProxy.portRange this) ≤ q < p →
             q ∈ MCPProxy.activePorts this) →
       (MCPProxy.allocatePort (MCPProxy.releasePort p this)).1 = Return p).
Proof.
  split; [done|]. split; [|split; [|split]].
  - intros this lo hi.
    destruct (MCPProxy.allocatePort this) as [[p|e] this'] eqn:Halloc.
    + destruct (allocatePort_Return _ _ _ Halloc) as (? & ? & _ & ? & ?). done.
    + destruct (allocatePort_Throw _ _ _ Halloc) as (? & ?).
      split; [|done].
      unfold MCPProxy.allocatePort in Halloc.
      destruct (MCPProxy.scan _ _ _ _); by inversion Halloc.
  - intros this Hall.
    destruct (MCPProxy.allocatePort this) as [[p|e] this'] eqn:Halloc; simpl.
    + destruct (allocatePort_Return _ _ _ Halloc) as (Hp & Hfree & _).
      destruct Hfree. by apply Hall.
    + unfold MCPProxy.allocatePort in Halloc.
      destruct (MCPProxy.scan _ _ _ _); by inversion Halloc.
  - intros p running this.
    assert (Hfirst : (MCPProxy.allocatePort this).1 = Return p).
    { apply allocatePort_first_free; simpl; [lia|set_solver|intros; lia]. }
    split; [done|].
    destruct (MCPProxy.allocatePort this) as [[r|e] this'] eqn:Halloc;
      simpl in Hfirst; [|done].
    injection Hfirst as ->. simpl.
    destruct (allocatePort_Return _ _ _ Halloc) as (_ & _ & _ & Hheld & Hsame).
    destruct (MCPProxy.allocatePort this') as [[r|e] this''] eqn:Hagain; simpl.
    + destruct (allocatePort_Return _ _ _ Hagain) as (Hr & Hfree & _).
      rewrite Hsame in Hr. simpl in Hr.
      destruct Hfree. rewrite Hheld. assert (r = p) as -> by lia.
      apply elem_of_union. left. by apply elem_of_singleton.
    + unfold MCPProxy.allocatePort in Hagain.
      destruct (MCPProxy.scan _ _ _ _); by inversion Hagain.
  - intros this p Hrange Hbelow.
    apply allocatePort_first_free; simpl; [done| |].
    { intros Hin. apply elem_of_difference in Hin as [_ Hnot].
      apply Hnot. by apply elem_of_singleton. }
    intros q Hq. apply elem_of_difference. split; [by apply Hbelow|].
    apply not_elem_of_singleton. lia.
Qed.

Lemma allocatePort_correct_witness :
  (MCPProxy.allocatePort (MCPProxy.releasePort 50001 Examples.two_held)).1
  = Return 50001.
Proof.
  apply (proj2 (proj2 (proj2 (proj2 allocatePort_correct))) Examples.two_held 50001).
  - simpl. lia.
  - simpl. intros q Hq. assert (q = 50000) as -> by lia.
    apply elem_of_union_l, elem_of_singleton. reflexivity.
Defined.

(** ** [parseMemory] *)

Section ParseMemory.

Import Memory.

Lemma unit_not_digit c : is_unit c = true → is_digit c = false.
Proof.
  destruct c as [[] [] [] [] [] [] [] []]; simpl; first [discriminate | reflexivity].
Qed.

(** [span_digits] cuts its input in two, the first part made of digits and
    the second not starting with one. *)
Lemma span_digits_sound s ds tl :
  span_digits s = (ds, tl) →
  s = ds +:+ tl
  ∧ all_digits ds = true
  ∧ match tl with String c _ => is_digit c = false | EmptyString => True end.
Proof.
  revert ds tl. induction s as [|c s IH]; intros ds tl; simpl.
  - intros [= <- <-]. done.
  - destruct (is_digit c) eqn:Hc.
    + destruct (span_digits s) as [ds' tl'].
      intros [= <- <-]. destruct (IH _ _ eq_refl) as (-> & Hds & Htl).
      simpl. rewrite Hc, Hds. done.
    + intros [= <- <-]. simpl. by rewrite Hc.
Qed.

Lemma span_digits_app ds tl :
  all_digits ds = true →
  match tl with String c _ => is_digit c = false | EmptyString => True end →
  span_digits (ds +:+ tl) = (ds, tl).
Proof.
  intros Hds Htl. induction ds as [|c ds IH]; simpl in *.
  - destruct tl as [|c tl]; simpl; [done|]. by rewrite Htl.
  - apply andb_true_iff in Hds as [Hc Hds]. rewrite Hc, (IH Hds). done.
Qed.

Lemma unit_suffix_head u :
  unit_suffix u = true →
  match u with String c _ => is_digit c = false | EmptyString => True end.
Proof.
  destruct u as [|c [|]]; simpl; [done| |done]. apply unit_not_digit.
Qed.

Lemma match_memory_grammar digits unit :
  digits ≠ EmptyString → all_digits digits = true → unit_suffix unit = true →
  match_memory (digits +:+ unit) = Some (digits, unit).
Proof.
  intros Hne Hds Hu. unfold match_memory.
  rewrite (span_digits_app _ _ Hds (unit_suffix_head _ Hu)).
  destruct digits as [|d ds]; [done|].
  destruct unit as [|c [|]]; simpl in *; [done| |done]. by rewrite Hu.
Qed.

Lemma match_memory_Some s digits unit :
  match_memory s = Some (digits, unit) →
  s = digits +:+ unit
  ∧ digits ≠ EmptyString ∧ all_digits digits = true ∧ unit_suffix unit = true.
Proof.
  unfold match_memory.
  destruct (span_digits s) as [ds tl] eqn:Hspan.
  destruct (span_digits_sound _ _ _ Hspan) as (-> & Hds & _).
  destruct ds as [|d ds]; [done|].
  destruct tl as [|c [|]]; [| |done].
  - intros [= <- <-]. done.
  - destruct (is_unit c) eqn:Hc; [|done]. intros [= <- <-]. simpl. by rewrite Hc.
Qed.

Lemma parseMemory_value digits unit :
  match_memory (digits +:+ unit) = Some (digits, unit) →
  unit_suffix unit = true →
  SandboxManager.parseMemory (digits +:+ unit)
  = Return (parseInt digits * multiplier unit).
Proof.
  intros Hm Hu. unfold SandboxManager.parseMemory. rewrite Hm.
  destruct unit as [|c [|]]; simpl in *; [f_equal; lia| |done].
  destruct c as [[] [] [] [] [] [] [] []]; simpl in *;
    first [discriminate | f_equal; lia].
Qed.

End ParseMemory.

(** C3 on the code.  [parseMemory] accepts exactly the strings of the
    grammar [^\d+[KMGT]?$] (letters in either case) and throws on all others;
    on an accepted string it returns the number the digits denote, times 1
    without a unit and times 2^10, 2^20, 2^30, 2^40 for K, M, G, T (digits
    up to 2^53, the integers a [number] holds exactly).  The inputs [""],
    ["1KB"] and ["1 G"] are rejected.  The input ["0"], which C3 wants
    rejected too, is in the grammar, and this [parseMemory] has no check on
    the value: it returns 0. *)
Theorem parseMemory_grammar :
  (∀ s, (∃ n, SandboxManager.parseMemory s = Return n) ↔ Memory.grammar s)
  ∧ (∀ s, ¬ Memory.grammar s →
          SandboxManager.parseMemory s
          = Throw (Error [Lit "Invalid memory format: "; Lit s]))
  ∧ (∀ digits unit,
       digits ≠ EmptyString →
       Memory.all_digits digits = true →
       Memory.unit_suffix unit = true →
       Memory.parseInt digits ≤ 2 ^ 53 →
       SandboxManager.parseMemory (digits +:+ unit)
       = Return (Memory.parseInt digits * Memory.multiplier unit))
  ∧ throws (SandboxManager.parseMemory "") = true
  ∧ throws (SandboxManager.parseMemory "1KB") = true
  ∧ throws (SandboxManager.parseMemory "1 G") = true
  ∧ SandboxManager.parseMemory "0" = Return 0.
Proof.
  assert (Hthrow : ∀ s, Memory.match_memory s = None →
            SandboxManager.parseMemory s
            = Throw (Error [Lit "Invalid memory format: "; Lit s])).
  { intros s H. unfold SandboxManager.parseMemory. by rewrite H. }
  assert (Hiff : ∀ s, (∃ n, SandboxManager.parseMemory s = Return n) ↔ Memory.grammar s).
  { intros s. split.
    - intros [n Hn].
      destruct (Memory.match_memory s) as [[ds u]|] eqn:Hm.
      + exists ds, u. by apply match_memory_Some.
      + rewrite (Hthrow _ Hm) in Hn. discriminate.
    - intros (ds & u & -> & Hne & Hds & Hu).
      exists (Memory.parseInt ds * Memory.multiplier u).
      apply parseMemory_value; [|done]. by apply match_memory_grammar. }
  split; [exact Hiff|]. split; [|split].
  - intros s Hs.
    destruct (Memory.match_memory s) as [[ds u]|] eqn:Hm; [|by apply Hthrow].
    destruct Hs. exists ds, u. by apply match_memory_Some.
  - intros ds u Hne Hds Hu _.
    apply parseMemory_value; [|done]. by apply match_memory_grammar.
  - repeat split; reflexivity.
Qed.

Lemma parseMemory_grammar_witness :
  SandboxManager.parseMemory ("512" +:+ "M")
  = Return (Memory.parseInt "512" * Memory.multiplier "M").
Proof.
  apply (proj1 (proj2 (proj2 parseMemory_grammar)) "512" "M").
  - discriminate.
  - reflexivity.
  - reflexivity.
  - vm_compute. discriminate.
Defined.

(** ** JSON-RPC dispatch *)

Section Dispatch.

Import MCPProxyInstance.

(** A handler that returns has sent one response, with the [id] it read
    from the request, as [JSON.stringify] writes it. *)
Lemma handleMCPMessage_Return this message sent :
  handleMCPMessage this message = Return sent →
  ∃ reply, sent = [Send reply]
           ∧ is_reply reply = true
           ∧ id_of reply = JSON_written (request_id message).
Proof.
  unfold handleMCPMessage, forwardToMCPServer, request_id, send_result, send_error.
  destruct (get message "method") as [method|] eqn:Hmethod; simpl; [|done].
  destruct (get message "params") as [params|] eqn:Hparams; simpl; [|done].
  destruct (get message "id") as [id|] eqn:Hid; simpl; [|done].
  repeat match goal with
         | |- context [if ?b then _ else _] => destruct b
         | |- context [mbind _ ?c] => destruct c; simpl
         | |- context [completion_bind _ _ _ ?c] => destruct c; simpl
         end;
    try done; intros [= <-]; eexists; (split; [reflexivity|]); done.
Qed.

(** What [JSON.stringify] does to an id. *)
Lemma JSON_written_echoed id : Spec.echoed id = true → JSON_written id = id.
Proof. by destruct id as [| | |[[]| | |]| | |]. Qed.

Lemma JSON_written_Null id :
  JSON_written id = Null → id = Null ∨ Spec.unbounded id.
Proof.
  destruct id as [| | |x| | |]; try done; [by left|].
  intros Hx. right. exists x. split; [done|]. by destruct x.
Qed.

Lemma JSON_written_unbounded id : Spec.unbounded id → JSON_written id = Null.
Proof. intros (x & -> & Hx). by destruct x. Qed.

Lemma onMessage_parsed this message :
  onMessage this (JsonText message)
  = match handleMCPMessage this message with
    | Return sent => sent
    | Throw _ => [Send parse_error]
    end.
Proof. reflexivity. Qed.

End Dispatch.

(** C4, as the code has it.  A frame that fails JSON parsing is answered with
    the error -32700 and [id = null].  A frame that parses and whose handling
    completes without an exception is answered with exactly one response,
    whose [id] is the request's [id] as [JSON.stringify] writes it: a
    string, a boolean, [null] or a finite number other than the negative
    zero is sent back as it was read (and no [id] when the request has
    none), and [null] is sent only when the request's own [id] is [null] or
    a number that was read as NaN or as an infinity, as [1e400] is.  The
    request's [id] is the value that [JSON.parse] read: a number literal
    stands for the nearest binary64 value. *)
Theorem reply_carries_request_id :
  ∀ (this : MCPProxyInstance.t) (data : json_text),
    match JSON_parse data with
    | Throw _ =>
        MCPProxyInstance.onMessage this data
        = [MCPProxyInstance.Send (MCPProxyInstance.Failure (-32700) "Parse error" Null)]
    | Return message =>
        match MCPProxyInstance.handleMCPMessage this message with
        | Return sent =>
            MCPProxyInstance.onMessage this data = sent
            ∧ ∃ reply,
                sent = [MCPProxyInstance.Send reply]
                ∧ MCPProxyInstance.is_reply reply = true
                ∧ MCPProxyInstance.id_of reply
                  = JSON_written (MCPProxyInstance.request_id message)
                ∧ (Spec.echoed (MCPProxyInstance.request_id message) = true →
                   MCPProxyInstance.id_of reply
                   = MCPProxyInstance.request_id message)
                ∧ (Spec.unbounded (MCPProxyInstance.request_id message) →
                   MCPProxyInstance.id_of reply = Null)
                ∧ (MCPProxyInstance.id_of reply = Null →
                   get message "id" = Return Null
                   ∨ ∃ id, get message "id" = Return id ∧ Spec.unbounded id)
        | Throw _ => True
        end
    end.
Proof.
  intros this [message|raw]; simpl; [|reflexivity].
  rewrite onMessage_parsed.
  destruct (MCPProxyInstance.handleMCPMessage this message) as [sent|] eqn:Hsent;
    [|done].
  split; [done|].
  destruct (handleMCPMessage_Return _ _ _ Hsent) as (reply & -> & Hreply & Hid).
  exists reply. split; [done|]. split; [done|]. split; [done|].
  split; [|split].
  - intros Hechoed. by rewrite Hid, JSON_written_echoed.
  - intros Hnum. by rewrite Hid, JSON_written_unbounded.
  - rewrite Hid. unfold MCPProxyInstance.request_id.
    destruct (get message "id") as [id|]; [|done].
    intros [->|Hnum]%JSON_written_Null; [by left|]. right. by exists id.
Qed.

(** C4 as stated lets [id = null] appear only in the answer to a frame that
    fails to parse; a request that parses and carries ["id": null] is
    answered with [id = null] as well, and so is one that carries
    ["id": 1e400]. *)
Lemma null_id_echoed :
  JSON_parse Examples.initialize_null_id
  = Return (obj [("jsonrpc", Str "2.0"); ("method", Str "initialize"); ("id", Null)])
  ∧ MCPProxyInstance.onMessage Examples.proxy_s1 Examples.initialize_null_id
    = [MCPProxyInstance.Send
         (MCPProxyInstance.Result (MCPProxyInstance.PHello MCPProxyInstance.hello) Null)]
  ∧ (∃ message,
       JSON_parse Examples.initialize_huge_id = Return message
       ∧ get message "id" = Return (Num (S754_infinity false)))
  ∧ MCPProxyInstance.onMessage Examples.proxy_s1 Examples.initialize_huge_id
    = [MCPProxyInstance.Send
         (MCPProxyInstance.Result (MCPProxyInstance.PHello MCPProxyInstance.hello) Null)].
Proof.
  split; [reflexivity|]. split; [reflexivity|]. split.
  - eexists. split; [reflexivity|]. vm_compute. reflexivity.
  - vm_compute. reflexivity.
Qed.

(** The [id] of a request is what [JSON.parse] made of it: the literal
    [9007199254740993] is read, and sent back, as [9007199254740992]. *)
Lemma big_id_rounded :
  Binary64.of_Z (2 ^ 53 + 1) = Binary64.of_Z (2 ^ 53)
  ∧ MCPProxyInstance.onMessage Examples.proxy_s1 Examples.initialize_big_id
    = [MCPProxyInstance.Send
         (MCPProxyInstance.Result (MCPProxyInstance.PHello MCPProxyInstance.hello)
            (Num (Binary64.of_Z (2 ^ 53))))].
Proof. split; vm_compute; reflexivity. Qed.

(** C9 on the code.  A [tools/call] for a tool that does not exist makes
    [callTool] throw; the [catch] of the message listener answers with the
    parse error -32700 and [id = null], not with -32601 and the request's
    [id].  The connection stays open: nothing but that one frame is sent. *)
Theorem unknown_tool_reply :
  MCPProxyInstance.onMessage Examples.proxy_s1 Examples.call_unknown_tool
  = [MCPProxyInstance.Send (MCPProxyInstance.Failure (-32700) "Parse error" Null)]
  ∧ (MCPProxyInstance.Close
      ∉ MCPProxyInstance.onMessage Examples.proxy_s1 Examples.call_unknown_tool)
  ∧ MCPProxyInstance.handleMCPMessage Examples.proxy_s1
      (obj [("jsonrpc", Str "2.0"); ("method", Str "tools/call");
            ("params", obj [("name", Str "nope"); ("arguments", obj [])]);
            ("id", Num (Binary64.of_Z 7))])
    = Throw (Error [Lit "Unknown tool: "; Subst (Str "nope")]).
Proof.
  split; [reflexivity|]. split; [|reflexivity].
  intros Hin. apply list_elem_of_singleton in Hin. discriminate.
Qed.

(** ** The record store *)

Section Store.

Import SandboxManager Spec.

(** [getSandbox] always returns, and changes nothing. *)
Lemma getSandbox_run sandboxId s :
  getSandbox sandboxId s = (Return (record_at (fs s) sandboxId), s).
Proof.
  unfold getSandbox, try_catch, bind, readConfig, lift, ret, record_at.
  destruct (Host.configs (fs s) !! sandboxId) as [[]|]; reflexivity.
Qed.

Lemma collect_run entries s :
  collect entries s = (Return (omap (record_at (fs s)) entries), s).
Proof.
  induction entries as [|entry entries IH]; simpl; [reflexivity|].
  unfold bind. rewrite getSandbox_run, IH. simpl.
  destruct (record_at (fs s) entry); reflexivity.
Qed.

Lemma insert_sorted_perm cmp x sorted :
  insert_sorted cmp x sorted ≡ₚ x :: sorted.
Proof.
  induction sorted as [|y sorted IH]; simpl; [done|].
  destruct (after cmp y x); [done|]. rewrite IH. apply Permutation_swap.
Qed.

Lemma sort_perm cmp l : sort cmp l ≡ₚ l.
Proof.
  unfold sort.
  assert (H : ∀ acc, fold_left (λ sorted x, insert_sorted cmp x sorted) l acc ≡ₚ acc ++ l).
  { induction l as [|x l IH]; intros acc; simpl; [by rewrite app_nil_r|].
    rewrite IH, insert_sorted_perm. simpl. apply Permutation_middle. }
  apply (H []).
Qed.

(** The three ways [listSandboxes] can go. *)
Lemma listSandboxes_run h s :
  (listSandboxes h s).1 =
    Return
      (if Host.impossible (Host.Mkdir Host.SandboxesDir) (fs s)
          || negb (Host.succeeds h (Host.Mkdir Host.SandboxesDir))
       then []
       else match Host.sandboxes (fs s) with
            | Host.Entries names => sort by_created (omap (record_at (fs s)) names)
            | _ => []
            end).
Proof.
  unfold listSandboxes, try_catch, bind, call, readdir_sandboxes, ret.
  destruct (_ || _); simpl; [reflexivity|].
  destruct (Host.sandboxes (fs s)) as [| | |names]; simpl; try reflexivity.
  rewrite collect_run. reflexivity.
Qed.

End Store.

(** C10.  [getSandbox] never throws and changes nothing; when the directory
    or the [config.json] of the id is missing, or the file cannot be read or
    is not valid JSON, it returns [null].  [listSandboxes] never throws
    either: when the sandboxes directory can be created and read it returns
    the records of the entries that hold one (in some order), so an entry
    without a usable record is left out and never makes the listing fail;
    when the directory cannot be created or read it returns the empty
    list. *)
Theorem getSandbox_total :
  (∀ sandboxId s,
     ∃ found, SandboxManager.getSandbox sandboxId s = (Return found, s))
  ∧ (∀ sandboxId s,
       Spec.unusable (Host.configs (SandboxManager.fs s) !! sandboxId) →
       SandboxManager.getSandbox sandboxId s = (Return None, s))
  ∧ (∀ h s,
       ∃ listed,
         (SandboxManager.listSandboxes h s).1 = Return listed
         ∧ (∀ names,
              Host.sandboxes (SandboxManager.fs s) = Host.Entries names →
              Host.succeeds h (Host.Mkdir Host.SandboxesDir) = true →
              listed ≡ₚ omap (Spec.record_at (SandboxManager.fs s)) names
              ∧ ∀ entry,
                  Spec.unusable (Host.configs (SandboxManager.fs s) !! entry) →
                  Spec.record_at (SandboxManager.fs s) entry = None)
         ∧ ((∀ names, Host.sandboxes (SandboxManager.fs s) ≠ Host.Entries names) →
            listed = [])
         ∧ (Host.succeeds h (Host.Mkdir Host.SandboxesDir) = false →
            listed = [])).
Proof.
  split; [|split].
  - intros sandboxId s. eexists. apply getSandbox_run.
  - intros sandboxId s Hbad. rewrite getSandbox_run. f_equal. f_equal.
    unfold Spec.record_at. by destruct Hbad as [->|[->| ->]].
  - intros h s. eexists. split; [apply listSandboxes_run|].
    split; [|split].
    + intros names Hdir Hok. unfold Host.impossible. rewrite Hdir, Hok. simpl. split.
      * apply sort_perm.
      * intros entry Hbad. unfold Spec.record_at.
        by destruct Hbad as [->|[->| ->]].
    + intros Hdir. destruct (_ || _); [done|].
      destruct (Host.sandboxes _) as [| | |names]; try done.
      by destruct (Hdir names).
    + intros ->. by rewrite orb_true_r.
Qed.

Lemma getSandbox_total_witness :
  SandboxManager.getSandbox "b" (SandboxManager.new Examples.disk_mixed)
  = (Return None, SandboxManager.new Examples.disk_mixed)
  ∧ ∃ listed,
      (SandboxManager.listSandboxes Examples.willing
         (SandboxManager.new Examples.disk_mixed)).1 = Return listed
      ∧ listed ≡ₚ [Examples.record_a].
Proof.
  split.
  - apply (proj1 (proj2 getSandbox_total)).
    right. right. reflexivity.
  - destruct (proj2 (proj2 getSandbox_total) Examples.willing
                (SandboxManager.new Examples.disk_mixed))
      as (listed & Hlisted & Hentries & _).
    exists listed. split; [exact Hlisted|].
    apply (Hentries ["a"; "b"; "c"; "d"]); reflexivity.
Defined.

(** ** The calls issued by the lifecycle operations *)

Lemma call_trace h e s :
  SandboxManager.trace (SandboxManager.call h e s).2
  = SandboxManager.trace s ++ [e].
Proof. unfold SandboxManager.call. destruct (_ || _); reflexivity. Qed.

(** Running one call inside a proof: the trace grows by that call, whether
    it succeeds or not. *)
Ltac step h :=
  match goal with
  | |- context [SandboxManager.call h ?e ?s] =>
      let T := fresh "T" in
      pose proof (call_trace h e s) as T;
      let s' := fresh "s" in
      destruct (SandboxManager.call h e s) as [[[]|?] s']; simpl in T |- *
  end.

Ltac close_trace :=
  repeat match goal with
         | T : SandboxManager.trace ?s' = _ |- context [SandboxManager.trace ?s'] => rewrite T; clear T
         end;
  rewrite <- ?app_assoc; simpl.

Ltac stops_quietly :=
  eexists; split; [close_trace; reflexivity|];
  left; split; [repeat constructor; done|done].

Section Lifecycle.

Import SandboxManager Spec.

Lemma emits_call h e : emits (call h e) (λ _ evs, evs = [e]).
Proof. intros s. exists [e]. split; [apply call_trace|done]. Qed.

Lemma emits_ret {A} (a : A) : emits (ret a) (λ r evs, r = Return a ∧ evs = []).
Proof. intros s. exists []. simpl. by rewrite app_nil_r. Qed.

Lemma emits_throw {A} e : emits (@throw A e) (λ r evs, r = Throw e ∧ evs = []).
Proof. intros s. exists []. simpl. by rewrite app_nil_r. Qed.

Lemma emits_weaken {A} (m : M A) (P Q : completion A → list Host.event → Prop) :
  emits m P → (∀ r evs, P r evs → Q r evs) → emits m Q.
Proof. intros Hm HPQ s. destruct (Hm s) as (evs & ? & ?). eauto. Qed.

Lemma emits_bind {A B} (m : M A) (k : A → M B) P Q :
  emits m P → (∀ a, emits (k a) (Q a)) →
  emits (bind m k)
    (λ r evs,
       (∃ e, r = Throw e ∧ P (Throw e) evs)
       ∨ ∃ a evs1 evs2, evs = evs1 ++ evs2 ∧ P (Return a) evs1 ∧ Q a r evs2).
Proof.
  intros Hm Hk s. unfold bind.
  destruct (Hm s) as (evs1 & Ht1 & HP).
  destruct (m s) as [[a|e] s1]; simpl in *.
  - destruct (Hk a s1) as (evs2 & Ht2 & HQ).
    exists (evs1 ++ evs2). split; [by rewrite Ht2, Ht1, app_assoc|].
    right. eauto 10.
  - exists evs1. split; [done|]. left. eauto.
Qed.

Lemma emits_try_catch {A} (body : M A) (handler : exn → M A) P Q :
  emits body P → (∀ e, emits (handler e) (Q e)) →
  emits (try_catch body handler)
    (λ r evs,
       (∃ a, r = Return a ∧ P (Return a) evs)
       ∨ ∃ e evs1 evs2, evs = evs1 ++ evs2 ∧ P (Throw e) evs1 ∧ Q e r evs2).
Proof.
  intros Hm Hk s. unfold try_catch.
  destruct (Hm s) as (evs1 & Ht1 & HP).
  destruct (body s) as [[a|e] s1]; simpl in *.
  - exists evs1. split; [done|]. left. eauto.
  - destruct (Hk e s1) as (evs2 & Ht2 & HQ).
    exists (evs1 ++ evs2). split; [by rewrite Ht2, Ht1, app_assoc|].
    right. eauto 10.
Qed.

Lemma createSandbox_emits h config template :
  emits (createSandbox h config template)
    (λ r evs,
       (Forall (λ e, quiet e = true) evs ∧ throws r = true)
       ∨ ∃ pre tag name mem cpus,
           evs = pre ++ [save_of (with_container config (Host.container_id h name))]
           ∧ Forall (λ e, quiet e = true) pre
           ∧ Host.BuildImage (Host.SandboxDir (id config)) tag ∈ pre
           ∧ Host.CreateContainer name tag mem cpus ∈ pre).
Proof.
  intros s. unfold createSandbox, bind, saveSandboxConfig, lift, ret.
  assert (Hws : ∃ e, quiet e = true ∧
    match git config with
    | Some {| git_clonePath := Some clonePath |} =>
        if negb (String.eqb clonePath "") then
          call h (Host.CopyDirectory clonePath (Host.Workspace (id config)))
        else call h (Host.Mkdir (Host.Workspace (id config)))
    | _ => call h (Host.Mkdir (Host.Workspace (id config)))
    end = call h e).
  { destruct (git config) as [[? ? [cp|]]|]; simpl; try destruct (negb _);
      (eexists; split; [|reflexivity]; reflexivity). }
  destruct Hws as (ews & Hq & ->).
  do 7 (step h; [|stops_quietly]).
  destruct (parseMemory _) as [mem|]; simpl; [|stops_quietly].
  step h; [|stops_quietly].
  step h.
  all: eexists; split; [close_trace; reflexivity|]; right.
  all: eexists [_;_;_;_;_;_;_;_], _, _, _, _; split; [reflexivity|].
  all: split; [repeat constructor; done|].
  all: split; [do 6 apply list_elem_of_further; apply list_elem_of_here
              |do 7 apply list_elem_of_further; apply list_elem_of_here].
Qed.

Lemma allocatePort_trace s : trace (allocatePort s).2 = trace s.
Proof.
  unfold allocatePort. by destruct (MCPProxy.allocatePort (mcpProxy s)).
Qed.

Lemma startSandbox_emits h sandboxId :
  emits (startSandbox h sandboxId)
    (λ r evs,
       (Forall (λ e, quiet e = true) evs ∧ throws r = true)
       ∨ ∃ c port cid,
           evs = [Host.StartContainer cid; save_of (started c port)]
           ∧ containerId c = Some cid
           ∧ truthy_string (containerId c) = true).
Proof.
  intros s. unfold startSandbox, bind. rewrite getSandbox_run.
  destruct (record_at (fs s) sandboxId) as [c|]; simpl;
    [|exists []; rewrite app_nil_r; split; [done|left; done]].
  destruct (truthy_string (containerId c)) eqn:Hcid; simpl;
    [|exists []; rewrite app_nil_r; split; [done|left; done]].
  step h; [|stops_quietly].
  pose proof (allocatePort_trace s0) as Tp.
  destruct (allocatePort s0) as [[port|] s1]; simpl in *; [|stops_quietly].
  unfold saveSandboxConfig. step h.
  all: eexists; split; [close_trace; reflexivity|]; right.
  all: destruct (containerId c) as [cid|] eqn:Hc; [|done].
  all: exists c, port, cid; rewrite Hc; done.
Qed.

Lemma stopSandbox_emits h sandboxId :
  emits (stopSandbox h sandboxId)
    (λ r evs,
       (Forall (λ e, quiet e = true) evs ∧ throws r = true)
       ∨ ∃ c cid,
           evs = [Host.StopContainer cid; save_of (halted c)]
           ∧ containerId c = Some cid).
Proof.
  intros s. unfold stopSandbox, bind. rewrite getSandbox_run.
  destruct (record_at (fs s) sandboxId) as [c|]; simpl;
    [|exists []; rewrite app_nil_r; split; [done|left; done]].
  destruct (truthy_string (containerId c)) eqn:Hcid; simpl;
    [|exists []; rewrite app_nil_r; split; [done|left; done]].
  step h; [|stops_quietly].
  assert (Hrel : ∃ s1, (if truthy_int (mcpPort c)
                        then releasePort (default 0 (mcpPort c))
                        else ret tt) s0 = (Return tt, s1)
                       ∧ trace s1 = trace s0).
  { destruct (truthy_int _); eexists; split; reflexivity. }
  destruct Hrel as (s1 & -> & Tr).
  unfold saveSandboxConfig. step h.
  all: eexists; split; [close_trace; reflexivity|]; right.
  all: destruct (containerId c) as [cid|] eqn:Hc; [|done].
  all: exists c, cid; rewrite Hc; done.
Qed.

End Lifecycle.

(** ** What the lifecycle operations persist *)

Section Persisted.

Import SandboxManager Spec.

Lemma persisted_app evs1 evs2 :
  persisted (evs1 ++ evs2) = persisted evs1 ++ persisted evs2.
Proof. apply omap_app. Qed.

Lemma persisted_quiet evs :
  Forall (λ e, quiet e = true) evs → persisted evs = [].
Proof.
  induction 1 as [|e evs He _ IH]; [done|].
  change (persisted (e :: evs))
    with (match record_of e with
          | Some c => c :: persisted evs
          | None => persisted evs
          end).
  rewrite IH.
  destruct e as [| |[] []| | | | | | | | | | | |]; simpl in *; done.
Qed.

Lemma quiet_not_in_place e :
  quiet e = true → in_place e = false ∧ is_rename e = false.
Proof. destruct e as [| |[] ?| | | | | | | | | | | |]; simpl; done. Qed.

Lemma with_container_invariant config cid :
  mcpPort config = None → status_invariant (with_container config cid).
Proof. intros Hport. split; simpl; done. Qed.

Lemma started_invariant c port :
  truthy_string (containerId c) = true → status_invariant (started c port).
Proof. intros Hcid. split; simpl; [eauto|done]. Qed.

Lemma halted_invariant c : status_invariant (halted c).
Proof. split; simpl; done. Qed.

Lemma rewrites_refl I d : rewrites I d d.
Proof. intros i. by left. Qed.

Lemma rewrites_trans I d1 d2 d3 :
  rewrites I d1 d2 → rewrites I d2 d3 → rewrites I d1 d3.
Proof.
  intros H12 H23 i. destruct (H23 i) as [->|?]; [apply H12|by right].
Qed.

Lemma keeps_ret I {A} (a : A) : keeps I (ret a).
Proof. intros s. apply rewrites_refl. Qed.

Lemma keeps_throw I {A} e : keeps I (@throw A e).
Proof. intros s. apply rewrites_refl. Qed.

Lemma keeps_lift I {A} (c : completion A) : keeps I (lift c).
Proof. intros s. apply rewrites_refl. Qed.

Lemma keeps_bind I {A B} (m : M A) (k : A → M B) :
  keeps I m → (∀ a, keeps I (k a)) → keeps I (bind m k).
Proof.
  intros Hm Hk s. unfold bind. specialize (Hm s).
  destruct (m s) as [[a|e] s1]; simpl in *; [|done].
  eapply rewrites_trans; [exact Hm|apply Hk].
Qed.

Lemma keeps_call_quiet I h e : quiet e = true → keeps I (call h e).
Proof.
  intros Hq s i. left. unfold call. destruct (_ || _); simpl; [done|].
  destruct e as [[]| |[] []| | | | | | | | | | | |]; simpl in *; done.
Qed.

Lemma keeps_save (I : SandboxConfig → Prop) h c :
  I c → keeps I (saveSandboxConfig h c).
Proof.
  intros Hc s i. unfold saveSandboxConfig, call.
  destruct (_ || _); simpl; [by left|].
  destruct (decide (id c = i)) as [<-|Hne].
  - right. exists c. split; [done|]. apply lookup_insert_eq.
  - left. by apply lookup_insert_ne.
Qed.

Lemma keeps_getSandbox I sandboxId : keeps I (getSandbox sandboxId).
Proof. intros s. rewrite getSandbox_run. apply rewrites_refl. Qed.

Lemma keeps_createSandbox h config template :
  mcpPort config = None →
  keeps status_invariant (createSandbox h config template).
Proof.
  intros Hport. unfold createSandbox.
  repeat (apply keeps_bind; [|intros]).
  all: try (apply keeps_call_quiet; reflexivity).
  all: try apply keeps_lift; try apply keeps_ret.
  - destruct (git config) as [[? ? [cp|]]|]; try destruct (negb _);
      apply keeps_call_quiet; reflexivity.
  - apply keeps_save. by apply with_container_invariant.
Qed.

Lemma keeps_startSandbox h sandboxId :
  keeps status_invariant (startSandbox h sandboxId).
Proof.
  unfold startSandbox. apply keeps_bind; [apply keeps_getSandbox|].
  intros [c|]; [|apply keeps_throw].
  destruct (truthy_string (containerId c)) eqn:Hcid; [|apply keeps_throw].
  apply keeps_bind; [by apply keeps_call_quiet|]. intros _.
  apply keeps_bind.
  - intros s. unfold allocatePort. destruct (MCPProxy.allocatePort _).
    apply rewrites_refl.
  - intros port. apply keeps_save. by apply started_invariant.
Qed.

Lemma keeps_stopSandbox h sandboxId :
  keeps status_invariant (stopSandbox h sandboxId).
Proof.
  unfold stopSandbox. apply keeps_bind; [apply keeps_getSandbox|].
  intros [c|]; [|apply keeps_throw].
  destruct (truthy_string (containerId c)) eqn:Hcid; [|apply keeps_throw].
  apply keeps_bind; [by apply keeps_call_quiet|]. intros _.
  apply keeps_bind.
  - destruct (truthy_int _); [|apply keeps_ret]. intros s. apply rewrites_refl.
  - intros _. apply keeps_save. apply halted_invariant.
Qed.

End Persisted.

(** C1, as the code has it.  Every record that [startSandbox] or
    [stopSandbox] writes satisfies the status invariants, whatever record
    they find on disk, and so does the record that [createSandbox] writes
    when the configuration it is given carries no [mcpPort] (create builds it
    that way): a record saved as [running] has a non-empty [containerId] and
    an [mcpPort], a record saved as [stopped] has no [mcpPort].  This holds
    of the records handed to [fs.writeFile] and of what the record files
    hold afterwards. *)
Theorem lifecycle_keeps_status_invariant :
  (∀ h config template s,
     mcpPort config = None →
     (∃ evs,
        SandboxManager.trace (SandboxManager.createSandbox h config template s).2
        = SandboxManager.trace s ++ evs
        ∧ Forall Spec.status_invariant (Spec.persisted evs))
     ∧ Spec.rewrites Spec.status_invariant (SandboxManager.fs s)
         (SandboxManager.fs (SandboxManager.createSandbox h config template s).2))
  ∧ (∀ h sandboxId s,
       (∃ evs,
          SandboxManager.trace (SandboxManager.startSandbox h sandboxId s).2
          = SandboxManager.trace s ++ evs
          ∧ Forall Spec.status_invariant (Spec.persisted evs))
       ∧ Spec.rewrites Spec.status_invariant (SandboxManager.fs s)
           (SandboxManager.fs (SandboxManager.startSandbox h sandboxId s).2))
  ∧ (∀ h sandboxId s,
       (∃ evs,
          SandboxManager.trace (SandboxManager.stopSandbox h sandboxId s).2
          = SandboxManager.trace s ++ evs
          ∧ Forall Spec.status_invariant (Spec.persisted evs))
       ∧ Spec.rewrites Spec.status_invariant (SandboxManager.fs s)
           (SandboxManager.fs (SandboxManager.stopSandbox h sandboxId s).2)).
Proof.
  split; [|split].
  - intros h config template s Hport. split; [|by apply keeps_createSandbox].
    destruct (createSandbox_emits h config template s) as (evs & Ht & Hshape).
    exists evs. split; [done|].
    destruct Hshape as [[Hq _]|(pre & tag & name & mem & cpus & -> & Hq & _)].
    + by rewrite (persisted_quiet _ Hq).
    + rewrite persisted_app, (persisted_quiet _ Hq). simpl.
      repeat constructor; by simpl.
  - intros h sandboxId s. split; [|apply keeps_startSandbox].
    destruct (startSandbox_emits h sandboxId s) as (evs & Ht & Hshape).
    exists evs. split; [done|].
    destruct Hshape as [[Hq _]|(c & port & cid & -> & _ & Hcid)].
    + by rewrite (persisted_quiet _ Hq).
    + simpl. constructor; [|done]. by apply started_invariant.
  - intros h sandboxId s. split; [|apply keeps_stopSandbox].
    destruct (stopSandbox_emits h sandboxId s) as (evs & Ht & Hshape).
    exists evs. split; [done|].
    destruct Hshape as [[Hq _]|(c & cid & -> & _)].
    + by rewrite (persisted_quiet _ Hq).
    + simpl. constructor; [|done]. apply halted_invariant.
Qed.

Lemma lifecycle_keeps_status_invariant_witness :
  (∃ evs,
     SandboxManager.trace
       (SandboxManager.createSandbox Examples.willing Examples.record_a
          Examples.base_template (SandboxManager.new Examples.disk_empty)).2
     = SandboxManager.trace (SandboxManager.new Examples.disk_empty) ++ evs
     ∧ Forall Spec.status_invariant (Spec.persisted evs))
  ∧ Spec.rewrites Spec.status_invariant
      (SandboxManager.fs (SandboxManager.new Examples.disk_empty))
      (SandboxManager.fs
         (SandboxManager.createSandbox Examples.willing Examples.record_a
            Examples.base_template (SandboxManager.new Examples.disk_empty)).2).
Proof.
  apply (proj1 lifecycle_keeps_status_invariant). reflexivity.
Defined.

(** C1 as stated covers [createSandbox] on any record; given one that
    carries an [mcpPort], it saves a [stopped] record with that port. *)
Lemma createSandbox_keeps_port :
  Spec.persisted
    (SandboxManager.trace
       (SandboxManager.createSandbox Examples.willing Examples.stale
          Examples.base_template (SandboxManager.new Examples.disk_empty)).2)
  = [SandboxManager.with_container Examples.stale "cid-dcsandbox-x"]
  ∧ status (SandboxManager.with_container Examples.stale "cid-dcsandbox-x") = stopped
  ∧ mcpPort (SandboxManager.with_container Examples.stale "cid-dcsandbox-x")
    = Some 50000
  ∧ ¬ Spec.status_invariant
        (SandboxManager.with_container Examples.stale "cid-dcsandbox-x")
  ∧ Spec.record_at
      (SandboxManager.fs
         (SandboxManager.createSandbox Examples.willing Examples.stale
            Examples.base_template (SandboxManager.new Examples.disk_empty)).2)
      "x"
    = Some (SandboxManager.with_container Examples.stale "cid-dcsandbox-x").
Proof.
  split; [vm_compute; reflexivity|]. split; [reflexivity|]. split; [reflexivity|].
  split; [|vm_compute; reflexivity].
  intros [_ Hstopped]. specialize (Hstopped eq_refl). discriminate.
Qed.

(** C6, as the code has it.  [saveSandboxConfig] is a single [fs.writeFile]
    on [config.json] itself, and the lifecycle operations write a record in
    no other way: among the calls they issue there is no rename, and every
    write at a [config.json] is that direct write of a record. *)
Theorem record_written_in_place :
  (∀ h config s,
     SandboxManager.trace (SandboxManager.saveSandboxConfig h config s).2
     = SandboxManager.trace s
       ++ [Host.WriteFile (Host.ConfigJson (id config)) (Host.RecordText config)])
  ∧ (∀ h config template s,
       ∃ evs,
         SandboxManager.trace (SandboxManager.createSandbox h config template s).2
         = SandboxManager.trace s ++ evs
         ∧ Forall (λ e, Spec.is_rename e = false
                        ∧ (Spec.in_place e = true → ∃ c, e = Spec.save_of c))
                  evs)
  ∧ (∀ h sandboxId s,
       ∃ evs,
         SandboxManager.trace (SandboxManager.startSandbox h sandboxId s).2
         = SandboxManager.trace s ++ evs
         ∧ Forall (λ e, Spec.is_rename e = false
                        ∧ (Spec.in_place e = true → ∃ c, e = Spec.save_of c))
                  evs)
  ∧ (∀ h sandboxId s,
       ∃ evs,
         SandboxManager.trace (SandboxManager.stopSandbox h sandboxId s).2
         = SandboxManager.trace s ++ evs
         ∧ Forall (λ e, Spec.is_rename e = false
                        ∧ (Spec.in_place e = true → ∃ c, e = Spec.save_of c))
                  evs).
Proof.
  split; [intros; apply call_trace|].
  assert (Hquiet : ∀ evs, Forall (λ e, Spec.quiet e = true) evs →
            Forall (λ e, Spec.is_rename e = false
                         ∧ (Spec.in_place e = true → ∃ c, e = Spec.save_of c)) evs).
  { intros evs Hq. eapply Forall_impl; [exact Hq|]. intros e He.
    destruct (quiet_not_in_place _ He) as [-> ->]. done. }
  assert (Hsave : ∀ c, Spec.is_rename (Spec.save_of c) = false
                       ∧ (Spec.in_place (Spec.save_of c) = true →
                          ∃ c', Spec.save_of c = Spec.save_of c')).
  { intros c. split; [done|]. eauto. }
  split; [|split].
  - intros h config template s.
    destruct (createSandbox_emits h config template s) as (evs & Ht & Hshape).
    exists evs. split; [done|].
    destruct Hshape as [[Hq _]|(pre & tag & name & mem & cpus & -> & Hq & _)];
      [by apply Hquiet|].
    apply Forall_app. split; [by apply Hquiet|]. constructor; [apply Hsave|done].
  - intros h sandboxId s.
    destruct (startSandbox_emits h sandboxId s) as (evs & Ht & Hshape).
    exists evs. split; [done|].
    destruct Hshape as [[Hq _]|(c & port & cid & -> & _)]; [by apply Hquiet|].
    constructor; [done|]. constructor; [apply Hsave|done].
  - intros h sandboxId s.
    destruct (stopSandbox_emits h sandboxId s) as (evs & Ht & Hshape).
    exists evs. split; [done|].
    destruct Hshape as [[Hq _]|(c & cid & -> & _)]; [by apply Hquiet|].
    constructor; [done|]. constructor; [apply Hsave|done].
Qed.

(** C6 as stated has every write of a record go through a temporary file;
    [stopSandbox] on the record [a] writes [config.json] in place, and
    renames nothing. *)
Lemma stopSandbox_writes_in_place :
  SandboxManager.trace
    (SandboxManager.stopSandbox Examples.willing "a"
       (SandboxManager.new Examples.disk_mixed)).2
  = [Host.StopContainer "c-a";
     Host.WriteFile (Host.ConfigJson "a")
       (Host.RecordText (SandboxManager.halted Examples.record_a))]
  ∧ ¬ Spec.atomic_rewrites
        (SandboxManager.trace
           (SandboxManager.stopSandbox Examples.willing "a"
              (SandboxManager.new Examples.disk_mixed)).2).
Proof.
  assert (Ht : SandboxManager.trace
    (SandboxManager.stopSandbox Examples.willing "a"
       (SandboxManager.new Examples.disk_mixed)).2
  = [Host.StopContainer "c-a";
     Host.WriteFile (Host.ConfigJson "a")
       (Host.RecordText (SandboxManager.halted Examples.record_a))]).
  { vm_compute. reflexivity. }
  split; [exact Ht|]. rewrite Ht. intros Hatomic.
  apply Forall_cons in Hatomic as [_ Hatomic].
  apply Forall_cons in Hatomic as [Hwrite _]. discriminate.
Qed.

(** ** The create pipeline *)

Section CreatePipeline.

Import SandboxManager Spec.

Lemma emits_all_bind {A B} (Q : Host.event → Prop) (m : M A) (k : A → M B) :
  emits m (λ _ evs, Forall Q evs) →
  (∀ a, emits (k a) (λ _ evs, Forall Q evs)) →
  emits (bind m k) (λ _ evs, Forall Q evs).
Proof.
  intros Hm Hk.
  eapply emits_weaken;
    [exact (emits_bind m k (λ _ evs, Forall Q evs) (λ _ _ evs, Forall Q evs) Hm Hk)|].
  intros r evs [(e & _ & H)|(a & evs1 & evs2 & -> & H1 & H2)]; [done|].
  by apply Forall_app.
Qed.

Lemma emits_all_call h e (Q : Host.event → Prop) :
  Q e → emits (call h e) (λ _ evs, Forall Q evs).
Proof.
  intros He. eapply emits_weaken; [apply emits_call|].
  intros _ evs ->. by constructor.
Qed.

Lemma emits_all_ret {A} (a : A) (Q : Host.event → Prop) :
  emits (ret a) (λ _ evs, Forall Q evs).
Proof. eapply emits_weaken; [apply emits_ret|]. by intros r evs [_ ->]. Qed.

Lemma emits_all_throw {A} e (Q : Host.event → Prop) :
  emits (@throw A e) (λ _ evs, Forall Q evs).
Proof. eapply emits_weaken; [apply emits_throw|]. by intros r evs [_ ->]. Qed.

Lemma emits_all_try_catch {A} (Q : Host.event → Prop) (body : M A) handler :
  emits body (λ _ evs, Forall Q evs) →
  (∀ e, emits (handler e) (λ _ evs, Forall Q evs)) →
  emits (try_catch body handler) (λ _ evs, Forall Q evs).
Proof.
  intros Hm Hk.
  eapply emits_weaken;
    [exact (emits_try_catch body handler (λ _ evs, Forall Q evs)
              (λ _ _ evs, Forall Q evs) Hm Hk)|].
  intros r evs [(a & _ & H)|(e & evs1 & evs2 & -> & H1 & H2)]; [done|].
  by apply Forall_app.
Qed.

Lemma emits_all_getSandbox sandboxId (Q : Host.event → Prop) :
  emits (getSandbox sandboxId) (λ _ evs, Forall Q evs).
Proof.
  intros s. exists []. rewrite getSandbox_run. simpl. by rewrite app_nil_r.
Qed.

Lemma cloneRepository_emits h url branch sandboxId :
  emits (GitManager.cloneRepository h url branch sandboxId)
    (λ r evs,
       Forall (λ e, quiet e = true) evs
       ∧ (throws r = false →
          Host.GitClone url branch (Host.CloneDir sandboxId) ∈ evs)).
Proof.
  intros s. unfold GitManager.cloneRepository, bind, try_catch, throw, ret.
  step h; [|eexists; split; [close_trace; reflexivity|];
            split; [repeat constructor; done|done]].
  repeat (step h; simpl).
  all: eexists; (split; [close_trace; reflexivity|]).
  all: split; [repeat constructor; done|].
  all: intros Hr; try discriminate Hr.
  all: do 2 apply list_elem_of_further; apply list_elem_of_here.
Qed.

Lemma resolve_emits h options :
  emits (Create.resolve h options)
    (λ r evs,
       Forall (λ e, quiet e = true) evs
       ∧ ∀ chosen, r = Return chosen →
           chosen.1 = chosen_template h options
           ∧ (truthy_string (opt_git options) = true →
              ∃ url branch dest, Host.GitClone url branch dest ∈ evs)).
Proof.
  intros s. unfold Create.resolve, chosen_template.
  destruct (truthy_string (opt_git options)) eqn:Hgit; simpl.
  - unfold bind.
    destruct (cloneRepository_emits h (default "" (opt_git options))
                (Create.or_else (opt_branch options) "main")
                (Create.sandboxId h) s) as (evs & Ht & Hq & Hclone).
    destruct (GitManager.cloneRepository _ _ _ _ s) as [[clonePath|e] s1];
      simpl in *.
    + destruct (_ || _); simpl; exists evs; (split; [done|]);
        (split; [done|]); intros chosen [= <-]; simpl; eauto 10.
    + exists evs. split; [done|]. split; [done|]. intros chosen [=].
  - exists []. rewrite app_nil_r. split; [done|]. split; [done|].
    intros chosen [= <-]. done.
Qed.

Lemma quiet_start e : quiet e = true → quiet_or_start e.
Proof. by left. Qed.

Lemma start_emits_all p : Forall quiet_or_start (MCPProxyInstance.start p).
Proof.
  unfold MCPProxyInstance.start. apply Forall_app. split.
  - induction (List.filter _ _); simpl; constructor; [by left|done].
  - constructor; [by left|done].
Qed.

Lemma bring_up_emits h templateConfig sandbox :
  emits (Create.bring_up h templateConfig sandbox)
    (λ _ evs, Forall quiet_or_start evs).
Proof.
  unfold Create.bring_up.
  apply emits_all_bind.
  { eapply emits_weaken; [apply startSandbox_emits|].
    intros r evs [[Hq _]|(c & port & cid & -> & _ & Hcid)].
    - eapply Forall_impl; [exact Hq|]. apply quiet_start.
    - constructor; [by left|]. constructor; [|done]. right. eauto. }
  intros _. apply emits_all_bind.
  { unfold setupMCP. apply emits_all_bind; [apply emits_all_getSandbox|].
    intros [c|]; [|apply emits_all_throw].
    destruct (truthy_int (mcpPort c)); [|apply emits_all_throw].
    intros s. unfold MCPProxy.startProxy. simpl. eexists. split; [reflexivity|].
    apply start_emits_all. }
  intros _. apply emits_all_bind.
  { destruct (tpl_postCreate templateConfig) as [[|c cs]|];
      try apply emits_all_ret.
    unfold runPostCreateCommands.
    apply emits_all_bind; [apply emits_all_getSandbox|].
    intros [cfg|]; [|apply emits_all_throw].
    destruct (truthy_string (containerId cfg)); [|apply emits_all_throw].
    generalize (c :: cs). intros commands.
    induction commands as [|command commands IH]; simpl;
      [apply emits_all_ret|].
    apply emits_all_bind; [by apply emits_all_call; left|]. intros _. apply IH. }
  intros _. apply emits_all_bind.
  { unfold getSandboxInfo.
    apply emits_all_bind; [apply emits_all_getSandbox|].
    intros [sb|]; [|apply emits_all_ret].
    apply emits_all_bind; [|intros; apply emits_all_ret].
    destruct (truthy_string (containerId sb)); [|apply emits_all_ret].
    apply emits_all_try_catch; [|intros; apply emits_all_ret].
    apply emits_all_bind; [by apply emits_all_call; left|].
    intros _. apply emits_all_ret. }
  intros [info|]; [apply emits_all_ret|apply emits_all_throw].
Qed.

(** The calls of one run of create: first those that leave the record
    files alone; then, if the run gets that far, the write by which
    [createSandbox] saves the record, which comes after the image build and
    the container creation (and after the clone, when a repository is
    given); then the calls of the remaining steps. *)
Lemma createCommand_emits h options :
  emits (Create.createCommand h options)
    (λ _ evs,
       ∃ pre post,
         evs = pre ++ post
         ∧ Forall (λ e, quiet e = true) pre
         ∧ (post = []
            ∨ ∃ config cid rest,
                post = save_of (with_container config cid) :: rest
                ∧ status config = creating
                ∧ mcpPort config = None
                ∧ template config = chosen_template h options
                ∧ Forall quiet_or_start rest
                ∧ (∃ context tag, Host.BuildImage context tag ∈ pre)
                ∧ (∃ name image memory cpus,
                     Host.CreateContainer name image memory cpus ∈ pre)
                ∧ (truthy_string (opt_git options) = true →
                   ∃ url branch dest, Host.GitClone url branch dest ∈ pre))).
Proof.
  intros s. unfold Create.createCommand, try_catch, bind.
  destruct (resolve_emits h options s) as (evs1 & T1 & Hq1 & Hchosen).
  destruct (Create.resolve h options s) as [[chosen|e] s1]; simpl in *;
    [|exists evs1; split; [done|]; exists evs1, []; rewrite app_nil_r; auto].
  destruct (Hchosen chosen eq_refl) as [Htemplate Hclone]. clear Hchosen.
  destruct (Host.templates h chosen.1) as [templateConfig|]; simpl;
    [|exists evs1; split; [done|]; exists evs1, []; rewrite app_nil_r; auto].
  set (config := Create.sandboxConfig h options chosen.1 chosen.2 templateConfig).
  destruct (createSandbox_emits h config templateConfig s1)
    as (evs2 & T2 & Hshape).
  destruct (createSandbox h config templateConfig s1) as [[sandbox|e] s2];
    simpl in *.
  - destruct Hshape as [[_ [=]]|(pre & tag & name & mem & cpus & -> & Hq2 & Hb & Hc)].
    destruct (bring_up_emits h templateConfig sandbox s2) as (evs3 & T3 & Hrest).
    destruct (Create.bring_up h templateConfig sandbox s2) as [[out|e] s3];
      simpl in *.
    all: exists (evs1 ++ (pre ++ [save_of (with_container config (Host.container_id h name))]) ++ evs3).
    all: split; [by rewrite T3, T2, T1, <- !app_assoc|].
    all: exists (evs1 ++ pre), (save_of (with_container config (Host.container_id h name)) :: evs3).
    all: split; [by rewrite <- !app_assoc|].
    all: split; [by apply Forall_app|].
    all: right; exists config, (Host.container_id h name), evs3.
    all: split_and!; try done.
    all: try (intros Hgit; destruct (Hclone Hgit) as (u & b & d & Hin);
              exists u, b, d; apply elem_of_app; by left).
    all: eexists _, _; try eexists _, _; apply elem_of_app; right; eassumption.
  - exists (evs1 ++ evs2). split; [by rewrite T2, T1, app_assoc|].
    destruct Hshape as [[Hq2 _]|(pre & tag & name & mem & cpus & -> & Hq2 & Hb & Hc)].
    + exists (evs1 ++ evs2), []. rewrite app_nil_r.
      split; [done|]. split; [by apply Forall_app|]. by left.
    + exists (evs1 ++ pre), [save_of (with_container config (Host.container_id h name))].
      split; [by rewrite app_assoc|]. split; [by apply Forall_app|].
      right. exists config, (Host.container_id h name), [].
      split_and!; try done.
      * eexists _, _. apply elem_of_app. right. eassumption.
      * eexists _, _, _, _. apply elem_of_app. right. eassumption.
      * intros Hgit. destruct (Hclone Hgit) as (u & b & d & Hin).
        exists u, b, d. apply elem_of_app. by left.
Qed.

End CreatePipeline.

Section CreateRecords.

Import SandboxManager Spec.

(** A write at a [config.json] cannot sit in a prefix that leaves the record
    files alone. *)
Lemma split_after_quiet pre post before e after :
  pre ++ post = before ++ e :: after →
  Forall (λ e, quiet e = true) pre →
  in_place e = true →
  ∃ mid, before = pre ++ mid ∧ post = mid ++ e :: after.
Proof.
  revert before. induction pre as [|x pre IH]; intros before Heq Hq Hin; simpl in *.
  - by exists before.
  - apply Forall_cons in Hq as [Hx Hq].
    destruct before as [|y before]; simpl in *.
    + injection Heq as -> _.
      destruct (quiet_not_in_place _ Hx) as [Hx' _]. congruence.
    + injection Heq as -> Heq.
      destruct (IH _ Heq Hq Hin) as (mid & -> & ->). by exists mid.
Qed.

Lemma quiet_or_start_in_place e :
  quiet_or_start e → in_place e = true →
  ∃ c, e = save_of c ∧ status c = running.
Proof.
  intros [Hq|(c & port & -> & _)] Hin.
  - destruct (quiet_not_in_place _ Hq) as [Hq' _]. congruence.
  - by exists (started c port).
Qed.

Lemma persisted_quiet_or_start rest :
  Forall quiet_or_start rest →
  Forall (λ c, status c = running) (persisted rest).
Proof.
  induction 1 as [|e rest He _ IH]; [constructor|].
  change (persisted (e :: rest))
    with (match record_of e with
          | Some c => c :: persisted rest
          | None => persisted rest
          end).
  destruct (record_of e) as [c|] eqn:Hrec; [|done].
  constructor; [|done].
  destruct He as [Hq|(c' & port & -> & _)].
  - destruct e as [| |[] []| | | | | | | | | | | |]; simpl in *; done.
  - by injection Hrec as <-.
Qed.

End CreateRecords.

Lemma persisted_by_start rest :
  Forall Spec.quiet_or_start rest →
  Forall (λ c, ∃ found port, c = SandboxManager.started found port)
         (Spec.persisted rest).
Proof.
  induction 1 as [|e rest He _ IH]; [constructor|].
  change (Spec.persisted (e :: rest))
    with (match Spec.record_of e with
          | Some c => c :: Spec.persisted rest
          | None => Spec.persisted rest
          end).
  destruct (Spec.record_of e) as [c|] eqn:Hrec; [|done].
  constructor; [|done].
  destruct He as [Hq|(c' & port & -> & _)].
  - destruct e as [| |[] []| | | | | | | | | | | |]; simpl in *; done.
  - injection Hrec as <-. by exists c', port.
Qed.

Lemma quiet_no_write pre :
  Forall (λ e, Spec.quiet e = true) pre → existsb Spec.in_place pre = false.
Proof.
  induction 1 as [|e pre He _ IH]; [done|]. simpl.
  destruct (quiet_not_in_place _ He) as [-> _]. done.
Qed.

(** C5, as the code has it.  During create no record with status
    [creating] is ever written: that status lives in memory only.  Every
    write of the record comes after the image build and the container
    creation, and after the clone when a repository is given; the first
    record written is the one that [createSandbox] makes of a configuration
    with status [creating], and has status [stopped]; every later one is a
    record that [startSandbox] makes, and has status [running]. *)
Theorem create_persists_after_container :
  ∀ h options s,
    ∃ evs,
      SandboxManager.trace (Create.createCommand h options s).2
      = SandboxManager.trace s ++ evs
      ∧ Forall (λ c, status c ≠ creating) (Spec.persisted evs)
      ∧ (Spec.persisted evs = []
         ∨ ∃ first later,
             Spec.persisted evs = first :: later
             ∧ (∃ config cid,
                  first = SandboxManager.with_container config cid
                  ∧ status config = creating)
             ∧ status first = stopped
             ∧ Forall (λ c, (∃ found port, c = SandboxManager.started found port)
                            ∧ status c = running) later)
      ∧ ∀ before e after,
          evs = before ++ e :: after →
          Spec.in_place e = true →
          (∃ c, e = Spec.save_of c
                ∧ status c = if existsb Spec.in_place before
                             then running else stopped)
          ∧ (∃ context tag, Host.BuildImage context tag ∈ before)
          ∧ (∃ name image memory cpus,
               Host.CreateContainer name image memory cpus ∈ before)
          ∧ (truthy_string (opt_git options) = true →
             ∃ url branch dest, Host.GitClone url branch dest ∈ before).
Proof.
  intros h options s.
  destruct (createCommand_emits h options s) as (evs & Ht & pre & post & -> & Hq & Hpost).
  exists (pre ++ post). split; [done|].
  assert (Hwritten :
    Spec.persisted (pre ++ post) = []
    ∨ ∃ first later,
        Spec.persisted (pre ++ post) = first :: later
        ∧ (∃ config cid,
             first = SandboxManager.with_container config cid
             ∧ status config = creating)
        ∧ status first = stopped
        ∧ Forall (λ c, (∃ found port, c = SandboxManager.started found port)
                       ∧ status c = running) later).
  { rewrite persisted_app, (persisted_quiet _ Hq). simpl.
    destruct Hpost as [->|(config & cid & rest & -> & Hnew & _ & _ & Hrest & _)];
      [by left|].
    right. exists (SandboxManager.with_container config cid), (Spec.persisted rest).
    split; [done|]. split; [by exists config, cid|]. split; [done|].
    apply Forall_and. split; [by apply persisted_by_start|].
    by apply persisted_quiet_or_start. }
  split; [|split; [exact Hwritten|]].
  - destruct Hwritten as [->|(first & later & -> & _ & Hfirst & Hlater)];
      [constructor|].
    constructor; [by rewrite Hfirst|].
    eapply Forall_impl; [exact Hlater|]. intros c [_ ->]. done.
  - intros before e after Heq Hin.
    destruct (split_after_quiet _ _ _ _ _ Heq Hq Hin) as (mid & -> & Hsplit).
    destruct Hpost as [->|(config & cid & rest & -> & _ & _ & _ & Hrest & Hb & Hc & Hg)];
      [by destruct mid|].
    assert (He : ∃ c, e = Spec.save_of c
                      ∧ status c = if existsb Spec.in_place (pre ++ mid)
                                   then running else stopped).
    { rewrite existsb_app, (quiet_no_write _ Hq). simpl.
      destruct mid as [|x mid]; simpl in Hsplit.
      - injection Hsplit as <- _. eexists. split; [reflexivity|done].
      - injection Hsplit as <- Hrest'. rewrite Hrest' in Hrest.
        apply Forall_app in Hrest as [_ Hrest].
        apply Forall_cons in Hrest as [He _].
        destruct (quiet_or_start_in_place _ He Hin) as (c & -> & Hc').
        exists c. split; [done|]. by rewrite Hc'. }
    split; [exact He|].
    destruct Hb as (context & tag & Hb). destruct Hc as (name & image & mem & cpus & Hc).
    split_and!.
    + exists context, tag. apply elem_of_app. by left.
    + exists name, image, mem, cpus. apply elem_of_app. by left.
    + intros Hgit. destruct (Hg Hgit) as (u & b & d & Hin').
      exists u, b, d. apply elem_of_app. by left.
Qed.

Lemma create_persists_after_container_witness :
  (∃ c, Spec.save_of Examples.created_record = Spec.save_of c
        ∧ status c = stopped)
  ∧ (∃ context tag,
       Host.BuildImage context tag
       ∈ take 12 (SandboxManager.trace Examples.create_run.2)).
Proof.
  destruct (create_persists_after_container Examples.willing
              Examples.create_from_git (SandboxManager.new Examples.disk_empty))
    as (evs & Ht & _ & _ & Hbefore).
  simpl in Ht. subst evs.
  destruct (Hbefore (take 12 (SandboxManager.trace Examples.create_run.2))
              (Spec.save_of Examples.created_record)
              (drop 13 (SandboxManager.trace Examples.create_run.2)))
    as (Hc & Hb & _).
  - vm_compute. reflexivity.
  - reflexivity.
  - split; [|exact Hb].
    destruct Hc as (c & Heq & Hstatus). exists c. split; [exact Heq|].
    rewrite Hstatus. vm_compute. reflexivity.
Defined.

(** C5 as stated has a record with status [creating] on disk before the
    clone; in this run the clone is the third call, nothing has been written
    before it, and the only records ever written are [stopped] and
    [running]. *)
Lemma create_clones_before_persisting :
  take 3 (SandboxManager.trace Examples.create_run.2)
  = [Host.Mkdir Host.CacheDir;
     Host.Rm (Host.CloneDir "sandbox-V1StGXR8");
     Host.GitClone "https://example.org/u/tool.git" "main"
       (Host.CloneDir "sandbox-V1StGXR8")]
  ∧ map status (Spec.persisted (SandboxManager.trace Examples.create_run.2))
    = [stopped; running]
  ∧ ¬ Spec.creating_first (SandboxManager.trace Examples.create_run.2).
Proof.
  split; [vm_compute; reflexivity|]. split; [vm_compute; reflexivity|].
  intros Hfirst.
  destruct (Hfirst [Host.Mkdir Host.CacheDir;
                    Host.Rm (Host.CloneDir "sandbox-V1StGXR8")]
              (Host.GitClone "https://example.org/u/tool.git" "main"
                 (Host.CloneDir "sandbox-V1StGXR8"))
              (drop 3 (SandboxManager.trace Examples.create_run.2)))
    as (c & Hin & _).
  - vm_compute. reflexivity.
  - reflexivity.
  - apply elem_of_cons in Hin as [Hin|Hin]; [discriminate|].
    apply elem_of_cons in Hin as [Hin|Hin]; [discriminate|].
    by apply elem_of_nil in Hin.
Qed.

(** C7, as the code has it.  When create runs on a cloned repository with
    auto-detect or without an explicit template, the detection is accepted
    when its confidence is greater than 0.7, and the record is created with
    the detected template; otherwise the detection is dropped, and without
    an explicit template the record is created with [base].  A confidence of
    exactly 0.7 is not greater than 0.7. *)
Theorem detection_accepted_above_threshold :
  Binary64.gtb (Binary64.decimal 7 10) (Binary64.decimal 7 10) = false
  ∧ ∀ h options s,
      truthy_string (opt_git options) = true →
      Create.is_true (opt_autoDetect options) = true
      ∨ truthy_string (opt_template options) = false →
      let detection :=
        ProjectDetector.detectProject
          (Host.cloned h (default "" (opt_git options))
                       (Create.or_else (opt_branch options) "main")) in
      ∃ evs,
        SandboxManager.trace (Create.createCommand h options s).2
        = SandboxManager.trace s ++ evs
        ∧ ∀ c, head (Spec.persisted evs) = Some c →
            (Binary64.gtb (confidence detection) (Binary64.decimal 7 10) = true →
             template c = det_template detection)
            ∧ (Binary64.gtb (confidence detection) (Binary64.decimal 7 10) = false →
               truthy_string (opt_template options) = false →
               template c = "base").
Proof.
  split; [reflexivity|].
  intros h options s Hgit Hauto detection.
  destruct (createCommand_emits h options s) as (evs & Ht & pre & post & -> & Hq & Hpost).
  exists (pre ++ post). split; [done|].
  intros c. rewrite persisted_app, (persisted_quiet _ Hq). simpl.
  destruct Hpost as [->|(config & cid & rest & -> & _ & _ & Htemplate & _)];
    [done|].
  change (Spec.persisted (Spec.save_of (SandboxManager.with_container config cid) :: rest))
    with (SandboxManager.with_container config cid :: Spec.persisted rest).
  intros [= <-]. simpl. rewrite Htemplate.
  unfold Spec.chosen_template. rewrite Hgit. simpl.
  assert (Hcond : Create.is_true (opt_autoDetect options)
                  || negb (truthy_string (opt_template options)) = true).
  { destruct Hauto as [-> | ->]; [done|]. apply orb_true_r. }
  rewrite Hcond. unfold Create.selectTemplate. fold detection.
  split.
  - by intros ->.
  - intros -> Hnone. unfold Create.or_else. by rewrite Hnone.
Qed.

Lemma detection_accepted_above_threshold_witness :
  ∃ evs,
    SandboxManager.trace
      (Create.createCommand Examples.willing Examples.create_from_git
         (SandboxManager.new Examples.disk_empty)).2
    = SandboxManager.trace (SandboxManager.new Examples.disk_empty) ++ evs
    ∧ ∀ c, head (Spec.persisted evs) = Some c →
        (Binary64.gtb (confidence (ProjectDetector.detectProject Examples.go_only))
                      (Binary64.decimal 7 10) = true →
         template c = det_template (ProjectDetector.detectProject Examples.go_only))
        ∧ (Binary64.gtb (confidence (ProjectDetector.detectProject Examples.go_only))
                        (Binary64.decimal 7 10) = false →
           truthy_string (opt_template Examples.create_from_git) = false →
           template c = "base").
Proof.
  apply (proj2 detection_accepted_above_threshold Examples.willing
           Examples.create_from_git (SandboxManager.new Examples.disk_empty)).
  - reflexivity.
  - right. reflexivity.
Defined.

(** C7 as stated accepts a confidence of exactly 0.7.  A repository with a
    single [main.go] is detected as Go with confidence 0.7, and create goes
    on with [base]. *)
Lemma confidence_at_threshold_rejected :
  confidence (ProjectDetector.detectProject Examples.go_only)
  = Binary64.decimal 7 10
  ∧ det_template (ProjectDetector.detectProject Examples.go_only) = "go"
  ∧ Create.selectTemplate Examples.create_from_git
      (ProjectDetector.detectProject Examples.go_only) = "base"
  ∧ map template (Spec.persisted (SandboxManager.trace Examples.create_run.2))
    = ["base"; "base"].
Proof. repeat split; vm_compute; reflexivity. Qed.

(** ** Project detection *)

Section Detection.

Import ProjectDetector Binary64 Spec.

Lemma SFltb_finite m1 e1 m2 e2 :
  SFltb (S754_finite false m1 e1) (S754_finite false m2 e2) = true
  ↔ e1 < e2 ∨ (e1 = e2 ∧ (m1 < m2)%positive).
Proof.
  unfold SFltb, SFcompare.
  change (Pos.compare_cont Eq m1 m2) with (m1 ?= m2)%positive.
  destruct (Z.compare_spec e1 e2) as [->| |]; [|split; [lia|done]|split; [done|lia]].
  destruct (Pos.compare_spec m1 m2) as [->| |]; split; try done; try lia.
  all: intros [?|[_ ?]]; lia.
Qed.

Lemma gtb_irrefl x : gtb x x = false.
Proof.
  unfold gtb, SFltb, SFcompare. destruct x as [[]|[]| |[] m e]; try done.
  all: rewrite Z.compare_refl;
    change (Pos.compare_cont Eq m m) with (m ?= m)%positive;
    by rewrite Pos.compare_refl.
Qed.

Lemma gtb_trans a b c :
  nonneg a = true → nonneg b = true → nonneg c = true →
  gtb a b = true → gtb b c = true → gtb a c = true.
Proof.
  unfold gtb.
  destruct a as [| | |[] ma ea], b as [| | |[] mb eb], c as [| | |[] mc ec];
    try done.
  intros _ _ _ Hab Hbc. apply SFltb_finite in Hab, Hbc. apply SFltb_finite. lia.
Qed.

Lemma gtb_neg_trans a b c :
  nonneg a = true → nonneg b = true → nonneg c = true →
  gtb a b = false → gtb b c = false → gtb a c = false.
Proof.
  unfold gtb.
  destruct a as [| | |[] ma ea], b as [| | |[] mb eb], c as [| | |[] mc ec];
    try done.
  intros _ _ _ Hab Hbc.
  destruct (SFltb (S754_finite false mc ec) (S754_finite false ma ea)) eqn:Hac;
    [|done].
  apply SFltb_finite in Hac.
  assert (Hba : ¬ (eb < ea ∨ (eb = ea ∧ (mb < ma)%positive))).
  { intros H. apply SFltb_finite in H. congruence. }
  assert (Hcb : ¬ (ec < eb ∨ (ec = eb ∧ (mc < mb)%positive))).
  { intros H. apply SFltb_finite in H. congruence. }
  lia.
Qed.

(** A confidence that is not positive is zero, hence below every positive
    one. *)
Lemma not_positive_below x r :
  nonneg x = true → gtb x zero = false → gtb r zero = true →
  gtb r x = true ∧ gtb x r = false.
Proof.
  unfold gtb, zero.
  destruct x as [[]|[]| |[] mx ex], r as [[]|[]| |[] mr er]; done.
Qed.

Ltac split_conditions :=
  repeat match goal with
         | |- context [if ?b then _ else _] => destruct b
         end.

Lemma detectNodeJS_nonneg p : nonneg (confidence (detectNodeJS p)) = true.
Proof.
  unfold detectNodeJS, bump.
  destruct (read_framework p) as [[fw|]|]; simpl is_Some_b; cbv iota.
  all: split_conditions; vm_compute; reflexivity.
Qed.

Lemma detectPython_nonneg p : nonneg (confidence (detectPython p)) = true.
Proof. unfold detectPython, bump. split_conditions; vm_compute; reflexivity. Qed.

Lemma detectGo_nonneg p : nonneg (confidence (detectGo p)) = true.
Proof. unfold detectGo, bump. split_conditions; vm_compute; reflexivity. Qed.

Lemma detectRust_nonneg p : nonneg (confidence (detectRust p)) = true.
Proof. unfold detectRust, bump. split_conditions; vm_compute; reflexivity. Qed.

Lemma detectJava_nonneg p : nonneg (confidence (detectJava p)) = true.
Proof. unfold detectJava, bump. split_conditions; vm_compute; reflexivity. Qed.

Lemma detectRuby_nonneg p : nonneg (confidence (detectRuby p)) = true.
Proof. unfold detectRuby, bump. split_conditions; vm_compute; reflexivity. Qed.

Lemma detectPHP_nonneg p : nonneg (confidence (detectPHP p)) = true.
Proof. unfold detectPHP, bump. split_conditions; vm_compute; reflexivity. Qed.

Lemma detectDotNet_nonneg p : nonneg (confidence (detectDotNet p)) = true.
Proof. unfold detectDotNet, bump. split_conditions; vm_compute; reflexivity. Qed.

Lemma results_nonneg p :
  Forall (λ r, nonneg (confidence r) = true) (results p).
Proof.
  repeat constructor;
    auto using detectNodeJS_nonneg, detectPython_nonneg, detectGo_nonneg,
      detectRust_nonneg, detectJava_nonneg, detectRuby_nonneg,
      detectPHP_nonneg, detectDotNet_nonneg.
Qed.

(** The [reduce] keeps the first of the highest: [best] is the first of the
    highest among what has been seen, and stays so to the end. *)
Lemma fold_better_first_highest rest :
  ∀ before best seen,
    Forall (λ r, nonneg (confidence r) = true) (before ++ best :: seen ++ rest) →
    Forall (λ x, gtb (confidence best) (confidence x) = true) before →
    Forall (λ x, gtb (confidence x) (confidence best) = false) seen →
    first_highest (before ++ best :: seen ++ rest) (fold_left better rest best).
Proof.
  induction rest as [|current rest IH]; intros before best seen Hnn Hbefore Hseen.
  - simpl. rewrite app_nil_r. by exists before, seen.
  - simpl. unfold better at 2.
    assert (Hbest : nonneg (confidence best) = true).
    { apply Forall_app in Hnn as [_ Hnn]. by apply Forall_cons in Hnn as [? _]. }
    assert (Hcur : nonneg (confidence current) = true).
    { apply Forall_app in Hnn as [_ Hnn]. apply Forall_cons in Hnn as [_ Hnn].
      apply Forall_app in Hnn as [_ Hnn]. by apply Forall_cons in Hnn as [? _]. }
    destruct (gtb (confidence current) (confidence best)) eqn:Hgt.
    + replace (before ++ best :: seen ++ current :: rest)
        with ((before ++ best :: seen) ++ current :: [] ++ rest)
        by (by rewrite <- app_assoc).
      apply IH; [by rewrite <- app_assoc| |constructor].
      apply Forall_app. split; [|constructor].
      * apply Forall_app in Hnn as [Hnnb _].
        rewrite Forall_forall in Hbefore, Hnnb |- *. intros x Hx.
        apply (gtb_trans _ (confidence best)); auto.
      * done.
      * apply Forall_app in Hnn as [_ Hnn]. apply Forall_cons in Hnn as [_ Hnn].
        apply Forall_app in Hnn as [Hnns _].
        rewrite Forall_forall in Hseen, Hnns |- *. intros x Hx.
        destruct (gtb (confidence current) (confidence x)) eqn:Hcx; [done|].
        rewrite (gtb_neg_trans _ (confidence x) _ Hcur (Hnns x Hx) Hbest Hcx (Hseen x Hx))
          in Hgt. done.
    + replace (before ++ best :: seen ++ current :: rest)
        with (before ++ best :: (seen ++ [current]) ++ rest)
        by (by rewrite <- app_assoc).
      apply IH; [by rewrite <- app_assoc|done|].
      apply Forall_app. split; [done|]. by constructor.
Qed.

(** From the detections with a positive confidence back to all of them:
    those left out are zero. *)
Lemma first_highest_unfiltered l :
  Forall (λ r, nonneg (confidence r) = true) l →
  ∀ r, gtb (confidence r) zero = true →
       first_highest (filter (λ r, gtb (confidence r) zero = true) l) r →
       first_highest l r.
Proof.
  intros Hnn r Hr. induction l as [|x l IH]; intros (before & after & Heq & Hb & Ha).
  - by destruct before.
  - apply Forall_cons in Hnn as [Hx Hnn]. rewrite filter_cons in Heq.
    destruct (decide (gtb (confidence x) zero = true)) as [Hpos|Hzero].
    + destruct before as [|y before]; simpl in Heq.
      * injection Heq as -> Heq. exists [], l. split; [done|]. split; [done|].
        rewrite Forall_forall in Ha, Hnn |- *. intros y Hy.
        destruct (gtb (confidence y) zero) eqn:Hy0.
        -- apply Ha. rewrite <- Heq. apply list_elem_of_filter. done.
        -- by apply not_positive_below; auto.
      * injection Heq as -> Heq. apply Forall_cons in Hb as [Hy Hb].
        destruct (IH Hnn) as (before' & after' & -> & Hb' & Ha').
        { by exists before, after. }
        exists (y :: before'), after'. split; [done|]. split; [|done].
        by constructor.
    + destruct (IH Hnn) as (before' & after' & -> & Hb' & Ha').
      { by exists before, after. }
      exists (x :: before'), after'. split; [done|]. split; [|done].
      constructor; [|done]. apply not_positive_below; auto.
      by apply not_true_is_false.
Qed.

End Detection.

(** C8, as the code has it.  [detectProject] runs the detectors in the order
    javascript, python, go, rust, java, ruby, php, dotnet.  If none of them
    reaches a confidence above 0 it answers [unknown] with template [base];
    otherwise it returns the detection with the highest confidence, and of
    several with the same highest confidence the first in that order.  The
    confidence returned is the detector's sum as it is. *)
Theorem detectProject_first_highest :
  ∀ p,
    (Forall (λ r, Binary64.gtb (confidence r) Binary64.zero = false) (Spec.results p)
     ∧ ProjectDetector.detectProject p = ProjectDetector.unknown)
    ∨ (Binary64.gtb (confidence (ProjectDetector.detectProject p)) Binary64.zero = true
       ∧ Spec.first_highest (Spec.results p) (ProjectDetector.detectProject p)).
Proof.
  intros p. pose proof (results_nonneg p) as Hnn.
  unfold ProjectDetector.detectProject.
  change (ProjectDetector.candidates p)
    with (filter (λ r, Binary64.gtb (confidence r) Binary64.zero = true) (Spec.results p)).
  destruct (filter _ (Spec.results p)) as [|first rest] eqn:Hcand.
  - left. split; [|done].
    rewrite Forall_forall. intros r Hr.
    destruct (Binary64.gtb (confidence r) Binary64.zero) eqn:Hpos; [|done].
    assert (Hin : r ∈ filter (λ r, Binary64.gtb (confidence r) Binary64.zero = true)
                        (Spec.results p)) by (by apply list_elem_of_filter).
    rewrite Hcand in Hin. by apply elem_of_nil in Hin.
  - right.
    assert (Hallpos : Forall (λ r, Binary64.gtb (confidence r) Binary64.zero = true)
                        (first :: rest)).
    { rewrite <- Hcand. rewrite Forall_forall. intros r Hr.
      by apply list_elem_of_filter in Hr as [? _]. }
    assert (Hcnn : Forall (λ r, Binary64.nonneg (confidence r) = true) (first :: rest)).
    { rewrite <- Hcand. rewrite Forall_forall in Hnn |- *. intros r Hr.
      apply list_elem_of_filter in Hr as [_ Hr]. by apply Hnn. }
    pose proof (fold_better_first_highest rest [] first [] Hcnn
                  (Forall_nil_2 _) (Forall_nil_2 _)) as Hfirst.
    simpl in Hfirst.
    assert (Hwin : Binary64.gtb
                     (confidence (fold_left ProjectDetector.better rest first))
                     Binary64.zero = true).
    { destruct Hfirst as (before & after & Heq & _).
      rewrite Forall_forall in Hallpos. apply Hallpos. rewrite Heq.
      apply elem_of_app. right. apply list_elem_of_here. }
    split; [exact Hwin|].
    apply first_highest_unfiltered; [done|done|]. by rewrite Hcand.
Qed.

(** C8 as stated clamps the confidence to [0, 1]; for this React project the
    javascript detector wins with a confidence above 1. *)
Lemma confidence_above_one :
  language (ProjectDetector.detectProject Examples.react_app) = "javascript"
  ∧ det_template (ProjectDetector.detectProject Examples.react_app) = "react"
  ∧ confidence (ProjectDetector.detectProject Examples.react_app)
    = S754_finite false 5629499534213121 (-52)
  ∧ Binary64.gtb (confidence (ProjectDetector.detectProject Examples.react_app))
                 (Binary64.of_Z 1) = true.
Proof. repeat split; vm_compute; reflexivity. Qed.

(** * Further properties *)

Section Allocations.

Import MCPProxy.

Lemma allocatePort_next n this :
  0 ≤ n → min (portRange this) + n ≤ max (portRange this) →
  Behaviour.first_held n this →
  ∃ this', allocatePort this = (Return (min (portRange this) + n), this')
           ∧ portRange this' = portRange this
           ∧ Behaviour.first_held (n + 1) this'.
Proof.
  intros Hn Hroom Hheld.
  assert (Hfirst : (allocatePort this).1 = Return (min (portRange this) + n)).
  { apply allocatePort_first_free; [lia| |].
    - intros Hin. apply Hheld in Hin. lia.
    - intros q Hq. apply Hheld. lia. }
  destruct (allocatePort this) as [r this'] eqn:Halloc. simpl in Hfirst. subst r.
  exists this'. split; [done|].
  destruct (allocatePort_Return _ _ _ Halloc) as (_ & _ & _ & Hset & Hrange).
  split; [done|]. intros q. rewrite Hset, Hrange, elem_of_union, elem_of_singleton.
  rewrite (Hheld q). lia.
Qed.

Lemma allocatePort_full this :
  Behaviour.first_held (max (portRange this) - min (portRange this) + 1) this →
  allocatePort this = (Throw (Error [Lit "No available ports in range"]), this).
Proof.
  intros Hheld.
  destruct (allocatePort this) as [[p|e] this'] eqn:Halloc.
  - destruct (allocatePort_Return _ _ _ Halloc) as (Hp & Hfree & _).
    destruct Hfree. apply Hheld. lia.
  - destruct (allocatePort_Throw _ _ _ Halloc) as (-> & _).
    unfold allocatePort in Halloc.
    destruct (scan _ _ _ _); by inversion Halloc.
Qed.

Lemma allocations_in_order n :
  ∀ k this,
    0 ≤ k → min (portRange this) + k + Z.of_nat n ≤ max (portRange this) + 1 →
    Behaviour.first_held k this →
    (Behaviour.allocations n this).1
    = map (λ i, Return (min (portRange this) + k + i)) (seqZ 0 (Z.of_nat n))
    ∧ portRange (Behaviour.allocations n this).2 = portRange this
    ∧ Behaviour.first_held (k + Z.of_nat n) (Behaviour.allocations n this).2.
Proof.
  induction n as [|n IH]; intros k this Hk Hroom Hheld.
  - simpl. rewrite Z.add_0_r. done.
  - destruct (allocatePort_next k this) as (this' & Halloc & Hrange & Hheld');
      [lia|lia|done|].
    cbn [Behaviour.allocations]. rewrite Halloc.
    destruct (IH (k + 1) this') as (Hres & Hrange' & Hheld''); [lia|rewrite Hrange; lia|done|].
    destruct (Behaviour.allocations n this') as [rs this'']. simpl in *.
    split; [|split].
    + rewrite Nat2Z.inj_succ, seqZ_cons by lia. simpl.
      f_equal; [f_equal; lia|].
      replace (seqZ (Z.succ 0) (Z.pred (Z.succ (Z.of_nat n))))
        with (Z.add 1 <$> seqZ 0 (Z.of_nat n))
        by (rewrite fmap_add_seqZ; f_equal; lia).
      rewrite Hres, Hrange, <- list_fmap_compose.
      apply list_fmap_ext. intros _ i _. simpl. f_equal. lia.
    + congruence.
    + replace (k + Z.succ (Z.of_nat n)) with (k + 1 + Z.of_nat n) by lia.
      replace (k + Z.of_nat (S n)) with (k + 1 + Z.of_nat n) by lia. done.
Qed.

End Allocations.

(** X1.  A new allocator hands out the ports of its range in increasing
    order, one after the other: the first [n] calls of [allocatePort] return
    50000, 50001, ..., 50000 + n - 1, for every [n] up to the 10001 ports of
    the range, and the call after the last port throws. *)
Theorem allocatePort_in_order :
  (∀ n : nat,
     Z.of_nat n ≤ 10001 →
     (Behaviour.allocations n MCPProxy.new).1
     = map (λ i, Return (50000 + i)) (seqZ 0 (Z.of_nat n)))
  ∧ (MCPProxy.allocatePort (Behaviour.allocations (Z.to_nat 10001) MCPProxy.new).2).1
    = Throw (Error [Lit "No available ports in range"]).
Proof.
  assert (Hnew : Behaviour.first_held 0 MCPProxy.new).
  { intros q. simpl. split; [set_solver|lia]. }
  split.
  - intros n Hn.
    destruct (allocations_in_order n 0 MCPProxy.new) as (Hres & _); [lia|simpl; lia|done|].
    rewrite Hres. apply list_fmap_ext. intros _ i _. simpl. f_equal; lia.
  - destruct (allocations_in_order (Z.to_nat 10001) 0 MCPProxy.new) as (_ & Hrange & Hheld);
      [lia|simpl; lia|done|].
    rewrite allocatePort_full; [done|].
    rewrite Hrange. exact Hheld.
Qed.

Lemma allocatePort_in_order_witness :
  (Behaviour.allocations 3 MCPProxy.new).1
  = map (λ i, Return (50000 + i)) (seqZ 0 (Z.of_nat 3)).
Proof. apply (proj1 allocatePort_in_order 3%nat). lia. Defined.

(** X2.  While nothing is released, no port is handed out twice: of two
    calls of [allocatePort] in a row the second returns a greater port than
    the first. *)
Theorem allocatePort_increasing :
  ∀ this p this1 q this2,
    MCPProxy.allocatePort this = (Return p, this1) →
    MCPProxy.allocatePort this1 = (Return q, this2) →
    p < q.
Proof.
  intros this p this1 q this2 H1 H2.
  destruct (allocatePort_Return _ _ _ H1) as (Hp & _ & Hbelow & Hset & Hrange).
  destruct (allocatePort_Return _ _ _ H2) as (Hq & Hfree & _).
  rewrite Hrange in Hq. rewrite Hset in Hfree.
  destruct (Z.lt_trichotomy q p) as [Hlt|[->|Hgt]]; [| |done].
  - destruct Hfree. apply elem_of_union. right. apply Hbelow. lia.
  - destruct Hfree. apply elem_of_union. left. by apply elem_of_singleton.
Qed.

Lemma allocatePort_increasing_witness : 50002 < 50003.
Proof.
  apply (allocatePort_increasing Examples.two_held 50002
           (MCPProxy.allocatePort Examples.two_held).2 50003
           (MCPProxy.allocatePort (MCPProxy.allocatePort Examples.two_held).2).2).
  - vm_compute. reflexivity.
  - vm_compute. reflexivity.
Defined.

(** X3.  Releasing the port that [allocatePort] has just returned puts the
    allocator back as it was; releasing a port that is not held changes
    nothing. *)
Theorem releasePort_undoes_allocatePort :
  (∀ this p this1,
     MCPProxy.allocatePort this = (Return p, this1) →
     MCPProxy.releasePort p this1 = this)
  ∧ (∀ this p,
       p ∉ MCPProxy.activePorts this →
       MCPProxy.releasePort p this = this).
Proof.
  split.
  - intros this p this1 Halloc.
    destruct (allocatePort_Return _ _ _ Halloc) as (_ & Hfree & _ & _ & _).
    unfold MCPProxy.allocatePort in Halloc.
    destruct (MCPProxy.scan _ _ _ _) as [r|]; [|done].
    injection Halloc as -> <-. unfold MCPProxy.releasePort. simpl.
    destruct this as [active proxies range]. simpl in *. f_equal.
    apply set_eq. intros q.
    rewrite elem_of_difference, elem_of_union, elem_of_singleton.
    split; [by intros [[->|?] ?]|]. intros Hq. split; [by right|by intros ->].
  - intros [active proxies range] p Hfree. unfold MCPProxy.releasePort. simpl in *.
    f_equal. apply set_eq. intros q. rewrite elem_of_difference, elem_of_singleton.
    split; [by intros [? _]|]. intros Hq. split; [done|by intros ->].
Qed.

Lemma releasePort_undoes_allocatePort_witness :
  MCPProxy.releasePort 50002 (MCPProxy.allocatePort Examples.two_held).2
  = Examples.two_held.
Proof.
  apply (proj1 releasePort_undoes_allocatePort Examples.two_held 50002).
  vm_compute. reflexivity.
Defined.

Section Answers.

Import MCPProxyInstance.

Lemma get_readable v k : Behaviour.readable v → ∃ x, get v k = Return x.
Proof. intros [? ?]. destruct v; simpl; eauto; done. Qed.

Lemma substring_all s : String.substring 0 (String.length s) s = s.
Proof. induction s as [|c s IH]; simpl; [done|]. by rewrite IH. Qed.

End Answers.

(** X4.  The message listener answers every frame with exactly one
    response, whatever the frame holds: a frame that is not JSON, a request,
    and also a notification, which carries no [id].  It never closes the
    connection and never stays silent. *)
Theorem onMessage_answers_once :
  ∀ (this : MCPProxyInstance.t) (data : json_text),
    ∃ reply,
      MCPProxyInstance.onMessage this data = [MCPProxyInstance.Send reply]
      ∧ MCPProxyInstance.is_reply reply = true.
Proof.
  intros this [message|raw]; [|by eexists].
  rewrite onMessage_parsed.
  destruct (MCPProxyInstance.handleMCPMessage this message) as [sent|] eqn:Hsent;
    [|by eexists].
  destruct (handleMCPMessage_Return _ _ _ Hsent) as (reply & -> & Hreply & _).
  by exists reply.
Qed.

(** X5.  A request whose method is none of [initialize], [tools/list],
    [tools/call], [resources/list], [resources/read] (or is missing, or is
    not a string) is answered with the error -32601 [Method not found] and
    the [id] of the request as [JSON.stringify] writes it: as it was read
    when it is a string, a boolean, [null] or a finite number other than the
    negative zero, left out when the request has none, and [null] when it is
    a number that was read as NaN or as an infinity, as [1e400] is. *)
Theorem unknown_method_not_found :
  ∀ (this : MCPProxyInstance.t) (message : value),
    Behaviour.readable message →
    (∀ m, get message "method" = Return (Str m) → m ∉ Behaviour.handled) →
    MCPProxyInstance.onMessage this (JsonText message)
    = [MCPProxyInstance.Send
         (MCPProxyInstance.Failure (-32601) "Method not found"
            (JSON_written (MCPProxyInstance.request_id message)))]
    ∧ (Spec.echoed (MCPProxyInstance.request_id message) = true →
       MCPProxyInstance.onMessage this (JsonText message)
       = [MCPProxyInstance.Send
            (MCPProxyInstance.Failure (-32601) "Method not found"
               (MCPProxyInstance.request_id message))])
    ∧ (Spec.unbounded (MCPProxyInstance.request_id message) →
       MCPProxyInstance.onMessage this (JsonText message)
       = [MCPProxyInstance.Send
            (MCPProxyInstance.Failure (-32601) "Method not found" Null)]).
Proof.
  intros this message Hread Hmethod.
  assert (Hsent :
    MCPProxyInstance.onMessage this (JsonText message)
    = [MCPProxyInstance.Send
         (MCPProxyInstance.Failure (-32601) "Method not found"
            (JSON_written (MCPProxyInstance.request_id message)))]).
  { rewrite onMessage_parsed.
    unfold MCPProxyInstance.handleMCPMessage, MCPProxyInstance.forwardToMCPServer,
      MCPProxyInstance.request_id, MCPProxyInstance.send_error.
    destruct (get_readable message "method" Hread) as (method & Hm).
    destruct (get_readable message "params" Hread) as (params & Hp).
    destruct (get_readable message "id" Hread) as (id & Hi).
    rewrite Hm, Hp, Hi. simpl.
    assert (Hno : ∀ m, m ∈ Behaviour.handled → strict_eq_str method m = false).
    { intros m Hin. destruct method as [| | | |s| |]; try done. simpl.
      apply String.eqb_neq. intros ->. by apply (Hmethod m). }
    rewrite !Hno; [done|..]; unfold Behaviour.handled; set_solver. }
  split; [done|]. split.
  - intros Hechoed. by rewrite Hsent, JSON_written_echoed.
  - intros Hnum. by rewrite Hsent, JSON_written_unbounded.
Qed.

Lemma unknown_method_not_found_witness :
  MCPProxyInstance.onMessage Examples.proxy_s1 (JsonText Samples.ping)
  = [MCPProxyInstance.Send
       (MCPProxyInstance.Failure (-32601) "Method not found"
          (MCPProxyInstance.request_id Samples.ping))].
Proof.
  destruct (unknown_method_not_found Examples.proxy_s1 Samples.ping)
    as (_ & Hsame & _).
  - split; discriminate.
  - intros m Hm. vm_compute in Hm. injection Hm as <-.
    unfold Behaviour.handled. intros Hin.
    repeat (apply elem_of_cons in Hin as [Hin|Hin]; [discriminate|]).
    by apply elem_of_nil in Hin.
  - apply Hsame. vm_compute. reflexivity.
Defined.

(** X6.  [callTool] knows exactly the tools that [tools/list] advertises.
    Called with the name of an advertised tool and with arguments other than
    [null] and [undefined], it returns a result that is not flagged as an
    error, provided the argument that goes into the text of the answer
    ([command] for [shell_execute], [path] for the other two) can be
    converted to a string; when it cannot, as for the path [{"toString":1}],
    the call throws a [TypeError].  Called with any other name it throws
    [Unknown tool]; and called without arguments it throws for every
    advertised tool. *)
Theorem callTool_knows_advertised_tools :
  (∀ this name args,
     Behaviour.readable args →
     name ∈ Behaviour.advertised_tools →
     (∀ v, get args (Behaviour.argument name) = Return v → stringifies v = true) →
     ∃ r, MCPProxyInstance.callTool this (Str name) args = Return r
          ∧ MCPProxyInstance.isError r = false)
  ∧ (∀ this name args v,
       name ∈ Behaviour.advertised_tools →
       get args (Behaviour.argument name) = Return v →
       stringifies v = false →
       MCPProxyInstance.callTool this (Str name) args = Throw TypeError)
  ∧ (∀ this name args,
       name ∉ Behaviour.advertised_tools →
       MCPProxyInstance.callTool this (Str name) args
       = Throw (Error [Lit "Unknown tool: "; Subst (Str name)]))
  ∧ (∀ this name,
       name ∈ Behaviour.advertised_tools →
       MCPProxyInstance.callTool this (Str name) Undefined = Throw TypeError).
Proof.
  split; [|split; [|split]].
  - intros this name args Hread Hin Hprint.
    destruct (get_readable args "path" Hread) as (path & Hpath).
    destruct (get_readable args "content" Hread) as (content & Hcontent).
    destruct (get_readable args "command" Hread) as (command & Hcommand).
    unfold Behaviour.advertised_tools in Hin. simpl in Hin.
    apply elem_of_cons in Hin as [->|Hin].
    { specialize (Hprint path Hpath).
      unfold MCPProxyInstance.callTool, MCPProxyInstance.handleFilesystemRead,
        interpolate.
      rewrite Hpath. simpl. rewrite Hprint. simpl. by eexists. }
    apply elem_of_cons in Hin as [->|Hin].
    { specialize (Hprint path Hpath).
      unfold MCPProxyInstance.callTool, MCPProxyInstance.handleFilesystemWrite,
        interpolate.
      rewrite Hpath, Hcontent. simpl. rewrite Hprint. simpl. by eexists. }
    apply list_elem_of_singleton in Hin as ->.
    specialize (Hprint command Hcommand).
    unfold MCPProxyInstance.callTool, MCPProxyInstance.handleShellExecute,
      interpolate.
    rewrite Hcommand. simpl. rewrite Hprint. simpl. by eexists.
  - intros this name args v Hin Hv Hprint.
    unfold Behaviour.advertised_tools in Hin. simpl in Hin.
    apply elem_of_cons in Hin as [->|Hin].
    { unfold MCPProxyInstance.callTool, MCPProxyInstance.handleFilesystemRead,
        interpolate.
      change (Behaviour.argument "filesystem_read") with "path" in Hv.
      rewrite Hv. simpl. by rewrite Hprint. }
    apply elem_of_cons in Hin as [->|Hin].
    { unfold MCPProxyInstance.callTool, MCPProxyInstance.handleFilesystemWrite,
        interpolate.
      change (Behaviour.argument "filesystem_write") with "path" in Hv.
      rewrite Hv. simpl.
      assert (Hcontent : ∃ content, get args "content" = Return content).
      { destruct args; simpl in *; try done; by eexists. }
      destruct Hcontent as (content & ->). simpl. by rewrite Hprint. }
    apply list_elem_of_singleton in Hin as ->.
    unfold MCPProxyInstance.callTool, MCPProxyInstance.handleShellExecute,
      interpolate.
    change (Behaviour.argument "shell_execute") with "command" in Hv.
    rewrite Hv. simpl. by rewrite Hprint.
  - intros this name args Hout.
    unfold MCPProxyInstance.callTool, strict_eq_str.
    assert (Hne : ∀ t, t ∈ Behaviour.advertised_tools → String.eqb name t = false).
    { intros t Hin. apply String.eqb_neq. by intros ->. }
    rewrite !Hne; [done|..]; unfold Behaviour.advertised_tools; simpl; set_solver.
  - intros this name Hin.
    unfold Behaviour.advertised_tools in Hin. simpl in Hin.
    repeat (apply elem_of_cons in Hin as [->|Hin]; [reflexivity|]).
    by apply elem_of_nil in Hin.
Qed.

Lemma callTool_knows_advertised_tools_witness :
  MCPProxyInstance.callTool Examples.proxy_s1 (Str "filesystem_read")
    Samples.unprintable_path
  = Throw TypeError.
Proof.
  apply (proj1 (proj2 callTool_knows_advertised_tools) Examples.proxy_s1
           "filesystem_read" Samples.unprintable_path
           (obj [("toString", Num (Binary64.of_Z 1))])).
  - unfold Behaviour.advertised_tools. simpl. apply list_elem_of_here.
  - vm_compute. reflexivity.
  - vm_compute. reflexivity.
Defined.

(** X7.  [readResource] serves every URI that starts with [file://], by
    answering as [filesystem_read] does for the rest of the URI, which
    returns; the one resource that [resources/list] advertises is among
    them.  Any other string is refused with [Unsupported resource URI]. *)
Theorem readResource_serves_file_uris :
  (∀ this path,
     MCPProxyInstance.readResource this (Str ("file://" +:+ path))
     = MCPProxyInstance.handleFilesystemRead this (Str path)
     ∧ ∃ r, MCPProxyInstance.handleFilesystemRead this (Str path) = Return r
            ∧ MCPProxyInstance.isError r = false)
  ∧ (∀ this uri,
       uri ∈ Behaviour.advertised_resources →
       ∃ r, MCPProxyInstance.readResource this (Str uri) = Return r)
  ∧ (∀ this uri,
       String.prefix "file://" uri = false →
       MCPProxyInstance.readResource this (Str uri)
       = Throw (Error [Lit "Unsupported resource URI: "; Subst (Str uri)])).
Proof.
  split; [|split].
  - intros this path. split; [|by eexists].
    unfold MCPProxyInstance.readResource. simpl.
    change ("" +:+ path) with path.
    replace (String.prefix "" path) with true by (by destruct path).
    by rewrite Nat.sub_0_r, substring_all.
  - intros this uri Hin. unfold Behaviour.advertised_resources in Hin. simpl in Hin.
    apply list_elem_of_singleton in Hin as ->. by eexists.
  - intros this uri Hpre. unfold MCPProxyInstance.readResource. by rewrite Hpre.
Qed.

Lemma readResource_serves_file_uris_witness :
  MCPProxyInstance.readResource Examples.proxy_s1 (Str "https://example.org/x")
  = Throw (Error [Lit "Unsupported resource URI: ";
                  Subst (Str "https://example.org/x")]).
Proof.
  apply (proj2 (proj2 readResource_serves_file_uris) Examples.proxy_s1).
  reflexivity.
Defined.

Section Listing.

Import ProjectDetector.

Lemma files_of_Directory name entries :
  files_of (Directory name (Some entries))
  = if Behaviour.entered name
    then map (join name) (flat_map files_of entries)
    else [].
Proof. reflexivity. Qed.

Lemma files_of_nest dirs leaf :
  Forall (λ d, Behaviour.entered d = true) dirs →
  files_of (Behaviour.nest dirs leaf) = map (λ f, foldr join f dirs) (files_of leaf).
Proof.
  induction 1 as [|d dirs Hd _ IH].
  - simpl. by rewrite map_id.
  - change (Behaviour.nest (d :: dirs) leaf)
      with (Directory d (Some [Behaviour.nest dirs leaf])).
    rewrite files_of_Directory, Hd. simpl flat_map. rewrite app_nil_r, IH.
    rewrite map_map. done.
Qed.

Lemma files_of_nest_skipped dirs leaf :
  Exists (λ d, Behaviour.entered d = false) dirs →
  files_of (Behaviour.nest dirs leaf) = [].
Proof.
  induction 1 as [d dirs Hd|d dirs _ IH].
  - change (Behaviour.nest (d :: dirs) leaf)
      with (Directory d (Some [Behaviour.nest dirs leaf])).
    by rewrite files_of_Directory, Hd.
  - change (Behaviour.nest (d :: dirs) leaf)
      with (Directory d (Some [Behaviour.nest dirs leaf])).
    rewrite files_of_Directory. simpl flat_map. rewrite IH.
    by destruct (Behaviour.entered d).
Qed.

End Listing.

(** X8.  [getFileList] follows directories to any depth (the comment in the
    source says two levels): a file below a chain of directories, however
    long, is listed with its full relative path, as long as no directory of
    the chain is hidden or called [node_modules]; if one is, the file is not
    listed. *)
Theorem getFileList_any_depth :
  (∀ dirs f,
     Forall (λ d, Behaviour.entered d = true) dirs →
     ProjectDetector.getFileList (Some [Behaviour.nest dirs (ProjectDetector.File f)])
     = [foldr ProjectDetector.join f dirs])
  ∧ (∀ dirs f,
       Exists (λ d, Behaviour.entered d = false) dirs →
       ProjectDetector.getFileList (Some [Behaviour.nest dirs (ProjectDetector.File f)])
       = []).
Proof.
  split; intros dirs f Hdirs; unfold ProjectDetector.getFileList; simpl;
    rewrite app_nil_r.
  - by rewrite files_of_nest.
  - by apply files_of_nest_skipped.
Qed.

Lemma getFileList_any_depth_witness :
  ProjectDetector.getFileList
    (Some [Behaviour.nest ["a"; "b"; "c"; "d"] (ProjectDetector.File "main.py")])
  = [foldr ProjectDetector.join "main.py" ["a"; "b"; "c"; "d"]].
Proof.
  apply (proj1 getFileList_any_depth ["a"; "b"; "c"; "d"] "main.py").
  repeat constructor.
Defined.

(** X9.  A project in which [getFileList] finds no file (the directory
    cannot be read, is empty, or holds only hidden directories and
    [node_modules]) is detected as [unknown] with template [base] and
    confidence 0, whatever its [package.json] says. *)
Theorem detectProject_without_files :
  ∀ p,
    ProjectDetector.getFileList (ProjectDetector.root p) = [] →
    ProjectDetector.detectProject p = ProjectDetector.unknown.
Proof.
  intros p Hfiles.
  unfold ProjectDetector.detectProject, ProjectDetector.candidates,
    ProjectDetector.detectors.
  cbn [map].
  unfold ProjectDetector.detectNodeJS, ProjectDetector.detectPython,
    ProjectDetector.detectGo, ProjectDetector.detectRust,
    ProjectDetector.detectJava, ProjectDetector.detectRuby,
    ProjectDetector.detectPHP, ProjectDetector.detectDotNet.
  rewrite Hfiles. vm_compute. reflexivity.
Qed.

Lemma detectProject_without_files_witness :
  ProjectDetector.detectProject Samples.bare_checkout = ProjectDetector.unknown.
Proof. apply detectProject_without_files. reflexivity. Defined.

(** Membership in a list that is written out. *)
Ltac listed :=
  first [apply list_elem_of_here | apply list_elem_of_further; listed].

Ltac unlisted H :=
  repeat (apply elem_of_cons in H as [H|H]; [discriminate H|]);
  by apply elem_of_nil in H.

Section Pairings.

Import ProjectDetector.

Lemma detectNodeJS_pairing p :
  (language (detectNodeJS p), det_template (detectNodeJS p)) ∈ Behaviour.pairings.
Proof.
  unfold detectNodeJS.
  destruct (includes _ "package.json");
    [destruct (read_framework p) as [[fw|]|]|];
    destruct (includes _ "package-lock.json");
    try destruct (includes _ "yarn.lock");
    try destruct (includes _ "pnpm-lock.yaml");
    simpl; try destruct (String.eqb fw "react");
    listed.
Qed.

Lemma detectPython_pairing p :
  (language (detectPython p), det_template (detectPython p)) ∈ Behaviour.pairings.
Proof.
  unfold detectPython.
  destruct (includes _ "requirements.txt"), (includes _ "Pipfile"),
    (includes _ "poetry.lock"), (includes _ "manage.py");
    try destruct (some _ _); try destruct (includes _ "main.py" && _);
    simpl; listed.
Qed.

Lemma detectJava_pairing p :
  (language (detectJava p), det_template (detectJava p)) ∈ Behaviour.pairings.
Proof.
  unfold detectJava.
  destruct (includes _ "pom.xml"), (includes _ "build.gradle" || _),
    (some _ _); simpl; listed.
Qed.

Lemma detectRuby_pairing p :
  (language (detectRuby p), det_template (detectRuby p)) ∈ Behaviour.pairings.
Proof.
  unfold detectRuby. destruct (includes _ "config.ru"); simpl; listed.
Qed.

Lemma detectPHP_pairing p :
  (language (detectPHP p), det_template (detectPHP p)) ∈ Behaviour.pairings.
Proof.
  unfold detectPHP.
  destruct (includes _ "artisan"); try destruct (includes _ "index.php" && _);
    simpl; listed.
Qed.

Lemma results_pairing p :
  Forall (λ r, (language r, det_template r) ∈ Behaviour.pairings) (Spec.results p).
Proof.
  unfold Spec.results.
  repeat (apply Forall_cons_2;
          [first [apply detectNodeJS_pairing | apply detectPython_pairing
                 | apply detectJava_pairing | apply detectRuby_pairing
                 | apply detectPHP_pairing
                 | unfold Behaviour.pairings; simpl; listed]|]).
  apply Forall_nil_2.
Qed.

(** What [reduce] returns is one of the detections it was given. *)
Lemma fold_better_in rest first :
  fold_left better rest first ∈ first :: rest.
Proof.
  revert first. induction rest as [|r rest IH]; intros first; simpl.
  - apply list_elem_of_here.
  - unfold better at 2. destruct (Binary64.gtb _ _).
    + apply list_elem_of_further, IH.
    + specialize (IH first). apply elem_of_cons in IH as [->|IH].
      * apply list_elem_of_here.
      * by do 2 apply list_elem_of_further.
Qed.

Lemma detectProject_pairing p :
  (language (detectProject p), det_template (detectProject p)) ∈ Behaviour.pairings.
Proof.
  unfold detectProject.
  change (candidates p)
    with (filter (λ r, Binary64.gtb (confidence r) Binary64.zero = true)
            (Spec.results p)).
  destruct (filter _ (Spec.results p)) as [|first rest] eqn:Hcand.
  - unfold Behaviour.pairings. simpl. listed.
  - pose proof (fold_better_in rest first) as Hin.
    rewrite <- Hcand in Hin. apply list_elem_of_filter in Hin as [_ Hin].
    pose proof (results_pairing p) as Hall.
    rewrite Forall_forall in Hall. by apply Hall.
Qed.

End Pairings.

(** X10.  The template that [detectProject] names is one of [react], [node],
    [django], [python], [go], [rust], [java], [ruby], [php], [dotnet],
    [base].  The built-in definitions of [template-manager.ts] provide it,
    except when the language detected is Java, Ruby, PHP or C#: the
    templates [java], [ruby], [php] and [dotnet] have no built-in
    definition. *)
Theorem detected_template_provided :
  ∀ p,
    let detection := ProjectDetector.detectProject p in
    (language detection, det_template detection) ∈ Behaviour.pairings
    ∧ (language detection ∈ Behaviour.unprovided →
       det_template detection ∉ Behaviour.builtin_names)
    ∧ (language detection ∉ Behaviour.unprovided →
       det_template detection ∈ Behaviour.builtin_names).
Proof.
  assert (Hall : ∀ l t, (l, t) ∈ Behaviour.pairings →
            (l ∈ Behaviour.unprovided → t ∉ Behaviour.builtin_names)
            ∧ (l ∉ Behaviour.unprovided → t ∈ Behaviour.builtin_names)).
  { intros l t Hpair. unfold Behaviour.pairings in Hpair.
    repeat (apply elem_of_cons in Hpair as [[= -> ->]|Hpair];
            [split; intros H;
             first [listed | intros Hin; unlisted Hin
                   | unlisted H | destruct H; listed]|]).
    by apply elem_of_nil in Hpair. }
  intros p detection. pose proof (detectProject_pairing p) as Hpair.
  split; [exact Hpair|]. by apply Hall.
Qed.

Lemma detected_template_provided_witness :
  det_template (ProjectDetector.detectProject Samples.maven_app)
  ∉ Behaviour.builtin_names.
Proof.
  apply (proj1 (proj2 (detected_template_provided Samples.maven_app))).
  vm_compute. listed.
Defined.

Section RepoName.

Import Create.

Lemma append_cons c a b : String c a +:+ b = String c (a +:+ b).
Proof. reflexivity. Qed.

Lemma append_nil b : "" +:+ b = b.
Proof. reflexivity. Qed.

Lemma length_append a b :
  String.length (a +:+ b) = (String.length a + String.length b)%nat.
Proof.
  induction a as [|c a IH]; [done|]. rewrite append_cons. simpl. by rewrite IH.
Qed.

Lemma substring_prefix a b :
  String.substring 0 (String.length a) (a +:+ b) = a.
Proof.
  induction a as [|c a IH]; [by destruct b|]. rewrite append_cons. simpl.
  by rewrite IH.
Qed.

Lemma substring_suffix a b :
  String.substring (String.length a) (String.length b) (a +:+ b) = b.
Proof.
  induction a as [|c a IH]; [|by rewrite append_cons].
  rewrite append_nil. simpl. induction b as [|c b IH]; simpl; [done|].
  by rewrite IH.
Qed.

Lemma endsWith_append a b : ProjectDetector.endsWith (a +:+ b) b = true.
Proof.
  unfold ProjectDetector.endsWith. rewrite length_append.
  replace (String.length a + String.length b - String.length b)%nat
    with (String.length a) by lia.
  rewrite substring_suffix, String.eqb_refl, andb_true_r.
  apply Nat.leb_le. lia.
Qed.

Lemma after_last_slash_none s :
  Behaviour.mentions "/" s = false → after_last_slash s = None.
Proof.
  induction s as [|c s IH]; simpl; [done|].
  intros [Hc Hs]%orb_false_iff. by rewrite (IH Hs), Hc.
Qed.

Lemma after_last_slash_some s t :
  after_last_slash s = Some t → Behaviour.mentions "/" t = false.
Proof.
  revert t. induction s as [|c s IH]; intros t; simpl; [done|].
  destruct (after_last_slash s) as [t'|] eqn:Hs.
  - intros [= <-]. by apply IH.
  - destruct (Ascii.eqb c "/"); [|done]. intros [= <-].
    clear IH. induction s as [|c' s IH]; simpl in *; [done|].
    destruct (after_last_slash s) as [?|]; [done|].
    destruct (Ascii.eqb c' "/"); [done|]. simpl. by apply IH.
Qed.

Lemma after_last_slash_append pre segment :
  Behaviour.mentions "/" segment = false →
  after_last_slash (pre +:+ "/" +:+ segment) = Some segment.
Proof.
  intros Hseg. induction pre as [|c pre IH].
  - rewrite append_nil, append_cons, append_nil. simpl.
    by rewrite (after_last_slash_none _ Hseg).
  - rewrite append_cons. simpl. by rewrite IH.
Qed.

Lemma mentions_substring c k s :
  Behaviour.mentions c s = false →
  Behaviour.mentions c (String.substring 0 k s) = false.
Proof.
  revert k. induction s as [|c' s IH]; intros k; simpl; [by destruct k|].
  intros [Hc Hs]%orb_false_iff. destruct k as [|k]; simpl; [done|].
  by rewrite Hc, IH.
Qed.

Lemma extractRepoName_cases gitUrl :
  extractRepoName gitUrl = "repo"
  ∨ ∃ segment,
      after_last_slash gitUrl = Some segment ∧ segment ≠ ""
      ∧ (extractRepoName gitUrl = segment
         ∨ (4 < String.length segment)%nat
           ∧ extractRepoName gitUrl
             = String.substring 0 (String.length segment - 4) segment).
Proof.
  unfold extractRepoName.
  destruct (after_last_slash gitUrl) as [[|c segment]|]; [by left| |by left].
  right. eexists. split; [done|]. split; [done|].
  destruct (_ <? _)%nat eqn:Hlen; simpl; [|by left].
  destruct (ProjectDetector.endsWith _ _); [|by left].
  right. split; [|done]. by apply Nat.ltb_lt in Hlen.
Qed.

End RepoName.

(** X11.  The name that [create] derives from a git URL is never empty and
    never contains a slash.  For a URL that ends in [/name.git] it is
    [name]; for one that ends in [/name], with [name] not ending in [.git],
    it is [name]; and for a URL with nothing after its last slash, or with
    no slash at all, it is [repo]. *)
Theorem extractRepoName_last_segment :
  (∀ gitUrl,
     Create.extractRepoName gitUrl ≠ ""
     ∧ Behaviour.mentions "/" (Create.extractRepoName gitUrl) = false)
  ∧ (∀ pre name,
       name ≠ "" → Behaviour.mentions "/" name = false →
       Create.extractRepoName (pre +:+ "/" +:+ name +:+ ".git") = name)
  ∧ (∀ pre name,
       name ≠ "" → Behaviour.mentions "/" name = false →
       ProjectDetector.endsWith name ".git" = false →
       Create.extractRepoName (pre +:+ "/" +:+ name) = name)
  ∧ (∀ pre, Create.extractRepoName (pre +:+ "/") = "repo")
  ∧ (∀ gitUrl,
       Behaviour.mentions "/" gitUrl = false →
       Create.extractRepoName gitUrl = "repo").
Proof.
  split; [|split; [|split; [|split]]].
  - intros gitUrl.
    destruct (extractRepoName_cases gitUrl)
      as [->|(segment & Hseg & Hne & [->|[Hlen ->]])]; [done| |].
    + split; [done|]. by apply (after_last_slash_some gitUrl).
    + split.
      * destruct segment as [|c segment]; [done|].
        simpl in *. by destruct (String.length segment - 3)%nat eqn:?; [lia|].
      * apply mentions_substring. by apply (after_last_slash_some gitUrl).
  - intros pre name Hne Hname. unfold Create.extractRepoName.
    assert (Hseg : Behaviour.mentions "/" (name +:+ ".git") = false).
    { clear Hne. induction name as [|c name IH]; [done|].
      rewrite append_cons. simpl in *.
      apply orb_false_iff in Hname as [-> Hname]. by apply IH. }
    rewrite (after_last_slash_append _ _ Hseg).
    destruct (name +:+ ".git") as [|c segment] eqn:Happ.
    { by destruct name. }
    rewrite <- Happ, endsWith_append, length_append. simpl String.length.
    replace (4 <? String.length name + 4)%nat with true
      by (symmetry; apply Nat.ltb_lt; destruct name; [done|simpl; lia]).
    simpl. replace (String.length name + 4 - 4)%nat with (String.length name) by lia.
    apply substring_prefix.
  - intros pre name Hne Hname Hgit. unfold Create.extractRepoName.
    rewrite (after_last_slash_append _ _ Hname).
    destruct name as [|c name]; [done|]. by rewrite Hgit, andb_false_r.
  - intros pre. unfold Create.extractRepoName.
    replace (pre +:+ "/") with (pre +:+ "/" +:+ "").
    + by rewrite after_last_slash_append.
    + done.
  - intros gitUrl Hno. unfold Create.extractRepoName.
    by rewrite after_last_slash_none.
Qed.

Lemma extractRepoName_last_segment_witness :
  Create.extractRepoName ("git@github.com:MxDui" +:+ "/" +:+ "agent-instant-stack" +:+ ".git")
  = "agent-instant-stack".
Proof.
  apply (proj1 (proj2 extractRepoName_last_segment)).
  - discriminate.
  - reflexivity.
Defined.

Section Runs.

Import SandboxManager Spec.

Lemma bind_Return {A B} (m : M A) (k : A → M B) s b s2 :
  bind m k s = (Return b, s2) →
  ∃ a s1, m s = (Return a, s1) ∧ k a s1 = (Return b, s2).
Proof.
  unfold bind. destruct (m s) as [[a|e] s1]; [|done]. intros Hk. eauto.
Qed.

Lemma call_Return h e s u s' :
  call h e s = (Return u, s') →
  Host.impossible e (fs s) = false
  ∧ Host.succeeds h e = true
  ∧ s' = {| fs := Host.apply e (fs s); mcpProxy := mcpProxy s;
            trace := trace s ++ [e] |}.
Proof.
  unfold call. destruct (Host.impossible e (fs s)); simpl; [done|].
  destruct (Host.succeeds h e); simpl; [|done]. by intros [= _ <-].
Qed.

Lemma call_ok h e s :
  Host.impossible e (fs s) = false → Host.succeeds h e = true →
  call h e s
  = (Return tt, {| fs := Host.apply e (fs s); mcpProxy := mcpProxy s;
                   trace := trace s ++ [e] |}).
Proof. intros Hi Hs. unfold call. by rewrite Hi, Hs. Qed.

Lemma call_failed h e s :
  Host.succeeds h e = false →
  call h e s
  = (Throw (SystemError "host"),
     {| fs := fs s; mcpProxy := mcpProxy s; trace := trace s ++ [e] |}).
Proof. intros Hs. unfold call. by rewrite Hs, orb_true_r. Qed.

Lemma save_possible c d :
  Behaviour.writable d = true → Host.impossible (save_of c) d = false.
Proof. unfold Behaviour.writable, Host.impossible. simpl. by destruct (Host.sandboxes d). Qed.

Lemma record_at_saved c d :
  record_at (Host.apply (save_of c) d) (id c) = Some (Host.stored c).
Proof. unfold record_at. simpl. by rewrite lookup_insert_eq. Qed.

Lemma record_at_saved_ne c d j :
  j ≠ id c → record_at (Host.apply (save_of c) d) j = record_at d j.
Proof. intros Hj. unfold record_at. simpl. by rewrite lookup_insert_ne. Qed.

Lemma writable_saved c d :
  Behaviour.writable (Host.apply (save_of c) d) = Behaviour.writable d.
Proof. reflexivity. Qed.

Lemma stored_plain c : Behaviour.plain c → Host.stored c = c.
Proof.
  intros [[t Ht] Hcpu]. destruct c as [? ? ? ? ? ? ? [? cpu ? ?] ? ?].
  simpl in *. subst. unfold Host.stored, Host.reread_resources. simpl.
  do 2 f_equal. destruct cpu as [x|]; [|done].
  specialize (Hcpu x eq_refl). by destruct x as [[]| | |].
Qed.

Lemma stored_stored c : Host.stored (Host.stored c) = Host.stored c.
Proof.
  destruct c as [? ? ? [?|] ? ? ? [? [[]|] ? ?] ? ?]; reflexivity.
Qed.

(** The allocator of a manager after [allocatePort]. *)
Lemma allocatePort_run s :
  allocatePort s
  = ((MCPProxy.allocatePort (mcpProxy s)).1,
     {| fs := fs s; mcpProxy := (MCPProxy.allocatePort (mcpProxy s)).2;
        trace := trace s |}).
Proof. unfold allocatePort. by destruct (MCPProxy.allocatePort (mcpProxy s)). Qed.

(** A run of [startSandbox] that returns. *)
Lemma startSandbox_Return h sandboxId s s' :
  startSandbox h sandboxId s = (Return tt, s') →
  ∃ c cid port proxy,
    record_at (fs s) sandboxId = Some c
    ∧ containerId c = Some cid ∧ cid ≠ ""
    ∧ MCPProxy.allocatePort (mcpProxy s) = (Return port, proxy)
    ∧ Behaviour.writable (fs s) = true
    ∧ s' = {| fs := Host.apply (save_of (started c port)) (fs s);
              mcpProxy := proxy;
              trace := trace s ++ [Host.StartContainer cid;
                                   save_of (started c port)] |}.
Proof.
  unfold startSandbox. intros Hrun.
  apply bind_Return in Hrun as (found & s0 & Hget & Hrun).
  rewrite getSandbox_run in Hget. injection Hget as <- <-.
  destruct (record_at (fs s) sandboxId) as [c|]; [|done].
  destruct (containerId c) as [cid|] eqn:Hcid; [|done]. simpl in Hrun.
  destruct (negb (cid =? "")%string) eqn:Hne; [|done].
  apply bind_Return in Hrun as ([] & s1 & Hstart & Hrun).
  apply call_Return in Hstart as (_ & _ & ->).
  apply bind_Return in Hrun as (port & s2 & Halloc & Hsave).
  rewrite allocatePort_run in Halloc. simpl in Halloc.
  destruct (MCPProxy.allocatePort (mcpProxy s)) as [r proxy] eqn:Hproxy.
  simpl in Halloc. injection Halloc as -> <-.
  apply call_Return in Hsave as (Hposs & _ & ->). simpl in *.
  exists c, cid, port, proxy. split_and!; try done.
  - intros ->. done.
  - unfold Behaviour.writable. by destruct (Host.sandboxes (fs s)).
  - by rewrite <- app_assoc.
Qed.

(** A run of [stopSandbox] that returns. *)
Lemma stopSandbox_Return h sandboxId s s' :
  stopSandbox h sandboxId s = (Return tt, s') →
  ∃ c cid,
    record_at (fs s) sandboxId = Some c
    ∧ containerId c = Some cid ∧ cid ≠ ""
    ∧ s' = {| fs := Host.apply (save_of (halted c)) (fs s);
              mcpProxy := if truthy_int (mcpPort c)
                          then MCPProxy.releasePort (default 0 (mcpPort c)) (mcpProxy s)
                          else mcpProxy s;
              trace := trace s ++ [Host.StopContainer cid; save_of (halted c)] |}.
Proof.
  unfold stopSandbox. intros Hrun.
  apply bind_Return in Hrun as (found & s0 & Hget & Hrun).
  rewrite getSandbox_run in Hget. injection Hget as <- <-.
  destruct (record_at (fs s) sandboxId) as [c|]; [|done].
  destruct (containerId c) as [cid|] eqn:Hcid; [|done]. simpl in Hrun.
  destruct (negb (cid =? "")%string) eqn:Hne; [|done].
  apply bind_Return in Hrun as ([] & s1 & Hstop & Hrun).
  apply call_Return in Hstop as (_ & _ & ->).
  apply bind_Return in Hrun as ([] & s2 & Hrel & Hsave).
  apply call_Return in Hsave as (_ & _ & ->).
  exists c, cid. split_and!; try done.
  - intros ->. done.
  - destruct (truthy_int (mcpPort c)); injection Hrel as <-; simpl;
      by rewrite <- app_assoc.
Qed.

Lemma release_after_allocate this p this1 :
  MCPProxy.allocatePort this = (Return p, this1) →
  MCPProxy.releasePort p this1 = this.
Proof.
  intros Halloc.
  destruct (allocatePort_Return _ _ _ Halloc) as (_ & Hfree & _ & _ & _).
  unfold MCPProxy.allocatePort in Halloc.
  destruct (MCPProxy.scan _ _ _ _) as [r|]; [|done].
  injection Halloc as -> <-. unfold MCPProxy.releasePort. simpl.
  destruct this as [active proxies range]. simpl in *. f_equal.
  apply set_eq. intros q.
  rewrite elem_of_difference, elem_of_union, elem_of_singleton.
  split; [by intros [[->|?] ?]|]. intros Hq. split; [by right|by intros ->].
Qed.

End Runs.

(** X12.  A record that [saveSandboxConfig] has written is the one that
    [getSandbox] returns for its [id], as [JSON.stringify] writes it and
    [getSandbox] reads it back: an invalid date comes back as the epoch, a
    [cpu] that is NaN or infinite as [null], a [cpu] of negative zero as
    zero; a record with a valid date and a [cpu] that is none of these comes
    back as it was saved.  When the [id] is one path segment, the records
    under every other id that is one path segment stay as they were. *)
Theorem saveSandboxConfig_then_getSandbox :
  ∀ h c s s',
    SandboxManager.saveSandboxConfig h c s = (Return tt, s') →
    SandboxManager.getSandbox (id c) s' = (Return (Some (Host.stored c)), s')
    ∧ (Behaviour.plain c →
       SandboxManager.getSandbox (id c) s' = (Return (Some c), s'))
    ∧ (Behaviour.segment (id c) = true →
       ∀ other,
         Behaviour.segment other = true → other ≠ id c →
         SandboxManager.getSandbox other s'
         = (Return (Spec.record_at (SandboxManager.fs s) other), s')).
Proof.
  intros h c s s' Hsave.
  apply call_Return in Hsave as (_ & _ & ->).
  rewrite !getSandbox_run. cbn [SandboxManager.fs].
  rewrite (record_at_saved c). split; [done|]. split.
  - intros Hplain. by rewrite stored_plain.
  - intros _ other _ Hother. rewrite getSandbox_run. cbn [SandboxManager.fs].
    by rewrite (record_at_saved_ne c).
Qed.

Lemma saveSandboxConfig_then_getSandbox_witness :
  SandboxManager.getSandbox (id Samples.record_b)
    (SandboxManager.saveSandboxConfig Examples.willing Samples.record_b
       (SandboxManager.new Examples.disk_mixed)).2
  = (Return (Some Samples.record_b),
     (SandboxManager.saveSandboxConfig Examples.willing Samples.record_b
        (SandboxManager.new Examples.disk_mixed)).2).
Proof.
  apply (proj1 (proj2 (saveSandboxConfig_then_getSandbox Examples.willing
           Samples.record_b (SandboxManager.new Examples.disk_mixed) _ eq_refl))).
  split; [by eexists|]. intros x [= <-]. reflexivity.
Defined.

(** X13.  Every command builds a manager of its own, whose allocator holds
    no port.  A sandbox that such a manager starts is saved with port 50000,
    whatever ports the records on disk carry; so, on a disk where every
    record sits in the directory of its [id], two different sandboxes
    started by two commands, one after the other, are both recorded as
    running on port 50000. *)
Theorem fresh_manager_starts_on_50000 :
  (∀ h d sandboxId s',
     SandboxManager.startSandbox h sandboxId (SandboxManager.new d)
     = (Return tt, s') →
     ∃ c,
       Spec.record_at d sandboxId = Some c
       ∧ Spec.record_at (SandboxManager.fs s') (id c)
         = Some (Host.stored (SandboxManager.started c 50000)))
  ∧ (∀ h1 h2 d a b s1 s2,
       Behaviour.filed d → a ≠ b →
       SandboxManager.startSandbox h1 a (SandboxManager.new d) = (Return tt, s1) →
       SandboxManager.startSandbox h2 b (SandboxManager.new (SandboxManager.fs s1))
       = (Return tt, s2) →
       ∃ ca cb,
         Spec.record_at (SandboxManager.fs s2) a = Some ca
         ∧ Spec.record_at (SandboxManager.fs s2) b = Some cb
         ∧ status ca = running ∧ status cb = running
         ∧ mcpPort ca = Some 50000 ∧ mcpPort cb = Some 50000).
Proof.
  assert (Hfresh : ∀ h d sandboxId s',
    SandboxManager.startSandbox h sandboxId (SandboxManager.new d) = (Return tt, s') →
    ∃ c, Spec.record_at d sandboxId = Some c
         ∧ SandboxManager.fs s'
           = Host.apply (Spec.save_of (SandboxManager.started c 50000)) d).
  { intros h d sandboxId s' Hrun.
    apply startSandbox_Return in Hrun
      as (c & cid & port & proxy & Hc & _ & _ & Halloc & _ & ->).
    exists c. split; [done|]. simpl in *.
    assert (Hport : (MCPProxy.allocatePort MCPProxy.new).1 = Return 50000).
    { apply allocatePort_first_free; simpl; [lia|set_solver|intros; lia]. }
    rewrite Halloc in Hport. simpl in Hport. by injection Hport as ->. }
  split.
  - intros h d sandboxId s' Hrun.
    destruct (Hfresh _ _ _ _ Hrun) as (c & Hc & ->).
    exists c. split; [done|].
    apply (record_at_saved (SandboxManager.started c 50000)).
  - intros h1 h2 d a b s1 s2 Hfiled Hab H1 H2.
    destruct (Hfresh _ _ _ _ H1) as (ca & Hca & Hs1).
    destruct (Hfresh _ _ _ _ H2) as (cb & Hcb & Hs2).
    pose proof (Hfiled _ _ Hca) as Hida.
    rewrite Hs1, record_at_saved_ne in Hcb by (simpl; congruence).
    pose proof (Hfiled _ _ Hcb) as Hidb.
    exists (Host.stored (SandboxManager.started ca 50000)),
           (Host.stored (SandboxManager.started cb 50000)).
    rewrite Hs2, Hs1. split_and!; try done.
    + rewrite record_at_saved_ne by (simpl; congruence).
      rewrite <- Hida. apply (record_at_saved (SandboxManager.started ca 50000)).
    + rewrite <- Hidb. apply (record_at_saved (SandboxManager.started cb 50000)).
Qed.

Lemma fresh_manager_starts_on_50000_witness :
  ∃ ca cb,
    Spec.record_at
      (SandboxManager.fs
         (SandboxManager.startSandbox Examples.willing "b"
            (SandboxManager.new
               (SandboxManager.fs
                  (SandboxManager.startSandbox Examples.willing "a"
                     (SandboxManager.new Samples.disk_two)).2))).2) "a"
    = Some ca
    ∧ Spec.record_at
        (SandboxManager.fs
           (SandboxManager.startSandbox Examples.willing "b"
              (SandboxManager.new
                 (SandboxManager.fs
                    (SandboxManager.startSandbox Examples.willing "a"
                       (SandboxManager.new Samples.disk_two)).2))).2) "b"
      = Some cb
    ∧ status ca = running ∧ status cb = running
    ∧ mcpPort ca = Some 50000 ∧ mcpPort cb = Some 50000.
Proof.
  apply (proj2 fresh_manager_starts_on_50000 Examples.willing Examples.willing
           Samples.disk_two "a" "b"
           (SandboxManager.startSandbox Examples.willing "a"
              (SandboxManager.new Samples.disk_two)).2).
  - intros entry c. unfold Spec.record_at. simpl.
    destruct (decide (entry = "a")) as [->|Ha].
    { rewrite lookup_insert_eq. by intros [= <-]. }
    rewrite lookup_insert_ne by done.
    destruct (decide (entry = "b")) as [->|Hb].
    { rewrite lookup_insert_eq. by intros [= <-]. }
    rewrite lookup_insert_ne by done. by rewrite lookup_empty.
  - discriminate.
  - vm_compute. reflexivity.
  - vm_compute. reflexivity.
Defined.

Section Lifecycle2.

Import SandboxManager Spec.

Lemma halted_stored_started c port :
  Host.stored (halted (Host.stored (started c port))) = halted (Host.stored c).
Proof.
  destruct c as [? ? ? [?|] ? ? ? [? [[]|] ? ?] ? ?]; reflexivity.
Qed.

Lemma filed_saved c d :
  Behaviour.filed d → (∃ c0, record_at d (id c) = Some c0) →
  Behaviour.filed (Host.apply (save_of c) d).
Proof.
  intros Hfiled [c0 Hc0] entry c'.
  destruct (decide (entry = id c)) as [->|Hne].
  - rewrite record_at_saved. by intros [= <-].
  - rewrite record_at_saved_ne by done. apply Hfiled.
Qed.

End Lifecycle2.

(** X14.  On a disk where every record sits in the directory of its [id],
    and with a port range that starts above 0 (the code takes a port of 0
    for no port), starting a sandbox and then stopping it on the same
    manager leaves its record as [JSON.stringify] writes back what was
    read, with status [stopped] and without a port: a record read with a
    valid date and a [cpu] that is [null] or a finite number other than
    negative zero is as it was read but for the status and the port, while
    an invalid date has become the epoch and a [cpu] that is not finite has
    become [null].  The port that the start took is free again, and when
    the id is one path segment, the records under every other id that is
    one path segment are unchanged. *)
Theorem startSandbox_then_stopSandbox :
  ∀ h1 h2 sandboxId s s1 s2,
    Behaviour.filed (SandboxManager.fs s) →
    0 < MCPProxy.min (MCPProxy.portRange (SandboxManager.mcpProxy s)) →
    SandboxManager.startSandbox h1 sandboxId s = (Return tt, s1) →
    SandboxManager.stopSandbox h2 sandboxId s1 = (Return tt, s2) →
    ∃ c,
      Spec.record_at (SandboxManager.fs s) sandboxId = Some c
      ∧ Spec.record_at (SandboxManager.fs s2) sandboxId
        = Some (SandboxManager.halted (Host.stored c))
      ∧ (Behaviour.plain c →
         Spec.record_at (SandboxManager.fs s2) sandboxId
         = Some (SandboxManager.halted c))
      ∧ SandboxManager.mcpProxy s2 = SandboxManager.mcpProxy s
      ∧ (Behaviour.segment sandboxId = true →
         ∀ other,
           Behaviour.segment other = true → other ≠ sandboxId →
           Spec.record_at (SandboxManager.fs s2) other
           = Spec.record_at (SandboxManager.fs s) other).
Proof.
  intros h1 h2 sandboxId s s1 s2 Hfiled Hmin Hstart Hstop.
  apply startSandbox_Return in Hstart
    as (c & cid & port & proxy & Hc & Hcid & _ & Halloc & _ & ->).
  pose proof (Hfiled _ _ Hc) as Hid. subst sandboxId.
  apply stopSandbox_Return in Hstop as (c' & cid' & Hc' & _ & _ & ->).
  cbn [SandboxManager.fs SandboxManager.mcpProxy] in *.
  rewrite (record_at_saved (SandboxManager.started c port)) in Hc'.
  injection Hc' as <-.
  assert (Hrecord :
    Spec.record_at
      (Host.apply
         (Spec.save_of
            (SandboxManager.halted (Host.stored (SandboxManager.started c port))))
         (Host.apply (Spec.save_of (SandboxManager.started c port))
            (SandboxManager.fs s)))
      (id c)
    = Some (SandboxManager.halted (Host.stored c))).
  { rewrite (record_at_saved
               (SandboxManager.halted (Host.stored (SandboxManager.started c port)))).
    by rewrite halted_stored_started. }
  exists c. split; [done|]. split; [done|]. split; [|split].
  - intros Hplain. by rewrite Hrecord, stored_plain.
  - destruct (allocatePort_Return _ _ _ Halloc) as (Hport & _).
    cbn [mcpPort Host.stored SandboxManager.started truthy_int default].
    replace (port =? 0) with false by (symmetry; apply Z.eqb_neq; lia).
    simpl. by apply release_after_allocate.
  - intros _ other _ Hother.
    rewrite (record_at_saved_ne
               (SandboxManager.halted (Host.stored (SandboxManager.started c port))))
      by (simpl; congruence).
    by rewrite (record_at_saved_ne (SandboxManager.started c port))
      by (simpl; congruence).
Qed.

Lemma disk_two_filed : Behaviour.filed Samples.disk_two.
Proof.
  intros entry c. unfold Spec.record_at. simpl.
  destruct (decide (entry = "a")) as [->|Ha].
  { rewrite lookup_insert_eq. by intros [= <-]. }
  rewrite lookup_insert_ne by done.
  destruct (decide (entry = "b")) as [->|Hb].
  { rewrite lookup_insert_eq. by intros [= <-]. }
  rewrite lookup_insert_ne by done. by rewrite lookup_empty.
Qed.

Lemma startSandbox_then_stopSandbox_witness :
  ∃ c,
    Spec.record_at (SandboxManager.fs (SandboxManager.new Samples.disk_two)) "a"
    = Some c
    ∧ Spec.record_at
        (SandboxManager.fs
           (SandboxManager.stopSandbox Examples.willing "a"
              (SandboxManager.startSandbox Examples.willing "a"
                 (SandboxManager.new Samples.disk_two)).2).2) "a"
      = Some (SandboxManager.halted (Host.stored c))
    ∧ (Behaviour.plain c →
       Spec.record_at
         (SandboxManager.fs
            (SandboxManager.stopSandbox Examples.willing "a"
               (SandboxManager.startSandbox Examples.willing "a"
                  (SandboxManager.new Samples.disk_two)).2).2) "a"
       = Some (SandboxManager.halted c))
    ∧ SandboxManager.mcpProxy
        (SandboxManager.stopSandbox Examples.willing "a"
           (SandboxManager.startSandbox Examples.willing "a"
              (SandboxManager.new Samples.disk_two)).2).2
      = SandboxManager.mcpProxy (SandboxManager.new Samples.disk_two)
    ∧ (Behaviour.segment "a" = true →
       ∀ other,
        Behaviour.segment other = true → other ≠ "a" →
        Spec.record_at
          (SandboxManager.fs
             (SandboxManager.stopSandbox Examples.willing "a"
                (SandboxManager.startSandbox Examples.willing "a"
                   (SandboxManager.new Samples.disk_two)).2).2) other
        = Spec.record_at (SandboxManager.fs (SandboxManager.new Samples.disk_two))
            other).
Proof.
  apply (startSandbox_then_stopSandbox Examples.willing Examples.willing "a"
           (SandboxManager.new Samples.disk_two)
           (SandboxManager.startSandbox Examples.willing "a"
              (SandboxManager.new Samples.disk_two)).2).
  - apply disk_two_filed.
  - simpl. lia.
  - vm_compute. reflexivity.
  - vm_compute. reflexivity.
Defined.

(** X15.  [startSandbox] does not look at the status.  On a disk where
    every record sits in the directory of its [id], starting a sandbox that
    the same manager has already started takes a second, greater port and
    gives up nothing: the record of the sandbox then carries the second
    port, and both ports are held. *)
Theorem second_start_keeps_first_port :
  ∀ h1 h2 sandboxId s s1 s2,
    Behaviour.filed (SandboxManager.fs s) →
    SandboxManager.startSandbox h1 sandboxId s = (Return tt, s1) →
    SandboxManager.startSandbox h2 sandboxId s1 = (Return tt, s2) →
    ∃ first second c,
      first < second
      ∧ MCPProxy.activePorts (SandboxManager.mcpProxy s2)
        = {[second]} ∪ ({[first]} ∪ MCPProxy.activePorts (SandboxManager.mcpProxy s))
      ∧ Spec.record_at (SandboxManager.fs s2) sandboxId = Some c
      ∧ status c = running
      ∧ mcpPort c = Some second.
Proof.
  intros h1 h2 sandboxId s s1 s2 Hfiled H1 H2.
  apply startSandbox_Return in H1
    as (c & cid & first & proxy1 & Hc & _ & _ & Halloc1 & _ & ->).
  pose proof (Hfiled _ _ Hc) as Hid. subst sandboxId.
  apply startSandbox_Return in H2
    as (c' & cid' & second & proxy2 & Hc' & _ & _ & Halloc2 & _ & ->).
  cbn [SandboxManager.fs SandboxManager.mcpProxy] in *.
  rewrite (record_at_saved (SandboxManager.started c first)) in Hc'.
  injection Hc' as <-.
  exists first, second,
    (Host.stored (SandboxManager.started
                    (Host.stored (SandboxManager.started c first)) second)).
  split; [|split; [|split]].
  - destruct (allocatePort_Return _ _ _ Halloc1) as (_ & _ & Hbelow & Hset & Hrange).
    destruct (allocatePort_Return _ _ _ Halloc2) as (Hq & Hfree & _).
    rewrite Hrange in Hq. rewrite Hset in Hfree.
    destruct (Z.lt_trichotomy second first) as [Hlt|[->|Hgt]]; [| |done].
    + destruct Hfree. apply elem_of_union. right. apply Hbelow. lia.
    + destruct Hfree. apply elem_of_union. left. by apply elem_of_singleton.
  - destruct (allocatePort_Return _ _ _ Halloc1) as (_ & _ & _ & Hset1 & _).
    destruct (allocatePort_Return _ _ _ Halloc2) as (_ & _ & _ & Hset2 & _).
    by rewrite Hset2, Hset1.
  - apply (record_at_saved
             (SandboxManager.started
                (Host.stored (SandboxManager.started c first)) second)).
  - done.
Qed.

Lemma second_start_keeps_first_port_witness :
  ∃ first second c,
    first < second
    ∧ MCPProxy.activePorts
        (SandboxManager.mcpProxy
           (SandboxManager.startSandbox Examples.willing "a"
              (SandboxManager.startSandbox Examples.willing "a"
                 (SandboxManager.new Samples.disk_two)).2).2)
      = {[second]}
        ∪ ({[first]}
           ∪ MCPProxy.activePorts
               (SandboxManager.mcpProxy (SandboxManager.new Samples.disk_two)))
    ∧ Spec.record_at
        (SandboxManager.fs
           (SandboxManager.startSandbox Examples.willing "a"
              (SandboxManager.startSandbox Examples.willing "a"
                 (SandboxManager.new Samples.disk_two)).2).2) "a"
      = Some c
    ∧ status c = running
    ∧ mcpPort c = Some second.
Proof.
  apply (second_start_keeps_first_port Examples.willing Examples.willing "a"
           (SandboxManager.new Samples.disk_two)
           (SandboxManager.startSandbox Examples.willing "a"
              (SandboxManager.new Samples.disk_two)).2).
  - apply disk_two_filed.
  - vm_compute. reflexivity.
  - vm_compute. reflexivity.
Defined.

(** X16.  [startSandbox] undoes nothing when it fails half way.  If the
    container starts and a port is found but the record cannot be written,
    the call throws, the container has been started and is not stopped, and
    the port stays held. *)
Theorem startSandbox_no_rollback :
  ∀ h sandboxId s c cid port proxy,
    Spec.record_at (SandboxManager.fs s) sandboxId = Some c →
    containerId c = Some cid → cid ≠ "" →
    Host.succeeds h (Host.StartContainer cid) = true →
    MCPProxy.allocatePort (SandboxManager.mcpProxy s) = (Return port, proxy) →
    Host.succeeds h (Spec.save_of (SandboxManager.started c port)) = false →
    throws (SandboxManager.startSandbox h sandboxId s).1 = true
    ∧ SandboxManager.trace (SandboxManager.startSandbox h sandboxId s).2
      = SandboxManager.trace s
        ++ [Host.StartContainer cid; Spec.save_of (SandboxManager.started c port)]
    ∧ port ∈ MCPProxy.activePorts
               (SandboxManager.mcpProxy (SandboxManager.startSandbox h sandboxId s).2).
Proof.
  intros h sandboxId s c cid port proxy Hc Hcid Hne Hstart Halloc Hsave.
  unfold SandboxManager.startSandbox, SandboxManager.bind.
  rewrite getSandbox_run, Hc, Hcid. simpl.
  replace (cid =? "")%string with false by (symmetry; by apply String.eqb_neq).
  simpl. rewrite call_ok by done. rewrite allocatePort_run.
  cbn [SandboxManager.mcpProxy]. rewrite Halloc. cbn [fst snd].
  unfold SandboxManager.saveSandboxConfig.
  rewrite call_failed by done. simpl. rewrite <- app_assoc.
  split; [done|]. split; [done|].
  destruct (allocatePort_Return _ _ _ Halloc) as (_ & _ & _ & -> & _).
  apply elem_of_union. left. by apply elem_of_singleton.
Qed.

Lemma startSandbox_no_rollback_witness :
  throws (SandboxManager.startSandbox Samples.read_only "a"
            (SandboxManager.new Samples.disk_two)).1 = true
  ∧ SandboxManager.trace
      (SandboxManager.startSandbox Samples.read_only "a"
         (SandboxManager.new Samples.disk_two)).2
    = SandboxManager.trace (SandboxManager.new Samples.disk_two)
      ++ [Host.StartContainer "c-a";
          Spec.save_of (SandboxManager.started Examples.record_a 50000)]
  ∧ 50000 ∈ MCPProxy.activePorts
              (SandboxManager.mcpProxy
                 (SandboxManager.startSandbox Samples.read_only "a"
                    (SandboxManager.new Samples.disk_two)).2).
Proof.
  apply (startSandbox_no_rollback Samples.read_only "a"
           (SandboxManager.new Samples.disk_two) Examples.record_a "c-a" 50000
           (MCPProxy.allocatePort MCPProxy.new).2).
  - vm_compute. reflexivity.
  - reflexivity.
  - discriminate.
  - reflexivity.
  - vm_compute. reflexivity.
  - reflexivity.
Defined.

(** X17.  [getSandboxInfo] never throws and writes nothing.  It answers
    [null] exactly when there is no usable record.  The connection string it
    reports is [localhost:<port>], and it reports one only for a record that
    is [running], has a port and has a container that the runtime could
    inspect. *)
Theorem getSandboxInfo_connection :
  ∀ h sandboxId s,
    ∃ r s',
      SandboxManager.getSandboxInfo h sandboxId s = (Return r, s')
      ∧ SandboxManager.fs s' = SandboxManager.fs s
      ∧ match Spec.record_at (SandboxManager.fs s) sandboxId with
        | None => r = None
        | Some c =>
            ∃ info,
              r = Some info
              ∧ SandboxManager.sandbox info = c
              ∧ SandboxManager.workingDirectory info = "/workspace"
              ∧ ∀ conn,
                  SandboxManager.mcpConnection info = Some conn →
                  status c = running
                  ∧ (∃ port, mcpPort c = Some port ∧ port ≠ 0
                             ∧ conn = "localhost:" +:+ pretty port)
                  ∧ (∃ cid, containerId c = Some cid ∧ cid ≠ ""
                            ∧ Host.succeeds h (Host.InspectContainer cid) = true)
                  ∧ SandboxManager.containerInfo info = true
        end.
Proof.
  intros h sandboxId s.
  unfold SandboxManager.getSandboxInfo, SandboxManager.bind.
  rewrite getSandbox_run.
  destruct (Spec.record_at (SandboxManager.fs s) sandboxId) as [c|];
    [|by eexists _, _].
  destruct (containerId c) as [cid|] eqn:Hcid; simpl;
    [|eexists _, _; split; [reflexivity|]; split; [done|];
      eexists; split; [reflexivity|]; by split_and!].
  destruct (negb (cid =? "")%string) eqn:Hne; simpl;
    [|eexists _, _; split; [reflexivity|]; split; [done|];
      eexists; split; [reflexivity|]; by split_and!].
  unfold SandboxManager.try_catch, SandboxManager.bind, SandboxManager.call.
  change (Host.impossible (Host.InspectContainer cid) (SandboxManager.fs s))
    with false.
  destruct (Host.succeeds h (Host.InspectContainer cid)) eqn:Hok; simpl;
    [|eexists _, _; split; [reflexivity|]; split; [done|];
      eexists; split; [reflexivity|]; by split_and!].
  eexists _, _. split; [reflexivity|]. split; [done|].
  eexists. split; [reflexivity|]. split_and!; try done. simpl.
  destruct (mcpPort c) as [port|] eqn:Hport; simpl; [|done].
  destruct (port =? 0) eqn:Hzero; simpl; [done|].
  case_bool_decide as Hrun; [|done].
  intros conn [= <-]. split_and!; try done.
  - exists port. split_and!; try done. by apply Z.eqb_neq.
  - exists cid. split_and!; try done. intros ->. done.
Qed.

(** X18.  [runPostCreateCommands] runs the commands in order, each in the
    sandbox's container, and gives up at the first one whose [exec] call
    fails: the commands after it are not run. *)
Theorem runPostCreateCommands_stops_at_failure :
  ∀ h sandboxId s c cid,
    Spec.record_at (SandboxManager.fs s) sandboxId = Some c →
    containerId c = Some cid → cid ≠ "" →
    (∀ commands,
       Forall (λ command, Host.succeeds h (Host.Exec cid command) = true) commands →
       SandboxManager.runPostCreateCommands h sandboxId commands s
       = (Return tt,
          {| SandboxManager.fs := SandboxManager.fs s;
             SandboxManager.mcpProxy := SandboxManager.mcpProxy s;
             SandboxManager.trace :=
               SandboxManager.trace s ++ map (Host.Exec cid) commands |}))
    ∧ (∀ ran failing rest,
         Forall (λ command, Host.succeeds h (Host.Exec cid command) = true) ran →
         Host.succeeds h (Host.Exec cid failing) = false →
         SandboxManager.runPostCreateCommands h sandboxId (ran ++ failing :: rest) s
         = (Throw (SystemError "host"),
            {| SandboxManager.fs := SandboxManager.fs s;
               SandboxManager.mcpProxy := SandboxManager.mcpProxy s;
               SandboxManager.trace :=
                 SandboxManager.trace s ++ map (Host.Exec cid) (ran ++ [failing]) |})).
Proof.
  intros h sandboxId s c cid Hc Hcid Hne.
  assert (Hhead : ∀ commands,
    SandboxManager.runPostCreateCommands h sandboxId commands s
    = SandboxManager.for_each (λ command, SandboxManager.call h (Host.Exec cid command))
        commands s).
  { intros commands. unfold SandboxManager.runPostCreateCommands, SandboxManager.bind.
    rewrite getSandbox_run, Hc, Hcid. simpl.
    by replace (cid =? "")%string with false by (symmetry; by apply String.eqb_neq). }
  assert (Hstate : ∀ s0 : SandboxManager.state,
    {| SandboxManager.fs := SandboxManager.fs s0;
       SandboxManager.mcpProxy := SandboxManager.mcpProxy s0;
       SandboxManager.trace := SandboxManager.trace s0 ++ [] |} = s0).
  { intros [? ? ?]. simpl. by rewrite app_nil_r. }
  split.
  - intros commands Hall. rewrite Hhead. clear Hhead Hc.
    revert s. induction Hall as [|command commands Hok _ IH]; intros s.
    + simpl. unfold SandboxManager.ret. by rewrite Hstate.
    + simpl. unfold SandboxManager.bind. rewrite call_ok by done.
      rewrite IH. simpl. by rewrite <- app_assoc.
  - intros ran failing rest Hall Hfail. rewrite Hhead. clear Hhead Hc.
    revert s. induction Hall as [|command commands Hok _ IH]; intros s.
    + simpl. unfold SandboxManager.bind. by rewrite call_failed by done.
    + simpl. unfold SandboxManager.bind. rewrite call_ok by done.
      rewrite IH. simpl. by rewrite <- app_assoc.
Qed.

Lemma runPostCreateCommands_stops_at_failure_witness :
  SandboxManager.runPostCreateCommands Samples.no_tests "a"
    (["make"] ++ "make test" :: ["make install"])
    (SandboxManager.new Samples.disk_two)
  = (Throw (SystemError "host"),
     {| SandboxManager.fs := SandboxManager.fs (SandboxManager.new Samples.disk_two);
        SandboxManager.mcpProxy :=
          SandboxManager.mcpProxy (SandboxManager.new Samples.disk_two);
        SandboxManager.trace :=
          SandboxManager.trace (SandboxManager.new Samples.disk_two)
          ++ map (Host.Exec "c-a") (["make"] ++ ["make test"]) |}).
Proof.
  apply (proj2 (runPostCreateCommands_stops_at_failure Samples.no_tests "a"
                  (SandboxManager.new Samples.disk_two) Examples.record_a "c-a"
                  ltac:(vm_compute; reflexivity) eq_refl ltac:(discriminate))).
  - repeat constructor.
  - reflexivity.
Defined.

Section LateChecks.

Import SandboxManager Spec.

Lemma parseMemory_Return s n : parseMemory s = Return n → Memory.grammar s.
Proof.
  unfold parseMemory.
  destruct (Memory.match_memory s) as [[ds u]|] eqn:Hm; [|done].
  intros _. exists ds, u. by apply match_memory_Some.
Qed.

Lemma parseMemory_Throw s :
  ¬ Memory.grammar s →
  parseMemory s = Throw (Error [Lit "Invalid memory format: "; Lit s]).
Proof.
  intros Hs. unfold parseMemory.
  destruct (Memory.match_memory s) as [[ds u]|] eqn:Hm; [|done].
  destruct Hs. exists ds, u. by apply match_memory_Some.
Qed.

Lemma fails_bind {A B} (m : M A) (k : A → M B) :
  (∀ a, Behaviour.fails (k a)) → Behaviour.fails (bind m k).
Proof.
  intros Hk s. unfold bind. destruct (m s) as [[a|e] s1]; [apply Hk|done].
Qed.

Lemma fails_bind_throw {A B} e (k : A → M B) : Behaviour.fails (bind (lift (Throw e)) k).
Proof. by intros s. Qed.

Lemma keeps_bind_throw I {A B} e (k : A → M B) : keeps I (bind (lift (Throw e)) k).
Proof. intros s. apply rewrites_refl. Qed.

Lemma rewrites_nothing d d' :
  rewrites (λ _, False) d d' → Host.configs d' = Host.configs d.
Proof.
  intros H. apply map_eq. intros i. by destruct (H i) as [?|(? & [] & _)].
Qed.

End LateChecks.

(** X19.  [createSandbox] looks at the memory limit only when it is about to
    create the container.  With a limit that is not in the grammar it always
    throws and never writes a record; and when the host lets every call
    succeed, it throws [Invalid memory format] only after it has made the
    sandbox directory and built the image, which is the last thing it does:
    no container is created, and nothing is removed. *)
Theorem createSandbox_checks_memory_late :
  ∀ h config template s,
    ¬ Memory.grammar (res_memory (resources config)) →
    throws (SandboxManager.createSandbox h config template s).1 = true
    ∧ Host.configs
        (SandboxManager.fs (SandboxManager.createSandbox h config template s).2)
      = Host.configs (SandboxManager.fs s)
    ∧ (Behaviour.free (SandboxManager.fs s) = true →
       (∀ e, Host.succeeds h e = true) →
       (SandboxManager.createSandbox h config template s).1
       = Throw (Error [Lit "Invalid memory format: ";
                       Lit (res_memory (resources config))])
       ∧ ∃ before,
           SandboxManager.trace (SandboxManager.createSandbox h config template s).2
           = SandboxManager.trace s
             ++ before
             ++ [Host.BuildImage (Host.SandboxDir (id config))
                   ("dcsandbox:" +:+ id config)]).
Proof.
  intros h config template s Hbad.
  pose proof (parseMemory_Throw _ Hbad) as Hparse.
  split; [|split].
  - unfold SandboxManager.createSandbox. rewrite Hparse.
    do 7 (apply fails_bind; intros _). apply fails_bind_throw.
  - apply rewrites_nothing. revert s.
    change (Spec.keeps (λ _, False) (SandboxManager.createSandbox h config template)).
    unfold SandboxManager.createSandbox. rewrite Hparse.
    do 2 (apply keeps_bind; [by apply keeps_call_quiet|intros _]).
    apply keeps_bind;
      [destruct (git config) as [[? ? [cp|]]|]; try destruct (negb _);
       by apply keeps_call_quiet|intros _].
    do 4 (apply keeps_bind; [by apply keeps_call_quiet|intros _]).
    apply keeps_bind_throw.
  - intros Hfree Hall.
    unfold SandboxManager.createSandbox. rewrite Hparse.
    assert (Hws : ∃ e,
      match git config with
      | Some {| git_clonePath := Some clonePath |} =>
          if negb (String.eqb clonePath "") then
            SandboxManager.call h
              (Host.CopyDirectory clonePath (Host.Workspace (id config)))
          else SandboxManager.call h (Host.Mkdir (Host.Workspace (id config)))
      | _ => SandboxManager.call h (Host.Mkdir (Host.Workspace (id config)))
      end = SandboxManager.call h e
      ∧ (e = Host.Mkdir (Host.Workspace (id config))
         ∨ ∃ clonePath, e = Host.CopyDirectory clonePath (Host.Workspace (id config)))).
    { destruct (git config) as [[? ? [cp|]]|]; simpl; try destruct (negb _);
        eexists; (split; [reflexivity|]); eauto. }
    destruct Hws as (ews & -> & Hews).
    unfold SandboxManager.bind, SandboxManager.call, SandboxManager.lift,
      Behaviour.free in *.
    rewrite !Hall. destruct s as [[dir configs] proxy trace]. simpl in *.
    destruct dir; [| done | |]; simpl.
    all: destruct Hews as [->|[cp ->]]; simpl.
    all: try (case_bool_decide; simpl).
    all: split; [reflexivity|]; rewrite <- !app_assoc; simpl.
    all: by eexists [_; _; _; _; _; _].
Qed.

Lemma createSandbox_checks_memory_late_witness :
  throws (SandboxManager.createSandbox Examples.willing Samples.two_gigabytes
            Examples.base_template (SandboxManager.new Examples.disk_empty)).1
  = true
  ∧ Host.configs
      (SandboxManager.fs
         (SandboxManager.createSandbox Examples.willing Samples.two_gigabytes
            Examples.base_template (SandboxManager.new Examples.disk_empty)).2)
    = Host.configs (SandboxManager.fs (SandboxManager.new Examples.disk_empty)).
Proof.
  destruct (createSandbox_checks_memory_late Examples.willing Samples.two_gigabytes
              Examples.base_template (SandboxManager.new Examples.disk_empty))
    as (Hthrows & Hconfigs & _).
  - intros (ds & u & Heq & Hne & Hds & Hu).
    pose proof (match_memory_grammar ds u Hne Hds Hu) as Hm.
    rewrite <- Heq in Hm. vm_compute in Hm. discriminate.
  - split; [exact Hthrows|exact Hconfigs].
Defined.

Section Order.

Import SandboxManager Spec.

Lemma newest_first_insert x l :
  is_Some (created x) → Forall (λ c, is_Some (created c)) l →
  Behaviour.newest_first l →
  Behaviour.newest_first (insert_sorted by_created x l).
Proof.
  intros [tx Hx] Hvalid. induction l as [|y l IH]; simpl; [done|].
  intros [Hy Hl]. apply Forall_cons in Hvalid as [[ty Hty] Hvalid].
  unfold after, by_created. rewrite Hty, Hx.
  destruct (0 <? tx - ty) eqn:Hcmp; simpl.
  - apply Z.ltb_lt in Hcmp. split; [|done]. constructor.
    + exists tx, ty. split_and!; [done|done|lia].
    + eapply Forall_impl; [exact Hy|].
      intros z (ty' & tz & Hty' & Hz & Hle). exists tx, tz.
      split_and!; [done|done|]. rewrite Hty in Hty'. injection Hty' as <-. lia.
  - apply Z.ltb_ge in Hcmp. split; [|by apply IH].
    rewrite insert_sorted_perm. constructor; [|done].
    exists ty, tx. split_and!; [done|done|lia].
Qed.

Lemma newest_first_sort l :
  Forall (λ c, is_Some (created c)) l →
  Behaviour.newest_first (sort by_created l).
Proof.
  unfold sort.
  assert (H : ∀ acc,
    Forall (λ c, is_Some (created c)) acc → Behaviour.newest_first acc →
    Forall (λ c, is_Some (created c)) l →
    Behaviour.newest_first
      (fold_left (λ sorted x, insert_sorted by_created x sorted) l acc)).
  { induction l as [|x l IH]; intros acc Hacc Hsorted Hl; simpl; [done|].
    apply Forall_cons in Hl as [Hx Hl]. apply IH; [|by apply newest_first_insert|done].
    rewrite insert_sorted_perm. by constructor. }
  intros Hl. by apply H.
Qed.

End Order.

(** X20.  [listSandboxes] returns the records newest first: no record is
    listed before one that was created later.  (The records read must have
    valid dates; the comparator subtracts their time values.) *)
Theorem listSandboxes_newest_first :
  ∀ h s listed,
    (∀ entry c,
       Spec.record_at (SandboxManager.fs s) entry = Some c → is_Some (created c)) →
    (SandboxManager.listSandboxes h s).1 = Return listed →
    Behaviour.newest_first listed.
Proof.
  intros h s listed Hvalid. rewrite listSandboxes_run. intros [= <-].
  destruct (_ || _); [done|].
  destruct (Host.sandboxes (SandboxManager.fs s)) as [| | |names]; try done.
  apply newest_first_sort. rewrite Forall_forall. intros c Hc.
  apply list_elem_of_omap in Hc as (entry & _ & Hc). by apply (Hvalid entry).
Qed.

Lemma listSandboxes_newest_first_witness :
  Behaviour.newest_first [Samples.record_b; Examples.record_a].
Proof.
  apply (listSandboxes_newest_first Examples.willing
           (SandboxManager.new Samples.disk_two)).
  - intros entry c Hc. pose proof (disk_two_filed entry c Hc) as Hid.
    unfold Spec.record_at in Hc. simpl in Hc.
    destruct (decide (entry = "a")) as [->|Ha].
    { rewrite lookup_insert_eq in Hc. injection Hc as <-. by eexists. }
    rewrite lookup_insert_ne in Hc by done.
    destruct (decide (entry = "b")) as [->|Hb].
    { rewrite lookup_insert_eq in Hc. injection Hc as <-. by eexists. }
    rewrite lookup_insert_ne in Hc by done. by rewrite lookup_empty in Hc.
  - vm_compute. reflexivity.
Defined.

Section Frames.

Import SandboxManager Spec.

Lemma same_disk_bind {A B} (m : M A) (k : A → M B) :
  Behaviour.same_disk m → (∀ a, Behaviour.same_disk (k a)) → Behaviour.same_disk (bind m k).
Proof.
  intros Hm Hk s. unfold bind. specialize (Hm s).
  destruct (m s) as [[a|e] s1]; simpl in *; [|done]. by rewrite Hk.
Qed.

Lemma same_disk_try_catch {A} (body : M A) handler :
  Behaviour.same_disk body → (∀ e, Behaviour.same_disk (handler e)) → Behaviour.same_disk (try_catch body handler).
Proof.
  intros Hm Hk s. unfold try_catch. specialize (Hm s).
  destruct (body s) as [[a|e] s1]; simpl in *; [done|]. by rewrite Hk.
Qed.

Lemma same_disk_call h e : (∀ d, Host.apply e d = d) → Behaviour.same_disk (call h e).
Proof. intros He s. unfold call. destruct (_ || _); simpl; [done|apply He]. Qed.

Lemma same_disk_ret {A} (a : A) : Behaviour.same_disk (ret a).
Proof. done. Qed.

Lemma same_disk_throw {A} e : Behaviour.same_disk (@throw A e).
Proof. done. Qed.

Lemma same_disk_getSandbox sandboxId : Behaviour.same_disk (getSandbox sandboxId).
Proof. intros s. by rewrite getSandbox_run. Qed.

Lemma same_proxy_bind {A B} (m : M A) (k : A → M B) :
  Behaviour.same_proxy m → (∀ a, Behaviour.same_proxy (k a)) → Behaviour.same_proxy (bind m k).
Proof.
  intros Hm Hk s. unfold bind. specialize (Hm s).
  destruct (m s) as [[a|e] s1]; simpl in *; [|done]. by rewrite Hk.
Qed.

Lemma same_proxy_try_catch {A} (body : M A) handler :
  Behaviour.same_proxy body → (∀ e, Behaviour.same_proxy (handler e)) →
  Behaviour.same_proxy (try_catch body handler).
Proof.
  intros Hm Hk s. unfold try_catch. specialize (Hm s).
  destruct (body s) as [[a|e] s1]; simpl in *; [done|]. by rewrite Hk.
Qed.

Lemma same_proxy_call h e : Behaviour.same_proxy (call h e).
Proof. intros s. unfold call. by destruct (_ || _). Qed.

Lemma same_proxy_ret {A} (a : A) : Behaviour.same_proxy (ret a).
Proof. done. Qed.

Lemma same_proxy_throw {A} e : Behaviour.same_proxy (@throw A e).
Proof. done. Qed.

Lemma same_proxy_lift {A} (c : completion A) : Behaviour.same_proxy (lift c).
Proof. done. Qed.

Lemma same_proxy_cloneRepository h url branch sandboxId :
  Behaviour.same_proxy (GitManager.cloneRepository h url branch sandboxId).
Proof.
  unfold GitManager.cloneRepository.
  repeat first
    [ apply same_proxy_call | apply same_proxy_ret | apply same_proxy_throw
    | apply same_proxy_bind; [|intros ?]
    | apply same_proxy_try_catch; [|intros ?] ].
Qed.

Lemma same_proxy_resolve h options : Behaviour.same_proxy (Create.resolve h options).
Proof.
  unfold Create.resolve. destruct (truthy_string (opt_git options)).
  - apply same_proxy_bind; [apply same_proxy_cloneRepository|].
    intros clonePath. destruct (_ || _); apply same_proxy_ret.
  - apply same_proxy_ret.
Qed.

Lemma same_disk_setupMCP sandboxId : Behaviour.same_disk (setupMCP sandboxId).
Proof.
  unfold setupMCP. apply same_disk_bind; [apply same_disk_getSandbox|].
  intros [c|]; [|apply same_disk_throw].
  destruct (truthy_int (mcpPort c)); [|apply same_disk_throw]. by intros s.
Qed.

Lemma same_disk_runPostCreateCommands h sandboxId commands :
  Behaviour.same_disk (runPostCreateCommands h sandboxId commands).
Proof.
  unfold runPostCreateCommands. apply same_disk_bind; [apply same_disk_getSandbox|].
  intros [c|]; [|apply same_disk_throw].
  destruct (truthy_string (containerId c)); [|apply same_disk_throw].
  induction commands as [|command commands IH]; simpl; [apply same_disk_ret|].
  apply same_disk_bind; [by apply same_disk_call|]. intros _. apply IH.
Qed.

Lemma same_disk_getSandboxInfo h sandboxId : Behaviour.same_disk (getSandboxInfo h sandboxId).
Proof.
  unfold getSandboxInfo. apply same_disk_bind; [apply same_disk_getSandbox|].
  intros [c|]; [|apply same_disk_ret].
  apply same_disk_bind; [|intros; apply same_disk_ret].
  destruct (truthy_string (containerId c)); [|apply same_disk_ret].
  apply same_disk_try_catch; [|intros; apply same_disk_ret].
  apply same_disk_bind; [by apply same_disk_call|]. intros _. apply same_disk_ret.
Qed.

Lemma same_proxy_run {A} (m : M A) s r s' :
  Behaviour.same_proxy m → m s = (r, s') → mcpProxy s' = mcpProxy s.
Proof. intros Hm Hrun. specialize (Hm s). by rewrite Hrun in Hm. Qed.

Lemma same_disk_run {A} (m : M A) s r s' :
  Behaviour.same_disk m → m s = (r, s') → fs s' = fs s.
Proof. intros Hm Hrun. specialize (Hm s). by rewrite Hrun in Hm. Qed.

(** A run of [createSandbox] that returns. *)
Lemma createSandbox_Return h config template s sandbox s' :
  createSandbox h config template s = (Return sandbox, s') →
  ∃ d,
    sandbox = with_container config (Host.container_id h ("dcsandbox-" +:+ id config))
    ∧ fs s' = Host.apply (save_of sandbox) d
    ∧ mcpProxy s' = mcpProxy s.
Proof.
  unfold createSandbox. intros Hrun.
  apply bind_Return in Hrun as ([] & s1 & H1 & Hrun).
  apply bind_Return in Hrun as ([] & s2 & H2 & Hrun).
  apply bind_Return in Hrun as ([] & s3 & H3 & Hrun).
  apply bind_Return in Hrun as ([] & s4 & H4 & Hrun).
  apply bind_Return in Hrun as ([] & s5 & H5 & Hrun).
  apply bind_Return in Hrun as ([] & s6 & H6 & Hrun).
  apply bind_Return in Hrun as ([] & s7 & H7 & Hrun).
  apply bind_Return in Hrun as (memory & s8 & H8 & Hrun).
  apply bind_Return in Hrun as ([] & s9 & H9 & Hrun).
  apply bind_Return in Hrun as ([] & s10 & H10 & Hrun).
  injection Hrun as <- <-.
  apply call_Return in H10 as (_ & _ & ->).
  exists (fs s9). split; [done|]. split; [done|]. simpl.
  apply (same_proxy_run _ _ _ _ (same_proxy_call _ _)) in H1, H2, H4, H5, H6, H7, H9.
  apply (same_proxy_run _ _ _ _ (same_proxy_lift _)) in H8.
  assert (Hws : mcpProxy s3 = mcpProxy s2).
  { destruct (git config) as [[? ? [cp|]]|]; try destruct (negb _);
      by apply (same_proxy_run _ _ _ _ (same_proxy_call _ _)) in H3. }
  congruence.
Qed.

End Frames.

(** X21.  [create] never throws: it returns, or it ends the process with
    exit code 1.  When it returns (on the manager it has just built), the
    sandbox has a record under its id with the name and template that were
    chosen and, as its date, the time at which the configuration was built
    (another reading of the clock than the one that a made-up name
    carries); the record is [running], names the container that the runtime
    created, and carries port 50000. *)
Theorem createCommand_completed :
  (∀ h options s,
     ∃ out s', Create.createCommand h options s = (Return out, s')
               ∧ (out = Create.Completed ∨ out = Create.Exit 1))
  ∧ (∀ h options d s',
       Create.createCommand h options (SandboxManager.new d)
       = (Return Create.Completed, s') →
       ∃ c,
         Spec.record_at (SandboxManager.fs s') (Create.sandboxId h) = Some c
         ∧ id c = Create.sandboxId h
         ∧ name c = Create.sandboxName h options
         ∧ created c = Some (Host.clock h)
         ∧ template c = Spec.chosen_template h options
         ∧ status c = running
         ∧ containerId c
           = Some (Host.container_id h ("dcsandbox-" +:+ Create.sandboxId h))
         ∧ mcpPort c = Some 50000).
Proof.
  split.
  - intros h options s. unfold Create.createCommand, SandboxManager.try_catch.
    destruct (SandboxManager.bind _ _ s) as [[out|e] s1] eqn:Hbody;
      [|eexists _, _; split; [reflexivity|by right]].
    exists out, s1. split; [done|].
    apply bind_Return in Hbody as (chosen & s2 & _ & Hbody).
    destruct (Host.templates h chosen.1) as [templateConfig|]; [|done].
    apply bind_Return in Hbody as (sandbox & s3 & _ & Hbody).
    unfold Create.bring_up in Hbody.
    apply bind_Return in Hbody as (? & ? & _ & Hbody).
    apply bind_Return in Hbody as (? & ? & _ & Hbody).
    apply bind_Return in Hbody as (? & ? & _ & Hbody).
    apply bind_Return in Hbody as (info & ? & _ & Hbody).
    destruct info; [|done]. injection Hbody as <- _. by left.
  - intros h options d s' Hrun.
    unfold Create.createCommand, SandboxManager.try_catch in Hrun.
    destruct (SandboxManager.bind _ _ (SandboxManager.new d)) as [[out|e] s1] eqn:Hbody;
      [|done].
    injection Hrun as -> ->.
    apply bind_Return in Hbody as (chosen & s2 & Hresolve & Hbody).
    assert (Htemplate : chosen.1 = Spec.chosen_template h options).
    { destruct (resolve_emits h options (SandboxManager.new d))
        as (evs & _ & _ & Hchosen).
      rewrite Hresolve in Hchosen. by destruct (Hchosen chosen eq_refl). }
    apply (same_proxy_run _ _ _ _ (same_proxy_resolve _ _)) in Hresolve.
    destruct (Host.templates h chosen.1) as [templateConfig|]; [|done].
    apply bind_Return in Hbody as (sandbox & s3 & Hcreate & Hbody).
    apply createSandbox_Return in Hcreate as (d' & -> & Hfs3 & Hproxy3).
    unfold Create.bring_up in Hbody.
    apply bind_Return in Hbody as ([] & s4 & Hstart & Hbody).
    apply bind_Return in Hbody as ([] & s5 & Hsetup & Hbody).
    apply bind_Return in Hbody as ([] & s6 & Hpost & Hbody).
    apply bind_Return in Hbody as (info & s7 & Hinfo & Hend).
    assert (s7 = s') as -> by (destruct info; [by injection Hend|done]).
    apply (same_disk_run _ _ _ _ (same_disk_getSandboxInfo _ _)) in Hinfo.
    assert (Hfs6 : SandboxManager.fs s6 = SandboxManager.fs s5).
    { destruct (tpl_postCreate templateConfig) as [[|c cs]|];
        try by injection Hpost as <-.
      by apply (same_disk_run _ _ _ _ (same_disk_runPostCreateCommands _ _ _)) in Hpost. }
    apply (same_disk_run _ _ _ _ (same_disk_setupMCP _)) in Hsetup.
    apply startSandbox_Return in Hstart
      as (c & cid & port & proxy & Hc & _ & _ & Halloc & _ & ->).
    rewrite Hproxy3, Hresolve in Halloc. simpl in Halloc, Hc.
    assert (Hport : (MCPProxy.allocatePort MCPProxy.new).1 = Return 50000).
    { apply allocatePort_first_free; simpl; [lia|set_solver|intros; lia]. }
    rewrite Halloc in Hport. simpl in Hport. injection Hport as ->.
    set (config := Create.sandboxConfig h options chosen.1 chosen.2 templateConfig) in *.
    set (saved := SandboxManager.with_container config
                    (Host.container_id h ("dcsandbox-" +:+ id config))) in *.
    rewrite Hfs3 in Hc. rewrite (record_at_saved saved) in Hc. injection Hc as <-.
    exists (Host.stored (SandboxManager.started (Host.stored saved) 50000)).
    rewrite Hinfo, Hfs6, Hsetup. simpl.
    split; [|by rewrite Htemplate].
    apply (record_at_saved (SandboxManager.started (Host.stored saved) 50000)).
Qed.

Lemma createCommand_completed_witness :
  ∃ c,
    Spec.record_at (SandboxManager.fs Examples.create_run.2)
      (Create.sandboxId Examples.willing) = Some c
    ∧ id c = Create.sandboxId Examples.willing
    ∧ name c = Create.sandboxName Examples.willing Examples.create_from_git
    ∧ created c = Some (Host.clock Examples.willing)
    ∧ template c = Spec.chosen_template Examples.willing Examples.create_from_git
    ∧ status c = running
    ∧ containerId c
      = Some (Host.container_id Examples.willing
                ("dcsandbox-" +:+ Create.sandboxId Examples.willing))
    ∧ mcpPort c = Some 50000.
Proof.
  apply (proj2 createCommand_completed Examples.willing Examples.create_from_git
           Examples.disk_empty).
  vm_compute. reflexivity.
Defined.

Section Templates.

Import TemplateManager.

(** What [isValidTemplate] accepts. *)
Lemma isValidTemplate_true v :
  isValidTemplate v = Return true →
  ∃ fields name baseImage features mcpServers,
    v = Obj fields
    ∧ fields !! "name" = Some (Str name)
    ∧ fields !! "baseImage" = Some (Str baseImage)
    ∧ fields !! "features" = Some (Arr features)
    ∧ fields !! "mcpServers" = Some (Arr mcpServers).
Proof.
  unfold isValidTemplate.
  destruct v as [| | | | |items|fields]; simpl; try done.
  unfold default.
  destruct (fields !! "name") as [[| | | |name| |]|] eqn:Hn; simpl; try done.
  destruct (fields !! "baseImage") as [[| | | |baseImage| |]|] eqn:Hb;
    simpl; try done.
  destruct (fields !! "features") as [[| | | | |features|]|] eqn:Hf;
    simpl; try done.
  destruct (fields !! "mcpServers") as [[| | | | |mcpServers|]|] eqn:Hm;
    simpl; try done.
  intros _. by exists fields, name, baseImage, features, mcpServers.
Qed.

Lemma isValidTemplate_to_value template :
  isValidTemplate (to_value template) = Return true.
Proof.
  unfold isValidTemplate, to_value, obj. cbn [typeof_object negb get].
  cbn [app list_to_map foldr fst snd uncurry].
  rewrite lookup_insert_eq. simpl.
  rewrite lookup_insert_ne by done. rewrite lookup_insert_eq. simpl.
  do 2 rewrite lookup_insert_ne by done. rewrite lookup_insert_eq. simpl.
  do 3 rewrite lookup_insert_ne by done. rewrite lookup_insert_eq. done.
Qed.

Lemma loadTemplate_Some baseDir name v :
  loadTemplate baseDir name = Some v →
  parseFile baseDir name = Return v ∧ isValidTemplate v = Return true.
Proof.
  unfold loadTemplate, validated.
  destruct (parseFile baseDir name) as [parsed|]; simpl; [|done].
  destruct (isValidTemplate parsed) as [[]|] eqn:Hvalid; simpl; try done.
  by intros [= <-].
Qed.


Lemma append_inj_l a b suffix : a +:+ suffix = b +:+ suffix → a = b.
Proof.
  intros Heq.
  assert (Hlen : String.length a = String.length b).
  { apply (f_equal String.length) in Heq. rewrite !length_append in Heq. lia. }
  revert b Heq Hlen. induction a as [|c a IH]; intros [|c' b] Heq Hlen; try done.
  rewrite !append_cons in Heq. injection Heq as -> Heq.
  f_equal. apply IH; [done|]. simpl in Hlen. lia.
Qed.

Lemma loadTemplate_written_ne files name other template :
  other ≠ name →
  loadTemplate (Dir (<[name +:+ ".yaml" := Yaml (to_value template)]> files)) other
  = loadTemplate (Dir files) other.
Proof.
  intros Hne. unfold loadTemplate, validated, parseFile.
  rewrite lookup_insert_ne; [done|]. intros Heq. apply Hne.
  by apply append_inj_l in Heq.
Qed.


End Templates.

(** X22.  [getTemplate] never throws, and what it returns has passed
    [isValidTemplate]: it is an object with a string [name], a string
    [baseImage] and arrays [features] and [mcpServers], read from the file
    [<name>.yaml] of the custom or of the built-in directory.  A custom file
    that cannot be read, is not YAML or is not such an object does not hide
    the built-in template of the same name. *)
Theorem getTemplate_only_valid :
  (∀ this name v,
     TemplateManager.getTemplate this name = Some v →
     (∃ fields name' baseImage features mcpServers,
        v = Obj fields
        ∧ fields !! "name" = Some (Str name')
        ∧ fields !! "baseImage" = Some (Str baseImage)
        ∧ fields !! "features" = Some (Arr features)
        ∧ fields !! "mcpServers" = Some (Arr mcpServers))
     ∧ (TemplateManager.parseFile (TemplateManager.templatesDir this) name = Return v
        ∨ TemplateManager.parseFile (TemplateManager.builtinTemplatesDir this) name
          = Return v))
  ∧ (∀ this name custom,
       TemplateManager.parseFile (TemplateManager.templatesDir this) name = custom →
       (∀ v, custom = Return v → TemplateManager.isValidTemplate v ≠ Return true) →
       TemplateManager.getTemplate this name
       = TemplateManager.loadTemplate (TemplateManager.builtinTemplatesDir this) name).
Proof.
  split.
  - intros this name v. unfold TemplateManager.getTemplate.
    destruct (TemplateManager.loadTemplate (TemplateManager.templatesDir this) name)
      as [custom|] eqn:Hcustom.
    + intros [= <-]. apply loadTemplate_Some in Hcustom as [Hfile Hvalid].
      split; [by apply isValidTemplate_true|by left].
    + intros Hbuiltin. apply loadTemplate_Some in Hbuiltin as [Hfile Hvalid].
      split; [by apply isValidTemplate_true|by right].
  - intros this name custom Hfile Hinvalid. unfold TemplateManager.getTemplate.
    destruct (TemplateManager.loadTemplate (TemplateManager.templatesDir this) name)
      as [v|] eqn:Hcustom; [|done].
    apply loadTemplate_Some in Hcustom as [Hfile' Hvalid].
    destruct (Hinvalid v); congruence.
Qed.

Lemma getTemplate_only_valid_witness :
  ∃ fields name' baseImage features mcpServers,
    TemplateManager.to_value Examples.base_template = Obj fields
    ∧ fields !! "name" = Some (Str name')
    ∧ fields !! "baseImage" = Some (Str baseImage)
    ∧ fields !! "features" = Some (Arr features)
    ∧ fields !! "mcpServers" = Some (Arr mcpServers).
Proof.
  apply (proj1 (proj1 getTemplate_only_valid
                  (TemplateManager.saveTemplate Samples.writable_templates "mine"
                     Examples.base_template Samples.no_templates).2
                  "mine" (TemplateManager.to_value Examples.base_template)
                  eq_refl)).
Defined.



Section BuiltinFiles.

Import TemplateManager.

Lemma writeAll_Return h templates :
  ∀ this this' files,
    builtinTemplatesDir this = Dir files →
    writeAll h templates this = (Return tt, this') →
    this' = {| templatesDir := templatesDir this;
               builtinTemplatesDir := Dir (Behaviour.written files templates) |}.
Proof.
  induction templates as [|[name template] templates IH];
    intros this this' files Hdir; simpl.
  - intros [= <-]. destruct this. simpl in *. by subst.
  - unfold writeFile. simpl. rewrite Hdir.
    destruct (succeeds h _); [|done]. intros Hrest.
    by apply (IH _ _ (<[name +:+ ".yaml" := Yaml (to_value template)]> files))
      in Hrest.
Qed.

Lemma written_other files templates fileName :
  (∀ name, name ∈ templates.*1 → fileName ≠ name +:+ ".yaml") →
  Behaviour.written files templates !! fileName = files !! fileName.
Proof.
  revert files. induction templates as [|[name template] templates IH];
    intros files Hother; simpl; [done|].
  rewrite IH.
  - apply lookup_insert_ne. intros Heq. apply (Hother name); [|done].
    apply list_elem_of_here.
  - intros n Hn. apply Hother. by apply list_elem_of_further.
Qed.

Lemma written_lookup files templates name template :
  NoDup templates.*1 → (name, template) ∈ templates →
  Behaviour.written files templates !! (name +:+ ".yaml") = Some (Yaml (to_value template)).
Proof.
  revert files. induction templates as [|[n t] templates IH];
    intros files Hnodup Hin; [by apply elem_of_nil in Hin|].
  apply NoDup_cons in Hnodup as [Hfresh Hnodup]. simpl.
  apply elem_of_cons in Hin as [[= -> ->]|Hin].
  - rewrite written_other; [apply lookup_insert_eq|].
    intros other Hother Heq. apply append_inj_l in Heq. by subst.
  - by apply IH.
Qed.

Lemma builtin_names_NoDup : NoDup Behaviour.builtin_names.
Proof. apply (bool_decide_unpack _). vm_compute. exact I. Qed.

End BuiltinFiles.

(** X24.  Once [createBuiltinTemplates] has returned, each of the eight
    built-in definitions is loaded from the built-in directory under its
    name, and the custom directory is as it was.  If there was no built-in
    directory before, then among the names that are one path segment these
    eight are the only ones it answers: [java], [ruby], [php] and [dotnet],
    which the project detector can name, are not among them.  (A name such
    as [./base] is another spelling of the file of [base].) *)
Theorem createBuiltinTemplates_then_loadTemplate :
  ∀ h this this',
    TemplateManager.createBuiltinTemplates h this = (Return tt, this') →
    TemplateManager.templatesDir this' = TemplateManager.templatesDir this
    ∧ (∀ name template,
         (name, template) ∈ TemplateManager.getBuiltinTemplateDefinitions →
         TemplateManager.loadTemplate (TemplateManager.builtinTemplatesDir this') name
         = Some (TemplateManager.to_value template))
    ∧ (TemplateManager.builtinTemplatesDir this = TemplateManager.Missing →
       ∀ name,
         Behaviour.segment name = true →
         name ∉ Behaviour.builtin_names →
         TemplateManager.loadTemplate (TemplateManager.builtinTemplatesDir this') name
         = None).
Proof.
  intros h this this'.
  unfold TemplateManager.createBuiltinTemplates, TemplateManager.mkdir.
  cbn [TemplateManager.at_].
  assert (Hloaded : ∀ files name template,
    (name, template) ∈ TemplateManager.getBuiltinTemplateDefinitions →
    TemplateManager.loadTemplate
      (TemplateManager.Dir
         (Behaviour.written files TemplateManager.getBuiltinTemplateDefinitions)) name
    = Some (TemplateManager.to_value template)).
  { intros files name template Hin.
    unfold TemplateManager.loadTemplate, TemplateManager.validated,
      TemplateManager.parseFile.
    rewrite (written_lookup _ _ _ _ builtin_names_NoDup Hin). simpl.
    by rewrite isValidTemplate_to_value. }
  destruct (TemplateManager.builtinTemplatesDir this) as [| |files] eqn:Hdir;
    [| done |].
  - destruct (TemplateManager.succeeds h _); [|done]. intros Hwrite.
    apply (writeAll_Return _ _ _ _ ∅) in Hwrite; [|done]. subst this'.
    cbn [TemplateManager.templatesDir TemplateManager.builtinTemplatesDir
         TemplateManager.put].
    split; [done|]. split; [by apply Hloaded|].
    intros _ name _ Hname.
    unfold TemplateManager.loadTemplate, TemplateManager.validated,
      TemplateManager.parseFile.
    rewrite written_other; [by rewrite lookup_empty|].
    intros other Hother Heq. apply append_inj_l in Heq. by subst.
  - destruct (TemplateManager.succeeds h _); [|done]. intros Hwrite.
    apply (writeAll_Return _ _ _ _ files) in Hwrite; [|done]. subst this'.
    cbn [TemplateManager.templatesDir TemplateManager.builtinTemplatesDir
         TemplateManager.put].
    split; [done|]. split; [by apply Hloaded|done].
Qed.

Lemma createBuiltinTemplates_then_loadTemplate_witness :
  TemplateManager.loadTemplate
    (TemplateManager.builtinTemplatesDir
       (TemplateManager.createBuiltinTemplates Samples.writable_templates
          Samples.no_templates).2) "java"
  = None.
Proof.
  apply (proj2 (proj2 (createBuiltinTemplates_then_loadTemplate
                         Samples.writable_templates Samples.no_templates _ eq_refl))).
  - reflexivity.
  - reflexivity.
  - intros Hin. unfold Behaviour.builtin_names in Hin. simpl in Hin. unlisted Hin.
Defined.

Section Removing.

Import Removal.

Lemma state_eta (s : state) :
  {| fs := fs s; mcpProxy := mcpProxy s; trace := trace s ++ [] |} = s.
Proof. destruct s. simpl. by rewrite app_nil_r. Qed.

Lemma inner_getSandbox sandboxId s :
  inner (SandboxManager.getSandbox sandboxId) s
  = (Return (Spec.record_at (fs s) sandboxId), s).
Proof. unfold inner. rewrite getSandbox_run. simpl. by rewrite state_eta. Qed.

(** A sandbox at rest is removed without a throw, whatever the host
    does. *)
Lemma removeSandbox_at_rest h sandboxId s c :
  Spec.record_at (fs s) sandboxId = Some c → status c ≠ running →
  removeSandbox h sandboxId s
  = (Return tt,
     {| fs := Behaviour.swept h sandboxId c (fs s);
        mcpProxy := mcpProxy s;
        trace := trace s ++ Behaviour.sweeping sandboxId c |}).
Proof.
  intros Hc Hrest. unfold removeSandbox, bind. rewrite inner_getSandbox, Hc.
  rewrite bool_decide_false by done. unfold ret at 1.
  unfold Behaviour.swept, Behaviour.sweeping, quietly, try_catch, removeContainer,
    rmSandboxDir, rmPath, log, ret.
  destruct s as [d proxy evs]. simpl.
  destruct (truthy_string (containerId c)); simpl;
    [destruct (removes h _); simpl|];
    (destruct (Host.succeeds (base h) _); simpl);
    (destruct (git c) as [[url branch [clonePath|]]|]; simpl;
     [destruct (negb (clonePath =? "")%string); simpl;
      [destruct (clears h clonePath); simpl|]| |]);
    by rewrite <- ?app_assoc, ?app_nil_r.
Qed.

Lemma record_at_without sandboxId d entry :
  Spec.record_at (without sandboxId d) entry
  = if decide (entry = sandboxId) then None else Spec.record_at d entry.
Proof.
  unfold Spec.record_at, without. simpl. destruct (decide _) as [->|Hne].
  - by rewrite lookup_delete_eq.
  - by rewrite lookup_delete_ne.
Qed.

Lemma record_at_cleared_None r d entry :
  Spec.record_at d entry = None → Spec.record_at (cleared r d) entry = None.
Proof.
  intros Hnone. destruct r as [|ids|]; simpl; [done| |done].
  induction ids as [|i ids IH]; simpl; [done|].
  rewrite record_at_without. by destruct (decide _).
Qed.

Lemma record_at_swept_gone h sandboxId c d :
  Host.succeeds (base h) (Host.Rm (Host.SandboxDir sandboxId)) = true →
  Spec.record_at (Behaviour.swept h sandboxId c d) sandboxId = None.
Proof.
  intros Hok. unfold Behaviour.swept. rewrite Hok.
  assert (Hgone : Spec.record_at (without sandboxId d) sandboxId = None).
  { rewrite record_at_without. by destruct (decide _). }
  destruct (git c) as [[url branch [clonePath|]]|]; try done.
  destruct (_ && _); [|done]. by apply record_at_cleared_None.
Qed.

End Removing.

(** X25.  [removeSandbox] throws [not found], and touches nothing, when the
    id has no usable record.  For a sandbox whose record is not [running] it
    never throws, whatever the host does: a container, a directory or a
    clone that cannot be removed is passed over in silence.  It stops no
    container, asks for the container, the directory and the clone to be
    removed, in this order, and when the directory could be removed the
    sandbox has no record any more. *)
Theorem removeSandbox_at_rest_returns :
  (∀ h sandboxId s,
     Spec.record_at (Removal.fs s) sandboxId = None →
     Removal.removeSandbox h sandboxId s
     = (Throw (Error [Lit "Sandbox "; Lit sandboxId; Lit " not found"]), s))
  ∧ (∀ h sandboxId s c,
       Spec.record_at (Removal.fs s) sandboxId = Some c →
       status c ≠ running →
       ∃ s',
         Removal.removeSandbox h sandboxId s = (Return tt, s')
         ∧ Removal.trace s' = Removal.trace s ++ Behaviour.sweeping sandboxId c
         ∧ Forall (λ ev, Behaviour.stops ev = false) (Behaviour.sweeping sandboxId c)
         ∧ (Host.succeeds (Removal.base h) (Host.Rm (Host.SandboxDir sandboxId)) = true →
            Removal.inner (SandboxManager.getSandbox sandboxId) s' = (Return None, s'))).
Proof.
  split.
  - intros h sandboxId s Hnone. unfold Removal.removeSandbox, Removal.bind.
    by rewrite inner_getSandbox, Hnone.
  - intros h sandboxId s c Hc Hrest. eexists. split; [by apply removeSandbox_at_rest|].
    split; [done|]. split.
    + unfold Behaviour.sweeping.
      destruct (truthy_string (containerId c));
        destruct (git c) as [[url branch [clonePath|]]|]; simpl;
        try destruct (negb (clonePath =? "")%string); by repeat constructor.
    + intros Hok. rewrite inner_getSandbox. simpl.
      by rewrite record_at_swept_gone.
Qed.

Lemma removeSandbox_at_rest_returns_witness :
  ∃ s',
    Removal.removeSandbox Samples.stubborn "b" (Removal.new Samples.disk_two)
    = (Return tt, s')
    ∧ Removal.trace s'
      = Removal.trace (Removal.new Samples.disk_two)
        ++ Behaviour.sweeping "b" Samples.record_b
    ∧ Forall (λ ev, Behaviour.stops ev = false)
        (Behaviour.sweeping "b" Samples.record_b)
    ∧ (Host.succeeds (Removal.base Samples.stubborn)
         (Host.Rm (Host.SandboxDir "b")) = true →
       Removal.inner (SandboxManager.getSandbox "b") s' = (Return None, s')).
Proof.
  apply (proj2 removeSandbox_at_rest_returns Samples.stubborn "b"
           (Removal.new Samples.disk_two) Samples.record_b).
  - vm_compute. reflexivity.
  - discriminate.
Defined.

Section Stopping.

Import Removal.

(** A run of [stopSandbox] inside a command. *)
Lemma inner_stopSandbox_Return h sandboxId s s' :
  inner (SandboxManager.stopSandbox h sandboxId) s = (Return tt, s') →
  ∃ c cid,
    Spec.record_at (fs s) sandboxId = Some c
    ∧ containerId c = Some cid ∧ cid ≠ ""
    ∧ s' = {| fs := Host.apply (Spec.save_of (SandboxManager.halted c)) (fs s);
              mcpProxy := if truthy_int (mcpPort c)
                          then MCPProxy.releasePort (default 0 (mcpPort c)) (mcpProxy s)
                          else mcpProxy s;
              trace := trace s
                       ++ [Call (Host.StopContainer cid);
                           Call (Spec.save_of (SandboxManager.halted c))] |}.
Proof.
  unfold inner.
  destruct (SandboxManager.stopSandbox h sandboxId _) as [r s1] eqn:Hstop.
  simpl. intros [= -> <-].
  apply stopSandbox_Return in Hstop as (c & cid & Hc & Hcid & Hne & ->).
  by exists c, cid.
Qed.

Lemma inner_stopSandbox_no_container h sandboxId s c :
  Spec.record_at (fs s) sandboxId = Some c →
  truthy_string (containerId c) = false →
  inner (SandboxManager.stopSandbox h sandboxId) s
  = (Throw (SandboxManager.not_found sandboxId), s).
Proof.
  intros Hc Hcid. unfold inner, SandboxManager.stopSandbox, SandboxManager.bind.
  rewrite getSandbox_run. simpl. rewrite Hc, Hcid. simpl. by rewrite state_eta.
Qed.

Lemma inner_stopSandbox_stuck h sandboxId s c cid :
  Spec.record_at (fs s) sandboxId = Some c →
  containerId c = Some cid → cid ≠ "" →
  Host.succeeds h (Host.StopContainer cid) = false →
  inner (SandboxManager.stopSandbox h sandboxId) s
  = (Throw (SystemError "host"), log (Call (Host.StopContainer cid)) s).
Proof.
  intros Hc Hcid Hne Hstop.
  unfold inner, SandboxManager.stopSandbox, SandboxManager.bind.
  rewrite getSandbox_run. simpl. rewrite Hc, Hcid. simpl.
  replace (cid =? "")%string with false by (symmetry; by apply String.eqb_neq).
  simpl. by rewrite call_failed by done.
Qed.

End Stopping.

(** X26.  [removeSandbox] stops a sandbox whose record is [running] before
    it removes anything, and gives up if that fails.  So a [running] record
    without a container id, or one whose container the runtime cannot stop,
    cannot be removed: the call throws, nothing is removed, and the record
    stays as it is. *)
Theorem removeSandbox_needs_stop :
  ∀ h sandboxId s c,
    Spec.record_at (Removal.fs s) sandboxId = Some c →
    status c = running →
    (truthy_string (containerId c) = false →
     Removal.removeSandbox h sandboxId s
     = (Throw (SandboxManager.not_found sandboxId), s))
    ∧ (∀ cid,
         containerId c = Some cid → cid ≠ "" →
         Host.succeeds (Removal.base h) (Host.StopContainer cid) = false →
         Removal.removeSandbox h sandboxId s
         = (Throw (SystemError "host"),
            Removal.log (Removal.Call (Host.StopContainer cid)) s)).
Proof.
  intros h sandboxId s c Hc Hrun. split.
  - intros Hcid. unfold Removal.removeSandbox, Removal.bind.
    rewrite inner_getSandbox, Hc, bool_decide_true by done.
    by rewrite (inner_stopSandbox_no_container _ _ _ c).
  - intros cid Hcid Hne Hstop. unfold Removal.removeSandbox, Removal.bind.
    rewrite inner_getSandbox, Hc, bool_decide_true by done.
    by rewrite (inner_stopSandbox_stuck _ _ _ c cid).
Qed.

Lemma removeSandbox_needs_stop_witness :
  Removal.removeSandbox Samples.unstoppable "a" (Removal.new Samples.disk_running)
  = (Throw (SystemError "host"),
     Removal.log (Removal.Call (Host.StopContainer "c-a"))
       (Removal.new Samples.disk_running)).
Proof.
  apply (proj2 (removeSandbox_needs_stop Samples.unstoppable "a"
                  (Removal.new Samples.disk_running)
                  (SandboxManager.started Examples.record_a 50000)
                  ltac:(vm_compute; reflexivity) eq_refl) "c-a").
  - reflexivity.
  - discriminate.
  - reflexivity.
Defined.

(** X27.  The [stop] command never throws.  It acts only on a sandbox whose
    record is [running]: for an id without a usable record, and for a record
    with status [creating] or [error], it ends the process with exit code 1,
    and for a [stopped] record it returns; in all these cases it issues no
    call and changes nothing.  When it returns for a [running] record, the
    container has been stopped and the record is [stopped] and has no
    port. *)
Theorem stopCommand_acts_on_running_only :
  (∀ h sandboxId s,
     ∃ out s', Removal.stopCommand h sandboxId s = (Return out, s'))
  ∧ (∀ h sandboxId s,
       Spec.record_at (Removal.fs s) sandboxId = None →
       Removal.stopCommand h sandboxId s = (Return (Create.Exit 1), s))
  ∧ (∀ h sandboxId s c,
       Spec.record_at (Removal.fs s) sandboxId = Some c →
       status c ≠ running →
       Removal.stopCommand h sandboxId s
       = (Return (if bool_decide (status c = stopped)
                  then Create.Completed else Create.Exit 1), s))
  ∧ (∀ h sandboxId s c s',
       Spec.record_at (Removal.fs s) sandboxId = Some c →
       status c = running →
       Removal.stopCommand h sandboxId s = (Return Create.Completed, s') →
       ∃ cid,
         containerId c = Some cid
         ∧ Removal.trace s'
           = Removal.trace s
             ++ [Removal.Call (Host.StopContainer cid);
                 Removal.Call (Spec.save_of (SandboxManager.halted c))]
         ∧ Spec.record_at (Removal.fs s') (id c)
           = Some (Host.stored (SandboxManager.halted c))).
Proof.
  split; [|split; [|split]].
  - intros h sandboxId s. unfold Removal.stopCommand, Removal.try_catch.
    destruct (Removal.bind _ _ s) as [[out|e] s1]; by eexists _, _.
  - intros h sandboxId s Hnone.
    unfold Removal.stopCommand, Removal.try_catch, Removal.bind.
    by rewrite inner_getSandbox, Hnone.
  - intros h sandboxId s c Hc Hrest.
    unfold Removal.stopCommand, Removal.try_catch, Removal.bind.
    rewrite inner_getSandbox, Hc.
    case_bool_decide; [done|]. by rewrite bool_decide_false by done.
  - intros h sandboxId s c s' Hc Hrun.
    unfold Removal.stopCommand, Removal.try_catch, Removal.bind.
    rewrite inner_getSandbox, Hc.
    rewrite bool_decide_false by (rewrite Hrun; discriminate).
    rewrite bool_decide_true by done. cbn [negb].
    destruct (Removal.inner (SandboxManager.stopSandbox (Removal.base h) sandboxId) s)
      as [[[]|e] s1] eqn:Hstop; [|by intros [=]].
    intros [= <-].
    apply inner_stopSandbox_Return in Hstop as (c' & cid & Hc' & Hcid & _ & ->).
    rewrite Hc in Hc'. injection Hc' as <-.
    exists cid. split; [done|]. split; [done|]. simpl.
    apply (record_at_saved (SandboxManager.halted c)).
Qed.

Lemma stopCommand_acts_on_running_only_witness :
  Removal.stopCommand Samples.helpful "b" (Removal.new Samples.disk_running)
  = (Return (if bool_decide (status Samples.record_b = stopped)
             then Create.Completed else Create.Exit 1),
     Removal.new Samples.disk_running).
Proof.
  apply (proj1 (proj2 (proj2 stopCommand_acts_on_running_only)) Samples.helpful "b"
           (Removal.new Samples.disk_running) Samples.record_b).
  - vm_compute. reflexivity.
  - discriminate.
Defined.

(** X28.  The [remove] command never throws.  Given [--force] and a sandbox
    whose record is [running] and carries, as its [id], the id that the
    command was given, a run that returns has stopped the container once,
    saved the record as [stopped], and then asked for the container, the
    directory and the clone to be removed; if the directory could be
    removed, the sandbox has no record any more.  Without [--force], an
    answer of no leaves everything as it is. *)
Theorem removeCommand_stops_once :
  (∀ h sandboxId options s,
     ∃ out s', Removal.removeCommand h sandboxId options s = (Return out, s'))
  ∧ (∀ h sandboxId s c s',
       Spec.record_at (Removal.fs s) sandboxId = Some c →
       id c = sandboxId →
       status c = running →
       Removal.removeCommand h sandboxId {| Removal.rm_force := Some true |} s
       = (Return Create.Completed, s') →
       ∃ cid,
         containerId c = Some cid
         ∧ Removal.trace s'
           = Removal.trace s
             ++ [Removal.Call (Host.StopContainer cid);
                 Removal.Call (Spec.save_of (SandboxManager.halted c))]
             ++ Behaviour.sweeping sandboxId (Host.stored (SandboxManager.halted c))
         ∧ (Host.succeeds (Removal.base h) (Host.Rm (Host.SandboxDir sandboxId)) = true →
            Spec.record_at (Removal.fs s') sandboxId = None))
  ∧ (∀ h sandboxId s c,
       Spec.record_at (Removal.fs s) sandboxId = Some c →
       Removal.confirm h = Return false →
       Removal.removeCommand h sandboxId {| Removal.rm_force := None |} s
       = (Return Create.Completed, s)).
Proof.
  split; [|split].
  - intros h sandboxId options s. unfold Removal.removeCommand, Removal.try_catch.
    destruct (Removal.bind _ _ s) as [[out|e] s1]; by eexists _, _.
  - intros h sandboxId s c s' Hc Hid Hrun.
    unfold Removal.removeCommand, Removal.try_catch at 1, Removal.bind at 1.
    rewrite inner_getSandbox, Hc.
    rewrite bool_decide_true by done.
    unfold Removal.confirmed, Removal.bind, Removal.try_catch, Removal.throw,
      Removal.ret.
    cbn -[Removal.inner Removal.removeSandbox].
    destruct (Removal.inner (SandboxManager.stopSandbox (Removal.base h) sandboxId) s)
      as [[[]|e] s1] eqn:Hstop; [|by intros [=]].
    apply inner_stopSandbox_Return in Hstop as (c' & cid & Hc' & Hcid & _ & ->).
    rewrite Hc in Hc'. injection Hc' as <-.
    rewrite (removeSandbox_at_rest _ _ _ (Host.stored (SandboxManager.halted c))).
    + intros [= <-]. exists cid. split; [done|]. cbn [Removal.trace Removal.fs].
      split; [by rewrite <- app_assoc|].
      intros Hok. by apply record_at_swept_gone.
    + cbn [Removal.fs]. rewrite <- Hid.
      apply (record_at_saved (SandboxManager.halted c)).
    + done.
  - intros h sandboxId s c Hc Hno.
    unfold Removal.removeCommand, Removal.try_catch, Removal.bind.
    rewrite inner_getSandbox, Hc.
    unfold Removal.confirmed, Removal.lift. cbn [Create.is_true default].
    by rewrite Hno.
Qed.

Lemma removeCommand_stops_once_witness :
  ∃ cid,
    containerId (SandboxManager.started Examples.record_a 50000) = Some cid
    ∧ Removal.trace
        (Removal.removeCommand Samples.helpful "a"
           {| Removal.rm_force := Some true |}
           (Removal.new Samples.disk_running)).2
      = Removal.trace (Removal.new Samples.disk_running)
        ++ [Removal.Call (Host.StopContainer cid);
            Removal.Call
              (Spec.save_of
                 (SandboxManager.halted
                    (SandboxManager.started Examples.record_a 50000)))]
        ++ Behaviour.sweeping "a"
             (Host.stored
                (SandboxManager.halted
                   (SandboxManager.started Examples.record_a 50000)))
    ∧ (Host.succeeds (Removal.base Samples.helpful) (Host.Rm (Host.SandboxDir "a"))
       = true →
       Spec.record_at
         (Removal.fs
            (Removal.removeCommand Samples.helpful "a"
               {| Removal.rm_force := Some true |}
               (Removal.new Samples.disk_running)).2) "a"
       = None).
Proof.
  apply (proj1 (proj2 removeCommand_stops_once) Samples.helpful "a"
           (Removal.new Samples.disk_running)
           (SandboxManager.started Examples.record_a 50000)).
  - vm_compute. reflexivity.
  - reflexivity.
  - reflexivity.
  - vm_compute. reflexivity.
Defined.

Section Sweeping.

Import Removal.

Lemma removeSandbox_missing h sandboxId s :
  Spec.record_at (fs s) sandboxId = None →
  removeSandbox h sandboxId s
  = (Throw (Error [Lit "Sandbox "; Lit sandboxId; Lit " not found"]), s).
Proof.
  intros Hnone. unfold removeSandbox, bind. by rewrite inner_getSandbox, Hnone.
Qed.

Lemma swept_apart h sandboxId c d :
  (∀ url branch path,
     git c = Some {| git_url := url; git_branch := branch;
                     git_clonePath := Some path |} →
     reaches h path = Elsewhere) →
  Behaviour.swept h sandboxId c d = d
  ∨ Behaviour.swept h sandboxId c d = without sandboxId d.
Proof.
  intros Hapart. unfold Behaviour.swept.
  destruct (git c) as [[url branch [clonePath|]]|];
    try (destruct (_ && _); rewrite ?(Hapart url branch clonePath eq_refl); simpl);
    destruct (Host.succeeds _ _); auto.
Qed.

Lemma sweeping_quiet sandboxId c :
  Forall (λ ev, Behaviour.stops ev = false) (Behaviour.sweeping sandboxId c).
Proof.
  unfold Behaviour.sweeping.
  destruct (truthy_string _), (git c) as [[url branch [clonePath|]]|];
    try destruct (negb _); simpl; repeat constructor.
Qed.

(** What a listing gives and leaves. *)
Lemma inner_listSandboxes h s :
  ∃ listed d evs,
    inner (SandboxManager.listSandboxes h) s
    = (Return listed, {| fs := d; mcpProxy := mcpProxy s; trace := trace s ++ evs |})
    ∧ Host.configs d = Host.configs (fs s)
    ∧ Forall (λ ev, Behaviour.stops ev = false) evs
    ∧ ∀ c, c ∈ listed → ∃ entry, Spec.record_at (fs s) entry = Some c.
Proof.
  unfold inner, SandboxManager.listSandboxes, SandboxManager.try_catch,
    SandboxManager.bind, SandboxManager.call, SandboxManager.readdir_sandboxes,
    SandboxManager.ret.
  cbn -[SandboxManager.collect SandboxManager.sort].
  destruct (_ || _); cbn -[SandboxManager.collect SandboxManager.sort].
  { eexists _, _, _. split; [reflexivity|]. split; [done|].
    split; [by repeat constructor|]. intros c Hin. by apply elem_of_nil in Hin. }
  destruct (Host.sandboxes (fs s)) as [| | |names];
    cbn -[SandboxManager.collect SandboxManager.sort];
    try (eexists _, _, _; split; [reflexivity|]; split; [done|];
         split; [by repeat constructor|];
         intros c Hin; by apply elem_of_nil in Hin).
  rewrite collect_run. cbn -[SandboxManager.sort].
  eexists _, _, _. split; [reflexivity|]. split; [done|].
  split; [by repeat constructor|].
  intros c Hin. rewrite sort_perm in Hin.
  apply list_elem_of_omap in Hin as (entry & _ & Hc). by exists entry.
Qed.

Lemma record_at_configs d d' entry :
  Host.configs d' = Host.configs d →
  Spec.record_at d' entry = Spec.record_at d entry.
Proof. unfold Spec.record_at. by intros ->. Qed.

(** The loop of [cleanup] over sandboxes at rest: it returns, stops no
    container, and every record it leaves is one that was there, those in
    use among them. *)
Lemma sweep_at_rest h d0 :
  Behaviour.clones_apart h d0 →
  ∀ sandboxes s,
    Forall (λ sandbox, ¬ Behaviour.in_use sandbox
                       ∧ Spec.record_at d0 (id sandbox) = Some sandbox) sandboxes →
    (∀ entry c, Spec.record_at (fs s) entry = Some c →
                Spec.record_at d0 entry = Some c) →
    (∀ entry c, Spec.record_at d0 entry = Some c → Behaviour.in_use c →
                Spec.record_at (fs s) entry = Some c) →
    ∃ counts d evs,
      sweep h sandboxes s
      = (Return counts, {| fs := d; mcpProxy := mcpProxy s; trace := trace s ++ evs |})
      ∧ (∀ entry c, Spec.record_at d entry = Some c →
                    Spec.record_at d0 entry = Some c)
      ∧ (∀ entry c, Spec.record_at d0 entry = Some c → Behaviour.in_use c →
                    Spec.record_at d entry = Some c)
      ∧ Forall (λ ev, Behaviour.stops ev = false) evs.
Proof.
  intros Hapart sandboxes.
  induction sandboxes as [|sandbox rest IH]; intros s Hrest Hsub Hkeep.
  { exists (O, O), (fs s), []. simpl. unfold ret.
    rewrite state_eta. by repeat split. }
  apply Forall_cons in Hrest as [[Hidle Hfiled] Hrest].
  assert (Hstill : status sandbox ≠ running) by (intros ?; apply Hidle; by left).
  cbn [sweep]. unfold bind at 1, try_catch, bind at 1.
  rewrite bool_decide_false by done. unfold ret at 1, bind at 1.
  destruct (Spec.record_at (fs s) (id sandbox)) as [c|] eqn:Hc.
  - assert (c = sandbox) as -> by (apply Hsub in Hc; congruence).
    rewrite (removeSandbox_at_rest _ _ _ sandbox) by done.
    unfold ret at 1, bind.
    edestruct (IH {| fs := Behaviour.swept h (id sandbox) sandbox (fs s);
                     mcpProxy := mcpProxy s;
                     trace := trace s ++ Behaviour.sweeping (id sandbox) sandbox |})
      as (counts & d & evs & -> & Hsub' & Hkeep' & Hquiet); [done| | |].
    + cbn [fs]. intros entry c.
      destruct (swept_apart h (id sandbox) sandbox (fs s)
                  (λ url branch path, Hapart _ _ url branch path Hfiled))
        as [->| ->]; [by apply Hsub|].
      rewrite record_at_without. destruct (decide _); [done|by apply Hsub].
    + cbn [fs]. intros entry c Hentry Huse.
      destruct (swept_apart h (id sandbox) sandbox (fs s)
                  (λ url branch path, Hapart _ _ url branch path Hfiled))
        as [->| ->]; [by apply Hkeep|].
      rewrite record_at_without. destruct (decide _) as [->|]; [|by apply Hkeep].
      rewrite Hfiled in Hentry. by injection Hentry as <-.
    + cbn [mcpProxy trace]. unfold ret.
      eexists _, d, (Behaviour.sweeping (id sandbox) sandbox ++ evs).
      rewrite app_assoc. split; [reflexivity|]. split; [done|]. split; [done|].
      apply Forall_app. split; [apply sweeping_quiet|done].
  - rewrite removeSandbox_missing by done. unfold ret at 1, bind.
    destruct (IH s) as (counts & d & evs & -> & Hsub' & Hkeep' & Hquiet);
      [done..|].
    unfold ret. by eexists _, d, evs.
Qed.

End Sweeping.

(** X29.  Without [--all], [cleanup] leaves every sandbox that is running
    or being created as it is, and stops no container, provided every record
    sits in the directory of its [id] and removing the clone of a recorded
    sandbox takes nothing away from the sandboxes directory (no recorded
    clone path is that directory, one of its parents, or a path inside it).
    The command never throws, whatever the host does, and the records it
    leaves are records that were there. *)
Theorem cleanupCommand_spares_sandboxes_in_use :
  ∀ h options s,
    Create.is_true (Removal.cl_all options) = false →
    Behaviour.filed (Removal.fs s) →
    Behaviour.clones_apart h (Removal.fs s) →
    ∃ out s',
      Removal.cleanupCommand h options s = (Return out, s')
      ∧ (∀ entry c,
           Spec.record_at (Removal.fs s) entry = Some c → Behaviour.in_use c →
           Spec.record_at (Removal.fs s') entry = Some c)
      ∧ (∀ entry c,
           Spec.record_at (Removal.fs s') entry = Some c →
           Spec.record_at (Removal.fs s) entry = Some c)
      ∧ ∃ evs,
          Removal.trace s' = Removal.trace s ++ evs
          ∧ Forall (λ ev, Behaviour.stops ev = false) evs.
Proof.
  intros h options s Hall Hfiled Hapart.
  unfold Removal.cleanupCommand, Removal.try_catch, Removal.bind at 1.
  destruct (inner_listSandboxes (Removal.base h) s)
    as (listed & d1 & evs1 & -> & Hd1 & Hquiet1 & Hlisted).
  assert (Hsame : ∀ entry, Spec.record_at d1 entry = Spec.record_at (Removal.fs s) entry)
    by (intros entry; by apply record_at_configs).
  assert (Hstay : ∀ out : Removal.report,
    ∃ out' s',
      (Return out, {| Removal.fs := d1; Removal.mcpProxy := Removal.mcpProxy s;
                      Removal.trace := Removal.trace s ++ evs1 |})
      = (Return out', s')
      ∧ (∀ entry c,
           Spec.record_at (Removal.fs s) entry = Some c → Behaviour.in_use c →
           Spec.record_at (Removal.fs s') entry = Some c)
      ∧ (∀ entry c,
           Spec.record_at (Removal.fs s') entry = Some c →
           Spec.record_at (Removal.fs s) entry = Some c)
      ∧ ∃ evs,
          Removal.trace s' = Removal.trace s ++ evs
          ∧ Forall (λ ev, Behaviour.stops ev = false) evs).
  { intros out. eexists _, _. split; [reflexivity|]. cbn [Removal.fs Removal.trace].
    split; [intros entry c; by rewrite Hsame|].
    split; [intros entry c; by rewrite Hsame|]. by exists evs1. }
  destruct listed as [|first others]; [apply Hstay|].
  remember (first :: others) as listed eqn:Heq. clear Heq first others.
  destruct (Removal.selected options listed) as [|first others] eqn:Hsel;
    [apply Hstay|].
  rewrite <- Hsel. clear Hsel first others.
  unfold Removal.confirmed, Removal.bind at 1.
  assert (Hask : ∃ answer,
    (if Create.is_true (Removal.cl_force options)
     then Removal.ret true else Removal.lift (Removal.confirm h))
      {| Removal.fs := d1; Removal.mcpProxy := Removal.mcpProxy s;
         Removal.trace := Removal.trace s ++ evs1 |}
    = (answer, {| Removal.fs := d1; Removal.mcpProxy := Removal.mcpProxy s;
                  Removal.trace := Removal.trace s ++ evs1 |})).
  { unfold Removal.ret, Removal.lift.
    destruct (Create.is_true (Removal.cl_force options)); by eexists. }
  destruct Hask as ([[|]|e] & ->); cbn [negb].
  2, 3: apply Hstay.
  unfold Removal.bind at 1.
  destruct (sweep_at_rest h (Removal.fs s) Hapart (Removal.selected options listed)
              {| Removal.fs := d1; Removal.mcpProxy := Removal.mcpProxy s;
                 Removal.trace := Removal.trace s ++ evs1 |})
    as (counts & d2 & evs2 & -> & Hsub & Hkeep & Hquiet2).
  - unfold Removal.selected. rewrite Hall. apply Forall_forall.
    intros c [Hin Hstatus]%list_elem_of_In%filter_In.
    apply list_elem_of_In in Hin.
    destruct (Hlisted c Hin) as (entry & Hentry).
    split.
    + intros [Hrun|Hnew]; rewrite ?Hrun, ?Hnew in Hstatus; done.
    + by rewrite (Hfiled _ _ Hentry).
  - cbn [Removal.fs]. intros entry c. by rewrite Hsame.
  - cbn [Removal.fs]. intros entry c. by rewrite Hsame.
  - cbn [Removal.mcpProxy Removal.trace]. unfold Removal.bind.
    destruct (inner_listSandboxes (Removal.base h)
                {| Removal.fs := d2; Removal.mcpProxy := Removal.mcpProxy s;
                   Removal.trace := (Removal.trace s ++ evs1) ++ evs2 |})
      as (remaining & d3 & evs3 & -> & Hd3 & Hquiet3 & _).
    cbn [Removal.fs Removal.mcpProxy Removal.trace] in *. unfold Removal.ret.
    eexists _, _. split; [reflexivity|]. cbn [Removal.fs Removal.trace].
    split; [|split].
    + intros entry c Hentry Huse. rewrite (record_at_configs d2) by done.
      by apply Hkeep.
    + intros entry c. rewrite (record_at_configs d2) by done. apply Hsub.
    + exists (evs1 ++ evs2 ++ evs3). rewrite !app_assoc. split; [done|].
      rewrite <- app_assoc. by rewrite !Forall_app.
Qed.

Lemma disk_running_filed : Behaviour.filed Samples.disk_running.
Proof.
  intros entry c. unfold Spec.record_at. simpl.
  destruct (decide (entry = "a")) as [->|Ha].
  { rewrite lookup_insert_eq. by intros [= <-]. }
  rewrite lookup_insert_ne by done.
  destruct (decide (entry = "b")) as [->|Hb].
  { rewrite lookup_insert_eq. by intros [= <-]. }
  rewrite lookup_insert_ne by done. by rewrite lookup_empty.
Qed.

Lemma cleanupCommand_spares_sandboxes_in_use_witness :
  ∃ out s',
    Removal.cleanupCommand Samples.helpful
      {| Removal.cl_all := None; Removal.cl_force := Some true |}
      (Removal.new Samples.disk_running)
    = (Return out, s')
    ∧ (∀ entry c,
         Spec.record_at (Removal.fs (Removal.new Samples.disk_running)) entry
         = Some c →
         Behaviour.in_use c →
         Spec.record_at (Removal.fs s') entry = Some c)
    ∧ (∀ entry c,
         Spec.record_at (Removal.fs s') entry = Some c →
         Spec.record_at (Removal.fs (Removal.new Samples.disk_running)) entry
         = Some c)
    ∧ ∃ evs,
        Removal.trace s' = Removal.trace (Removal.new Samples.disk_running) ++ evs
        ∧ Forall (λ ev, Behaviour.stops ev = false) evs.
Proof.
  apply (cleanupCommand_spares_sandboxes_in_use Samples.helpful
           {| Removal.cl_all := None; Removal.cl_force := Some true |}
           (Removal.new Samples.disk_running)).
  - reflexivity.
  - apply disk_running_filed.
  - intros entry c url branch path _ _. reflexivity.
Defined.
